(** * The ledger engine of the BALANCA backend

    A shallow embedding of [internal/services/transaction_service.go] and of
    the repositories and models it uses, with the properties of the ledger
    stated and proved over it.

    - 64-bit integers ([int64]) are integers with the two's-complement
      wrap-around written out ([Int64.wrap]).
    - The database is a record of tables.  Tables with a primary key that
      the engine looks up by id are finite maps; the transaction log and the
      audit log are lists in insertion order.
    - A GORM transaction ([db.Begin], [tx.Create], [tx.Save], [tx.Commit],
      [tx.Rollback]) is a pending copy of the database that replaces the
      committed one on commit and is dropped on rollback.
    - Storage calls can fail; which ones do is decided by the environment
      ([Env]), as are the identifiers drawn by [uuid.New] and the clock.
    - A Go panic is an outcome of its own ([Panicked]); the deferred
      [recover] of each service method is [recovering].
    - Rows that are soft-deleted are invisible to every query of the
      engine; the tables hold the visible rows.  The clock is read once per
      call.
    - The services around the ledger (reading a transaction back, the
      planned-expense service, the memberships of the group service, the
      balance at a date of the report service) follow the engine; they run
      their statements outside any transaction. *)

From Stdlib Require Import ZArith Lia.
From stdpp Require Import gmap strings list sorting.

Local Open Scope string_scope.
Local Open Scope list_scope.
Local Open Scope Z_scope.

(** ** 64-bit signed integers *)

Module Int64.

Definition min : Z := - 2 ^ 63.
Definition max : Z := 2 ^ 63 - 1.

Definition in_range (z : Z) : Prop := min <= z <= max.

(** Two's-complement reduction to 64 bits. *)
Definition wrap (z : Z) : Z := (z + 2 ^ 63) mod 2 ^ 64 - 2 ^ 63.

(** Go's [+] and [-] on [int64]. *)
Definition add (a b : Z) : Z := wrap (a + b).
Definition sub (a b : Z) : Z := wrap (a - b).

End Int64.

(** ** Identifiers, time, JSON values *)

(** [uuid.UUID]: 128 bits, read as a number; [uuid.Nil] is zero. *)
Abbreviation UUID := N (only parsing).
Definition uuid_Nil : UUID := 0%N.

(** [time.Time], as a number of ticks. *)
Abbreviation Time := Z (only parsing).

(** The values stored in the [map[string]interface{}] metadata;
    [JUuid id] is [id.String()]. *)
Inductive JSON :=
| JBool (b : bool)
| JInt (z : Z)
| JString (s : string)
| JUuid (id : UUID).

(** ** Models ([internal/models])

    The fields are those of the Go structs that the ledger engine reads or
    writes; the field [Type] is spelled [Type_]. *)

Module User.
Record t := mk {
  ID : UUID;
  CreatedAt : Time;
  PhoneNumber : string;
  Email : string;
  FirstName : string;
  LastName : string;
  Balance : Z;
  IsActive : bool
}.
Definition zero : t := mk uuid_Nil 0 "" "" "" "" 0 false.
Definition with_Balance (u : t) (b : Z) : t :=
  mk (ID u) (CreatedAt u) (PhoneNumber u) (Email u) (FirstName u)
     (LastName u) b (IsActive u).
End User.

Module Group.
Record t := mk {
  ID : UUID;
  CreatedAt : Time;
  Name : string;
  Description : string;
  Balance : Z;
  CreatedBy : UUID;
  IsActive : bool
}.
Definition zero : t := mk uuid_Nil 0 "" "" 0 uuid_Nil false.
Definition with_Balance (g : t) (b : Z) : t :=
  mk (ID g) (CreatedAt g) (Name g) (Description g) b (CreatedBy g)
     (IsActive g).
End Group.

Module UserGroup.
Record t := mk {
  ID : UUID;
  UserID : UUID;
  GroupID : UUID;
  Role : string;
  Status : string
}.
Definition zero : t := mk uuid_Nil uuid_Nil uuid_Nil "" "".
End UserGroup.

Module Transaction.
Record t := mk {
  ID : UUID;
  CreatedAt : Time;
  OwnerType : string;
  OwnerID : UUID;
  Type_ : string;
  Amount : Z;
  Balance : Z;
  Category : string;
  Source : string;
  Description : string;
  Metadata : list (string * JSON);
  GroupID : option UUID;
  PaidBy : option UUID;
  PlannedExpenseID : option UUID;
  UserID : UUID
}.
Definition zero : t :=
  mk uuid_Nil 0 "" uuid_Nil "" 0 0 "" "" "" [] None None None uuid_Nil.
Definition with_ID (x : t) (id : UUID) (at_ : Time) : t :=
  mk id at_ (OwnerType x) (OwnerID x) (Type_ x) (Amount x) (Balance x)
     (Category x) (Source x) (Description x) (Metadata x) (GroupID x)
     (PaidBy x) (PlannedExpenseID x) (UserID x).
Definition with_PlannedExpenseID (x : t) (p : option UUID) : t :=
  mk (ID x) (CreatedAt x) (OwnerType x) (OwnerID x) (Type_ x) (Amount x)
     (Balance x) (Category x) (Source x) (Description x) (Metadata x)
     (GroupID x) (PaidBy x) p (UserID x).
End Transaction.

Module PlannedExpense.
Record t := mk {
  ID : UUID;
  Item : string;
  EstimatedPrice : Z;
  ActualPrice : option Z;
  Category : string;
  Status : string;
  GroupID : option UUID;
  UserID : UUID;
  PaidBy : option UUID;
  PaidAt : option Time
}.
Definition zero : t :=
  mk uuid_Nil "" 0 None "" "" None uuid_Nil None None.
(** The four assignments of [PayGroupExpense] before [tx.Save(expense)]. *)
Definition bought (e : t) (price : Z) (by_ : UUID) (at_ : Time) : t :=
  mk (ID e) (Item e) (EstimatedPrice e) (Some price) (Category e)
     "bought" (GroupID e) (UserID e) (Some by_) (Some at_).
End PlannedExpense.

Module AuditLog.
Record t := mk {
  ID : UUID;
  Entity : string;
  EntityID : UUID;
  Action : string;
  Changes : list (string * JSON);
  PerformedBy : UUID;
  PerformedAt : Time;
  GroupID : option UUID
}.
Definition with_ID (a : t) (id : UUID) (at_ : Time) : t :=
  mk id (Entity a) (EntityID a) (Action a) (Changes a) (PerformedBy a)
     at_ (GroupID a).
End AuditLog.

(** ** Requests and responses ([internal/dto]) *)

Module CreateTransactionRequest.
Record t := mk {
  Type_ : string;
  Amount : Z;
  Category : string;
  Source : string;
  Description : string;
  GroupID : option UUID;
  PaidBy : option UUID;
  PlannedExpenseID : option UUID
}.
End CreateTransactionRequest.

Module TransferToGroupRequest.
Record t := mk {
  GroupID : UUID;
  Amount : Z;
  Description : string
}.
End TransferToGroupRequest.

Module PayGroupExpenseRequest.
Record t := mk {
  PlannedExpenseID : UUID;
  ActualPrice : Z;
  Description : string
}.
End PayGroupExpenseRequest.

Module UserResponse.
Record t := mk {
  ID : UUID;
  PhoneNumber : string;
  Email : string;
  FirstName : string;
  LastName : string;
  Balance : Z;
  IsActive : bool;
  CreatedAt : Time
}.
End UserResponse.

Module GroupResponse.
Record t := mk {
  ID : UUID;
  Name : string;
  Description : string;
  Balance : Z;
  CreatedBy : UUID;
  IsActive : bool;
  CreatedAt : Time
}.
End GroupResponse.

Module TransactionResponse.
Record t := mk {
  ID : UUID;
  OwnerType : string;
  OwnerID : UUID;
  Type_ : string;
  Amount : Z;
  Balance : Z;
  Category : string;
  Source : string;
  Description : string;
  CreatedAt : Time;
  GroupID : option UUID;
  PaidBy : option UUID;
  PlannedExpenseID : option UUID;
  Group : option GroupResponse.t;
  Payer : option UserResponse.t
}.
End TransactionResponse.

(** [errors.AppError]. *)
Record AppError := mkAppError { Code : string; Message : string }.

(** What a service method returns: a pointer to a [dto.TransactionResponse]
    and an [error], either of which can be nil. *)
Definition Reply : Type := option TransactionResponse.t * option AppError.

(** ** The database *)

Record DB := mkDB {
  users : gmap N User.t;
  groups : gmap N Group.t;
  user_groups : list UserGroup.t;
  transactions : list Transaction.t;
  planned_expenses : gmap N PlannedExpense.t;
  audit_logs : list AuditLog.t
}.

Definition put_user (u : User.t) (d : DB) : DB :=
  mkDB (<[User.ID u := u]> (users d)) (groups d) (user_groups d)
       (transactions d) (planned_expenses d) (audit_logs d).

Definition put_group (g : Group.t) (d : DB) : DB :=
  mkDB (users d) (<[Group.ID g := g]> (groups d)) (user_groups d)
       (transactions d) (planned_expenses d) (audit_logs d).

Definition put_planned_expense (e : PlannedExpense.t) (d : DB) : DB :=
  mkDB (users d) (groups d) (user_groups d) (transactions d)
       (<[PlannedExpense.ID e := e]> (planned_expenses d)) (audit_logs d).

Definition add_transaction (t : Transaction.t) (d : DB) : DB :=
  mkDB (users d) (groups d) (user_groups d) (transactions d ++ [t])
       (planned_expenses d) (audit_logs d).

Definition add_audit_log (a : AuditLog.t) (d : DB) : DB :=
  mkDB (users d) (groups d) (user_groups d) (transactions d)
       (planned_expenses d) (audit_logs d ++ [a]).

(** ** Storage calls, the environment, and the state of a service call *)

(** The storage calls of the ledger engine.  Where a method issues the same
    kind of write twice ([TransferToGroup]), the argument is its rank. *)
Inductive Call :=
| FindUser
| FindGroup
| FindUserGroup
| FindPlannedExpense
| FindTransaction
| CreateTransaction (n : nat)
| SaveUser
| SaveGroup
| SavePlannedExpense
| CreateAuditLog (n : nat)
| Commit.

#[global] Instance Call_eq_dec : EqDecision Call.
Proof. solve_decision. Defined.

(** What the engine does not decide: which storage calls return an error,
    the identifiers [uuid.New] draws, and the clock. *)
Record Env := mkEnv {
  fails : Call -> bool;
  uuid_New : nat -> UUID;
  time_Now : Time
}.

Inductive Event :=
| EvBegin
| EvWrote (c : Call)
| EvFailed (c : Call)
| EvCommitted
| EvRollback.

Record World := mkWorld {
  committed : DB;          (* what every connection of [s.db] sees *)
  pending : option DB;     (* the open transaction [tx], if any *)
  drawn : nat;             (* how many identifiers were drawn *)
  trace : list Event
}.

Definition log (e : Event) (w : World) : World :=
  mkWorld (committed w) (pending w) (drawn w) (trace w ++ [e]).

(** ** The monad of service code: state, and panics *)

Inductive Res (A : Type) :=
| Val (a : A)
| Panicked.
Arguments Val {A} a.
Arguments Panicked {A}.

Definition Svc (A : Type) : Type := World -> Res A * World.

Definition ret {A} (a : A) : Svc A := fun w => (Val a, w).

Definition bind {A B} (m : Svc A) (k : A -> Svc B) : Svc B :=
  fun w =>
    match m w with
    | (Val a, w') => k a w'
    | (Panicked, w') => (Panicked, w')
    end.

Definition panic {A} : Svc A := fun w => (Panicked, w).

(** Dereferencing a pointer: nil panics. *)
Definition deref {A} (p : option A) : Svc A :=
  match p with
  | Some a => ret a
  | None => panic
  end.

Declare Scope svc_scope.
Delimit Scope svc_scope with svc.
Notation "x <- m ;; k" := (bind m (fun x => k))
  (at level 20, m at level 99, k at level 200, only parsing) : svc_scope.
Notation "' pat <- m ;; k" := (bind m (fun x => match x with pat => k end))
  (at level 20, pat pattern, m at level 99, k at level 200, only parsing) : svc_scope.
Notation "m ;; k" := (bind m (fun _ => k))
  (at level 100, k at level 200, only parsing, right associativity) : svc_scope.
Local Open Scope svc_scope.

(** The Go value [nil]. *)
Abbreviation nil_ := None (only parsing).

Definition error (code message : string) : option AppError :=
  Some (mkAppError code message).

Section Engine.

Variable env : Env.

(** *** Transactions ([gorm.DB]) *)

(** [tx := s.db.Begin()] *)
Definition Begin : Svc unit := fun w =>
  (Val tt, log EvBegin (mkWorld (committed w) (Some (committed w)) (drawn w) (trace w))).

(** [tx.Rollback()] *)
Definition Rollback : Svc unit := fun w =>
  (Val tt, log EvRollback (mkWorld (committed w) None (drawn w) (trace w))).

(** [tx.Commit().Error], true when it is not nil. *)
Definition Commit_ : Svc bool := fun w =>
  match pending w with
  | Some p =>
      if fails env Commit then (Val true, log (EvFailed Commit) w)
      else (Val false, log EvCommitted (mkWorld p None (drawn w) (trace w)))
  | None => (Val true, log (EvFailed Commit) w)
  end.

(** A statement run on [tx]: it fails when the environment says so or
    when [check] (a constraint of the table) rejects it; otherwise
    [apply] is its effect on the pending state. *)
Definition exec (c : Call) (check : DB -> bool) (apply : DB -> DB) : Svc bool :=
  fun w =>
    match pending w with
    | Some p =>
        if fails env c || negb (check p) then (Val true, log (EvFailed c) w)
        else (Val false,
              log (EvWrote c) (mkWorld (committed w) (Some (apply p)) (drawn w) (trace w)))
    | None => (Val true, log (EvFailed c) w)
    end.

(** [uuid.New()] *)
Definition uuid_new : Svc UUID := fun w =>
  (Val (uuid_New env (drawn w)),
   mkWorld (committed w) (pending w) (S (drawn w)) (trace w)).

(** The [BeforeCreate] hooks: a nil [ID] is replaced by a new one. *)
Definition BeforeCreate (id : UUID) : Svc UUID :=
  if bool_decide (id = uuid_Nil) then uuid_new else ret id.

Definition fresh_transaction_ID (id : UUID) (d : DB) : bool :=
  bool_decide (id ∉ Transaction.ID <$> transactions d).

Definition fresh_audit_log_ID (id : UUID) (d : DB) : bool :=
  bool_decide (id ∉ AuditLog.ID <$> audit_logs d).

(** [tx.Create(transaction)]: the hook, then the insert; the primary key
    rejects an [ID] that is already in the table.  The record with its
    [ID] and [CreatedAt] filled in is what the pointer holds afterwards. *)
Definition tx_Create_Transaction (n : nat) (t : Transaction.t)
  : Svc (Transaction.t * bool) :=
  id <- BeforeCreate (Transaction.ID t) ;;
  let t := Transaction.with_ID t id (time_Now env) in
  err <- exec (CreateTransaction n) (fresh_transaction_ID id) (add_transaction t) ;;
  ret (t, err).

(** [tx.Create(auditLog)] *)
Definition tx_Create_AuditLog (n : nat) (a : AuditLog.t) : Svc bool :=
  id <- BeforeCreate (AuditLog.ID a) ;;
  let a := AuditLog.with_ID a id (time_Now env) in
  exec (CreateAuditLog n) (fresh_audit_log_ID id) (add_audit_log a).

(** [tx.Save(user)], [tx.Save(group)], [tx.Save(expense)]: the row with
    the record's primary key is written (updated, or inserted when there
    is none). *)
Definition tx_Save_User (u : User.t) : Svc bool :=
  exec SaveUser (fun _ => true) (put_user u).

Definition tx_Save_Group (g : Group.t) : Svc bool :=
  exec SaveGroup (fun _ => true) (put_group g).

Definition tx_Save_PlannedExpense (e : PlannedExpense.t) : Svc bool :=
  exec SavePlannedExpense (fun _ => true) (put_planned_expense e).

(** *** Repositories

    They run on [r.db], not on [tx]: they read the committed state.  A
    Go result [(p, err)] is a pair whose second component is true when
    [err] is not nil. *)

Definition query {A} (f : DB -> A) : Svc A := fun w => (Val (f (committed w)), w).

(** [userRepository.FindByID]: a missing record is [(nil, nil)]. *)
Definition userRepo_FindByID_on (id : UUID) (d : DB) : option User.t * bool :=
  if fails env FindUser then (nil_, true)
  else match users d !! id with
       | None => (nil_, false)
       | Some u => (Some u, false)
       end.
Definition userRepo_FindByID (id : UUID) := query (userRepo_FindByID_on id).

(** [groupRepository.FindByID]: the pointer is never nil; a missing
    record is [gorm.ErrRecordNotFound]. *)
Definition groupRepo_FindByID_on (id : UUID) (d : DB) : Group.t * bool :=
  if fails env FindGroup then (Group.zero, true)
  else match groups d !! id with
       | None => (Group.zero, true)
       | Some g => (g, false)
       end.
Definition groupRepo_FindByID (id : UUID) := query (groupRepo_FindByID_on id).

(** [First] orders by primary key: of the matching rows, the one with
    the least [ID]. *)
Fixpoint first_by_ID (l : list UserGroup.t) : option UserGroup.t :=
  match l with
  | [] => None
  | x :: l' =>
      match first_by_ID l' with
      | None => Some x
      | Some y => if (UserGroup.ID x <=? UserGroup.ID y)%N then Some x else Some y
      end
  end.

Definition is_membership (userID groupID : UUID) (ug : UserGroup.t) : bool :=
  bool_decide (UserGroup.UserID ug = userID) && bool_decide (UserGroup.GroupID ug = groupID).

(** [groupRepository.FindByUserAndGroup] *)
Definition groupRepo_FindByUserAndGroup_on (userID groupID : UUID) (d : DB)
  : UserGroup.t * bool :=
  if fails env FindUserGroup then (UserGroup.zero, true)
  else match first_by_ID (filter (fun ug => is_membership userID groupID ug = true) (user_groups d)) with
       | None => (UserGroup.zero, true)
       | Some ug => (ug, false)
       end.
Definition groupRepo_FindByUserAndGroup (userID groupID : UUID) :=
  query (groupRepo_FindByUserAndGroup_on userID groupID).

(** [plannedExpenseRepository.FindByID] *)
Definition expenseRepo_FindByID_on (id : UUID) (d : DB) : PlannedExpense.t * bool :=
  if fails env FindPlannedExpense then (PlannedExpense.zero, true)
  else match planned_expenses d !! id with
       | None => (PlannedExpense.zero, true)
       | Some e => (e, false)
       end.
Definition expenseRepo_FindByID (id : UUID) := query (expenseRepo_FindByID_on id).

(** A transaction with the relations [Preload] fills in; a relation that
    has no row stays the zero value. *)
Record Loaded := mkLoaded {
  row : Transaction.t;
  rel_User : User.t;
  rel_Group : Group.t;
  rel_Payer : User.t
}.

Definition preload (d : DB) (t : Transaction.t) : Loaded :=
  mkLoaded t
    (default User.zero (users d !! Transaction.UserID t))
    (default Group.zero (Transaction.GroupID t ≫= fun g => groups d !! g))
    (default User.zero (Transaction.PaidBy t ≫= fun u => users d !! u)).

Definition find_transaction (id : UUID) (d : DB) : option Transaction.t :=
  snd <$> list_find (fun t => Transaction.ID t = id) (transactions d).

(** [transactionRepository.FindByID] *)
Definition transactionRepo_FindByID_on (id : UUID) (d : DB) : Loaded * bool :=
  let nothing := mkLoaded Transaction.zero User.zero Group.zero User.zero in
  if fails env FindTransaction then (nothing, true)
  else match find_transaction id d with
       | None => (nothing, true)
       | Some t => (preload d t, false)
       end.
Definition transactionRepo_FindByID (id : UUID) := query (transactionRepo_FindByID_on id).

(** [transactionRepository.GetBalance]: the SQL aggregate
    [SUM(CASE WHEN type = 'CREDIT' THEN amount ELSE -amount END)] over the
    owner's rows.  PostgreSQL sums [bigint] in [numeric]: the sum is the
    integer sum, without wrap-around. *)
Definition signed_amount (t : Transaction.t) : Z :=
  if bool_decide (Transaction.Type_ t = "CREDIT") then Transaction.Amount t
  else - Transaction.Amount t.

Definition owned_by (ownerType : string) (ownerID : UUID) (t : Transaction.t) : bool :=
  bool_decide (Transaction.OwnerType t = ownerType) && bool_decide (Transaction.OwnerID t = ownerID).

Fixpoint signed_sum (ownerType : string) (ownerID : UUID) (l : list Transaction.t) : Z :=
  match l with
  | [] => 0
  | t :: l' =>
      (if owned_by ownerType ownerID t then signed_amount t else 0)
      + signed_sum ownerType ownerID l'
  end.

Definition GetBalance (ownerType : string) (ownerID : UUID) (d : DB) : Z :=
  signed_sum ownerType ownerID (transactions d).

(** *** The transaction service ([transaction_service.go]) *)

(** [defer func() { if r := recover(); r != nil { tx.Rollback() } }()]:
    a panic in the body is recovered after a rollback, and the method then
    returns the zero values of its results, [(nil, nil)]. *)
Definition recovering (body : Svc Reply) : Svc Reply := fun w =>
  match body w with
  | (Val r, w') => (Val r, w')
  | (Panicked, w') => (Val (nil_, nil_), snd (Rollback w'))
  end.

Definition mapTransactionToResponse (transaction : Loaded) : TransactionResponse.t :=
  let t := row transaction in
  TransactionResponse.mk
    (Transaction.ID t) (Transaction.OwnerType t) (Transaction.OwnerID t)
    (Transaction.Type_ t) (Transaction.Amount t) (Transaction.Balance t)
    (Transaction.Category t) (Transaction.Source t) (Transaction.Description t)
    (Transaction.CreatedAt t)
    (Transaction.GroupID t) (Transaction.PaidBy t) (Transaction.PlannedExpenseID t)
    (* Add group info if available *)
    (if bool_decide (Transaction.GroupID t <> nil_)
        && bool_decide (Group.ID (rel_Group transaction) <> uuid_Nil)
     then let g := rel_Group transaction in
          Some (GroupResponse.mk (Group.ID g) (Group.Name g) (Group.Description g)
                  (Group.Balance g) (Group.CreatedBy g) (Group.IsActive g)
                  (Group.CreatedAt g))
     else None)
    (* Add user info if available *)
    (if bool_decide (User.ID (rel_User transaction) <> uuid_Nil)
     then let u := rel_User transaction in
          Some (UserResponse.mk (User.ID u) (User.PhoneNumber u) (User.Email u)
                  (User.FirstName u) (User.LastName u) (User.Balance u)
                  (User.IsActive u) (User.CreatedAt u))
     else None).

(** The tail shared by the five methods: read the committed transaction
    back and map it to the response. *)
Definition respond (id : UUID) : Svc Reply :=
  '(fullTransaction, err) <- transactionRepo_FindByID id ;;
  if err then ret (nil_, error "SERVER_ERROR" "Failed to get transaction data")
  else ret (Some (mapTransactionToResponse fullTransaction), nil_).

(** [respond] leaves the state alone; its reply is a function of the
    committed database. *)
Definition read_back (id : UUID) (d : DB) : Reply :=
  let '(fullTransaction, err) := transactionRepo_FindByID_on id d in
  if err then (nil_, error "SERVER_ERROR" "Failed to get transaction data")
  else (Some (mapTransactionToResponse fullTransaction), nil_).

Definition CreatePersonalTransaction (userID : UUID) (req : CreateTransactionRequest.t)
  : Svc Reply :=
  (* Start transaction *)
  Begin ;;
  recovering (
    (* Get user and current balance *)
    '(user, err) <- userRepo_FindByID userID ;;
    if err then
      Rollback ;; ret (nil_, error "USER_NOT_FOUND" "User not found")
    else
    (* Calculate new balance; [user.Balance] dereferences [user] first on
       either branch *)
    user <- deref user ;;
    let credit := bool_decide (CreateTransactionRequest.Type_ req = "CREDIT") in
    if negb credit && (User.Balance user <? CreateTransactionRequest.Amount req) then
      Rollback ;; ret (nil_, error "INSUFFICIENT_BALANCE" "Insufficient balance")
    else
    let newBalance :=
      if credit then Int64.add (User.Balance user) (CreateTransactionRequest.Amount req)
      else Int64.sub (User.Balance user) (CreateTransactionRequest.Amount req) in
    (* Create transaction *)
    '(transaction, err) <- tx_Create_Transaction 1
      (Transaction.mk uuid_Nil 0 "USER" userID
         (CreateTransactionRequest.Type_ req) (CreateTransactionRequest.Amount req)
         newBalance
         (CreateTransactionRequest.Category req) (CreateTransactionRequest.Source req)
         (CreateTransactionRequest.Description req)
         [("personal", JBool true)]
         nil_ nil_ nil_ userID) ;;
    if err then
      Rollback ;; ret (nil_, error "SERVER_ERROR" "Failed to create transaction")
    else
    (* Update user balance *)
    let user := User.with_Balance user newBalance in
    err <- tx_Save_User user ;;
    if err then
      Rollback ;; ret (nil_, error "SERVER_ERROR" "Failed to create transaction")
    else
    (* Create audit log *)
    err <- tx_Create_AuditLog 1
      (AuditLog.mk uuid_Nil "transaction" (Transaction.ID transaction) "create"
         [("type", JString (CreateTransactionRequest.Type_ req));
          ("amount", JInt (CreateTransactionRequest.Amount req))]
         userID 0 nil_) ;;
    if err then
      Rollback ;; ret (nil_, error "SERVER_ERROR" "Failed to create transaction")
    else
    (* Commit transaction *)
    err <- Commit_ ;;
    if err then
      Rollback ;; ret (nil_, error "SERVER_ERROR" "Failed to create transaction")
    else
    (* Get full transaction data *)
    respond (Transaction.ID transaction)).

(** The membership test of the group methods:
    [err != nil || userGroup.Status != "active"]. *)
Definition not_active_member (r : UserGroup.t * bool) : bool :=
  snd r || negb (bool_decide (UserGroup.Status (fst r) = "active")).

Definition CreateGroupTransaction (userID : UUID) (req : CreateTransactionRequest.t)
  : Svc Reply :=
  match CreateTransactionRequest.GroupID req with
  | None => ret (nil_, error "INVALID_REQUEST" "Group ID is required")
  | Some groupID =>
    (* Check if user is a member of the group *)
    userGroup <- groupRepo_FindByUserAndGroup userID groupID ;;
    if not_active_member userGroup then
      ret (nil_, error "FORBIDDEN" "You are not a member of this group")
    else
    (* Start transaction *)
    Begin ;;
    recovering (
      (* Get group and current balance *)
      '(group, err) <- groupRepo_FindByID groupID ;;
      if err then
        Rollback ;; ret (nil_, error "GROUP_NOT_FOUND" "Group not found")
      else
      (* Calculate new balance *)
      let credit := bool_decide (CreateTransactionRequest.Type_ req = "CREDIT") in
      if negb credit && (Group.Balance group <? CreateTransactionRequest.Amount req) then
        Rollback ;; ret (nil_, error "INSUFFICIENT_BALANCE" "Insufficient group balance")
      else
      let newBalance :=
        if credit then Int64.add (Group.Balance group) (CreateTransactionRequest.Amount req)
        else Int64.sub (Group.Balance group) (CreateTransactionRequest.Amount req) in
      (* Create transaction *)
      let transaction :=
        Transaction.mk uuid_Nil 0 "GROUP" groupID
          (CreateTransactionRequest.Type_ req) (CreateTransactionRequest.Amount req)
          newBalance
          (CreateTransactionRequest.Category req) (CreateTransactionRequest.Source req)
          (CreateTransactionRequest.Description req)
          [("group", JBool true)]
          (Some groupID) (CreateTransactionRequest.PaidBy req) nil_ userID in
      let transaction :=
        match CreateTransactionRequest.PlannedExpenseID req with
        | Some p => Transaction.with_PlannedExpenseID transaction (Some p)
        | None => transaction
        end in
      '(transaction, err) <- tx_Create_Transaction 1 transaction ;;
      if err then
        Rollback ;; ret (nil_, error "SERVER_ERROR" "Failed to create transaction")
      else
      (* Update group balance *)
      let group := Group.with_Balance group newBalance in
      err <- tx_Save_Group group ;;
      if err then
        Rollback ;; ret (nil_, error "SERVER_ERROR" "Failed to create transaction")
      else
      (* Create audit log *)
      err <- tx_Create_AuditLog 1
        (AuditLog.mk uuid_Nil "transaction" (Transaction.ID transaction) "create"
           [("type", JString (CreateTransactionRequest.Type_ req));
            ("amount", JInt (CreateTransactionRequest.Amount req))]
           userID 0 (Some groupID)) ;;
      if err then
        Rollback ;; ret (nil_, error "SERVER_ERROR" "Failed to create transaction")
      else
      (* Commit transaction *)
      err <- Commit_ ;;
      if err then
        Rollback ;; ret (nil_, error "SERVER_ERROR" "Failed to create transaction")
      else
      (* Get full transaction data *)
      respond (Transaction.ID transaction))
  end.

Definition TransferToGroup (userID : UUID) (req : TransferToGroupRequest.t) : Svc Reply :=
  let groupID := TransferToGroupRequest.GroupID req in
  let amount := TransferToGroupRequest.Amount req in
  (* Check if user is a member of the group *)
  userGroup <- groupRepo_FindByUserAndGroup userID groupID ;;
  if not_active_member userGroup then
    ret (nil_, error "FORBIDDEN" "You are not a member of this group")
  else
  (* Start transaction *)
  Begin ;;
  recovering (
    (* Get user and check balance *)
    '(user, err) <- userRepo_FindByID userID ;;
    if err then
      Rollback ;; ret (nil_, error "USER_NOT_FOUND" "User not found")
    else
    user <- deref user ;;
    if User.Balance user <? amount then
      Rollback ;; ret (nil_, error "INSUFFICIENT_BALANCE" "Insufficient personal balance")
    else
    (* Get group *)
    '(group, err) <- groupRepo_FindByID groupID ;;
    if err then
      Rollback ;; ret (nil_, error "GROUP_NOT_FOUND" "Group not found")
    else
    (* Update user balance (debit) *)
    let user := User.with_Balance user (Int64.sub (User.Balance user) amount) in
    (* Create personal transaction (debit) *)
    '(personalTransaction, err) <- tx_Create_Transaction 1
      (Transaction.mk uuid_Nil 0 "USER" userID "DEBIT" amount (User.Balance user)
         "transfer" "group_transfer" (TransferToGroupRequest.Description req)
         [("transfer_to_group", JBool true); ("group_id", JUuid groupID)]
         (Some groupID) nil_ nil_ userID) ;;
    if err then
      Rollback ;; ret (nil_, error "SERVER_ERROR" "Failed to transfer money")
    else
    (* Update group balance (credit) *)
    let group := Group.with_Balance group (Int64.add (Group.Balance group) amount) in
    (* Create group transaction (credit) *)
    '(groupTransaction, err) <- tx_Create_Transaction 2
      (Transaction.mk uuid_Nil 0 "GROUP" groupID "CREDIT" amount (Group.Balance group)
         "member_contribution" "member" (TransferToGroupRequest.Description req)
         [("from_member", JBool true); ("member_id", JUuid userID)]
         (Some groupID) (Some userID) nil_ userID) ;;
    if err then
      Rollback ;; ret (nil_, error "SERVER_ERROR" "Failed to transfer money")
    else
    (* Save updated balances *)
    err <- tx_Save_User user ;;
    if err then
      Rollback ;; ret (nil_, error "SERVER_ERROR" "Failed to transfer money")
    else
    err <- tx_Save_Group group ;;
    if err then
      Rollback ;; ret (nil_, error "SERVER_ERROR" "Failed to transfer money")
    else
    (* Create audit logs *)
    let personalAuditLog :=
      AuditLog.mk uuid_Nil "transaction" (Transaction.ID personalTransaction)
        "transfer_to_group"
        [("amount", JInt amount); ("group_id", JUuid groupID)]
        userID 0 nil_ in
    let groupAuditLog :=
      AuditLog.mk uuid_Nil "transaction" (Transaction.ID groupTransaction)
        "receive_from_member"
        [("amount", JInt amount); ("member_id", JUuid userID)]
        userID 0 (Some groupID) in
    err <- tx_Create_AuditLog 1 personalAuditLog ;;
    if err then
      Rollback ;; ret (nil_, error "SERVER_ERROR" "Failed to transfer money")
    else
    err <- tx_Create_AuditLog 2 groupAuditLog ;;
    if err then
      Rollback ;; ret (nil_, error "SERVER_ERROR" "Failed to transfer money")
    else
    (* Commit transaction *)
    err <- Commit_ ;;
    if err then
      Rollback ;; ret (nil_, error "SERVER_ERROR" "Failed to transfer money")
    else
    (* Get full transaction data *)
    respond (Transaction.ID groupTransaction)).

Definition PayGroupExpense (userID groupID : UUID) (req : PayGroupExpenseRequest.t)
  : Svc Reply :=
  let actualPrice := PayGroupExpenseRequest.ActualPrice req in
  let expenseID := PayGroupExpenseRequest.PlannedExpenseID req in
  (* Check if user is a member of the group *)
  userGroup <- groupRepo_FindByUserAndGroup userID groupID ;;
  if not_active_member userGroup then
    ret (nil_, error "FORBIDDEN" "You are not a member of this group")
  else
  (* Get planned expense *)
  '(expense, err) <- expenseRepo_FindByID expenseID ;;
  if err then
    ret (nil_, error "EXPENSE_NOT_FOUND" "Planned expense not found")
  else
  if negb (bool_decide (PlannedExpense.GroupID expense = Some groupID)) then
    ret (nil_, error "FORBIDDEN" "Expense does not belong to this group")
  else
  if negb (bool_decide (PlannedExpense.Status expense = "planned")) then
    ret (nil_, error "INVALID_STATUS" "Expense is not in planned status")
  else
  (* Start transaction *)
  Begin ;;
  recovering (
    (* Get group and check balance *)
    '(group, err) <- groupRepo_FindByID groupID ;;
    if err then
      Rollback ;; ret (nil_, error "GROUP_NOT_FOUND" "Group not found")
    else
    if Group.Balance group <? actualPrice then
      Rollback ;; ret (nil_, error "INSUFFICIENT_BALANCE" "Insufficient group balance")
    else
    (* Update group balance *)
    let group := Group.with_Balance group (Int64.sub (Group.Balance group) actualPrice) in
    (* Create group transaction (debit) *)
    '(transaction, err) <- tx_Create_Transaction 1
      (Transaction.mk uuid_Nil 0 "GROUP" groupID "DEBIT" actualPrice (Group.Balance group)
         (PlannedExpense.Category expense) "expense_payment"
         (PayGroupExpenseRequest.Description req)
         [("expense_payment", JBool true); ("expense_id", JUuid expenseID)]
         (Some groupID) (Some userID) (Some expenseID) userID) ;;
    if err then
      Rollback ;; ret (nil_, error "SERVER_ERROR" "Failed to pay expense")
    else
    (* Update planned expense *)
    let now := time_Now env in
    let expense := PlannedExpense.bought expense actualPrice userID now in
    err <- tx_Save_PlannedExpense expense ;;
    if err then
      Rollback ;; ret (nil_, error "SERVER_ERROR" "Failed to pay expense")
    else
    (* Save updated group balance *)
    err <- tx_Save_Group group ;;
    if err then
      Rollback ;; ret (nil_, error "SERVER_ERROR" "Failed to pay expense")
    else
    (* Create audit log *)
    err <- tx_Create_AuditLog 1
      (AuditLog.mk uuid_Nil "planned_expense" (PlannedExpense.ID expense) "mark_as_paid"
         [("actual_price", JInt actualPrice); ("paid_by", JUuid userID)]
         userID 0 (Some groupID)) ;;
    if err then
      Rollback ;; ret (nil_, error "SERVER_ERROR" "Failed to pay expense")
    else
    (* Commit transaction *)
    err <- Commit_ ;;
    if err then
      Rollback ;; ret (nil_, error "SERVER_ERROR" "Failed to pay expense")
    else
    (* Get full transaction data *)
    respond (Transaction.ID transaction)).

Definition RecordExternalIncome (userID groupID : UUID) (amount : Z) (source : string)
  : Svc Reply :=
  (* Check if user is a member of the group *)
  userGroup <- groupRepo_FindByUserAndGroup userID groupID ;;
  if not_active_member userGroup then
    ret (nil_, error "FORBIDDEN" "You are not a member of this group")
  else
  (* Start transaction *)
  Begin ;;
  recovering (
    (* Get group *)
    '(group, err) <- groupRepo_FindByID groupID ;;
    if err then
      Rollback ;; ret (nil_, error "GROUP_NOT_FOUND" "Group not found")
    else
    (* Update group balance *)
    let group := Group.with_Balance group (Int64.add (Group.Balance group) amount) in
    (* Create group transaction (credit) *)
    '(transaction, err) <- tx_Create_Transaction 1
      (Transaction.mk uuid_Nil 0 "GROUP" groupID "CREDIT" amount (Group.Balance group)
         "external_income" source "External contribution"
         [("external_income", JBool true); ("source", JString source)]
         (Some groupID) nil_ nil_ userID) ;;
    if err then
      Rollback ;; ret (nil_, error "SERVER_ERROR" "Failed to record income")
    else
    (* Save updated group balance *)
    err <- tx_Save_Group group ;;
    if err then
      Rollback ;; ret (nil_, error "SERVER_ERROR" "Failed to record income")
    else
    (* Create audit log *)
    err <- tx_Create_AuditLog 1
      (AuditLog.mk uuid_Nil "transaction" (Transaction.ID transaction)
         "record_external_income"
         [("amount", JInt amount); ("source", JString source)]
         userID 0 (Some groupID)) ;;
    if err then
      Rollback ;; ret (nil_, error "SERVER_ERROR" "Failed to record income")
    else
    (* Commit transaction *)
    err <- Commit_ ;;
    if err then
      Rollback ;; ret (nil_, error "SERVER_ERROR" "Failed to record income")
    else
    (* Get full transaction data *)
    respond (Transaction.ID transaction)).

End Engine.

(** ** Calls to the engine *)

Inductive LedgerOp :=
| OpPersonal (userID : UUID) (req : CreateTransactionRequest.t)
| OpGroup (userID : UUID) (req : CreateTransactionRequest.t)
| OpTransfer (userID : UUID) (req : TransferToGroupRequest.t)
| OpPay (userID groupID : UUID) (req : PayGroupExpenseRequest.t)
| OpIncome (userID groupID : UUID) (amount : Z) (source : string).

Definition method (env : Env) (op : LedgerOp) : Svc Reply :=
  match op with
  | OpPersonal userID req => CreatePersonalTransaction env userID req
  | OpGroup userID req => CreateGroupTransaction env userID req
  | OpTransfer userID req => TransferToGroup env userID req
  | OpPay userID groupID req => PayGroupExpense env userID groupID req
  | OpIncome userID groupID amount source => RecordExternalIncome env userID groupID amount source
  end.

(** A call starts on the committed database, with no transaction open. *)
Definition start (d : DB) : World := mkWorld d None 0 [].

Definition call (env : Env) (op : LedgerOp) (d : DB) : Res Reply * World :=
  method env op (start d).

(** What the caller gets, the database afterwards, and what happened. *)
Definition result (env : Env) (op : LedgerOp) (d : DB) : Res Reply := fst (call env op d).
Definition after (env : Env) (op : LedgerOp) (d : DB) : DB := committed (snd (call env op d)).
Definition events (env : Env) (op : LedgerOp) (d : DB) : list Event := trace (snd (call env op d)).

(** ** Vocabulary of the properties *)

(** [CREDIT] adds, anything else subtracts, in [int64] arithmetic: the
    arithmetic of the methods. *)
Definition new_balance (type : string) (old amount : Z) : Z :=
  if bool_decide (type = "CREDIT") then Int64.add old amount else Int64.sub old amount.

(** The stored balance of an owner, if the owner has a row. *)
Definition balance_of (ownerType : string) (ownerID : UUID) (d : DB) : option Z :=
  if bool_decide (ownerType = "USER") then User.Balance <$> users d !! ownerID
  else if bool_decide (ownerType = "GROUP") then Group.Balance <$> groups d !! ownerID
  else None.

(** Rows sit under their own primary key. *)
Definition keyed (d : DB) : Prop :=
  (forall id u, users d !! id = Some u -> User.ID u = id) /\
  (forall id g, groups d !! id = Some g -> Group.ID g = id) /\
  (forall id e, planned_expenses d !! id = Some e -> PlannedExpense.ID e = id).

(** A method was successful when it returned a response and no error. *)
Definition succeeded (r : Res Reply) (resp : TransactionResponse.t) : Prop :=
  r = Val (Some resp, None).

(** A method failed with [code] when it returned no response and an error
    with that code. *)
Definition failed_with (r : Res Reply) (code : string) : Prop :=
  exists message, r = Val (None, Some (mkAppError code message)).

(** The writes each method issues inside its transaction, in order. *)
Definition writes (op : LedgerOp) : list Call :=
  match op with
  | OpPersonal _ _ => [CreateTransaction 1; SaveUser; CreateAuditLog 1; Commit]
  | OpGroup _ _ => [CreateTransaction 1; SaveGroup; CreateAuditLog 1; Commit]
  | OpTransfer _ _ =>
      [CreateTransaction 1; CreateTransaction 2; SaveUser; SaveGroup;
       CreateAuditLog 1; CreateAuditLog 2; Commit]
  | OpPay _ _ _ =>
      [CreateTransaction 1; SavePlannedExpense; SaveGroup; CreateAuditLog 1; Commit]
  | OpIncome _ _ _ _ => [CreateTransaction 1; SaveGroup; CreateAuditLog 1; Commit]
  end.

(** The codes of the errors the engine returns. *)
Definition error_codes : list string :=
  ["INVALID_REQUEST"; "FORBIDDEN"; "USER_NOT_FOUND"; "GROUP_NOT_FOUND";
   "EXPENSE_NOT_FOUND"; "INVALID_STATUS"; "INSUFFICIENT_BALANCE"; "SERVER_ERROR"].

(** A call that did not commit: the database is as it was; the caller
    got no response, and either an error or (after a recovered panic)
    nothing at all; if a write failed, the transaction was rolled back and
    the error is [SERVER_ERROR]. *)
Definition rejected (env : Env) (op : LedgerOp) (d : DB) : Prop :=
  after env op d = d /\
  (result env op d = Val (None, None) \/
   exists e, result env op d = Val (None, Some e) /\ In (Code e) error_codes) /\
  (forall c, In (EvFailed c) (events env op d) ->
     failed_with (result env op d) "SERVER_ERROR" /\
     last (events env op d) = Some EvRollback).

(** The acting user and the group a group-scoped call is aimed at. *)
Definition scope (op : LedgerOp) : option (UUID * UUID) :=
  match op with
  | OpPersonal _ _ => None
  | OpGroup u req => (fun g => (u, g)) <$> CreateTransactionRequest.GroupID req
  | OpTransfer u req => Some (u, TransferToGroupRequest.GroupID req)
  | OpPay u g _ => Some (u, g)
  | OpIncome u g _ _ => Some (u, g)
  end.

(** The user has a membership row for the group whose status is active. *)
Definition active_member (u g : UUID) (d : DB) : Prop :=
  exists ug, ug ∈ user_groups d /\ UserGroup.UserID ug = u /\
             UserGroup.GroupID ug = g /\ UserGroup.Status ug = "active".

(** The membership test of the group methods lets the call through. *)
Definition membership_ok (env : Env) (u g : UUID) (d : DB) : Prop :=
  not_active_member (groupRepo_FindByUserAndGroup_on env u g d) = false.

(** A call that committed: every write of the method succeeded, the trace
    is the full sequence of its writes, and the reply is the read-back of
    a transaction that is in the log. *)
Definition went_through (env : Env) (op : LedgerOp) (d : DB) : Prop :=
  (forall c, In c (writes op) -> fails env c = false) /\
  events env op d = EvBegin :: (EvWrote <$> removelast (writes op)) ++ [EvCommitted] /\
  exists id t,
    result env op d = Val (read_back env id (after env op d)) /\
    find_transaction id (after env op d) = Some t.

(** No storage call fails. *)
Definition quiet (env : Env) : Prop := forall c, fails env c = false.

(** The identifiers [uuid.New] draws are new to the two logs and distinct. *)
Definition new_ids (env : Env) (d : DB) : Prop :=
  (forall k, uuid_New env k ∉ Transaction.ID <$> transactions d) /\
  (forall k, uuid_New env k ∉ AuditLog.ID <$> audit_logs d) /\
  (forall j k, uuid_New env j = uuid_New env k -> j = k).

(** ** A small world to run the engine on *)

Definition alice : User.t :=
  User.mk 1 0 "+250780000001" "alice@example.org" "Alice" "A" 1000 true.

Definition home : Group.t := Group.mk 10 0 "Home" "Shared flat" 300 1 true.

Definition alice_at_home : UserGroup.t := UserGroup.mk 20 1 10 "manager" "active".

Definition fridge : PlannedExpense.t :=
  PlannedExpense.mk 30 "Fridge" 200 None "home" "planned" (Some 10%N) 1 None None.

Definition salary : Transaction.t :=
  Transaction.mk 100 0 "USER" 1 "CREDIT" 1000 1000 "income" "salary" "" [] None None None 1.

Definition pot : Transaction.t :=
  Transaction.mk 101 0 "GROUP" 10 "CREDIT" 300 300 "external_income" "gift" ""
    [] (Some 10%N) None None 1.

Definition db0 : DB :=
  mkDB {[ 1%N := alice ]} {[ 10%N := home ]} [alice_at_home] [salary; pot]
       {[ 30%N := fridge ]} [].

(** Nothing fails; identifiers are 1000, 1001, ...; the clock reads 7. *)
Definition env0 : Env := mkEnv (fun _ => false) (fun k => (1000 + N.of_nat k)%N) 7.

(** As [env0], but the first audit-log insert fails. *)
Definition env_audit_down : Env :=
  mkEnv (fun c => bool_decide (c = CreateAuditLog 1)) (fun k => (1000 + N.of_nat k)%N) 7.

(** Requests used in the examples. *)
Definition pay_fridge : PayGroupExpenseRequest.t :=
  PayGroupExpenseRequest.mk 30 250 "fridge".

Definition rent : TransferToGroupRequest.t :=
  TransferToGroupRequest.mk 10 500 "rent".

Definition credit (amount : Z) : CreateTransactionRequest.t :=
  CreateTransactionRequest.mk "CREDIT" amount "income" "salary" "" None None None.

Definition debit (amount : Z) : CreateTransactionRequest.t :=
  CreateTransactionRequest.mk "DEBIT" amount "food" "cash" "" None None None.

(** [db0] with a membership of user 7, who has no row in [users]. *)
Definition db_ghost : DB :=
  mkDB (users db0) (groups db0) [UserGroup.mk 21 7 10 "member" "active"]
       (transactions db0) (planned_expenses db0) (audit_logs db0).

(** ** The balance-sum invariant *)

(** The invariant as the specification words it: a stored balance is the
    signed sum of the owner's transactions. *)
Definition balanced (d : DB) : Prop :=
  forall ownerType ownerID b,
    balance_of ownerType ownerID d = Some b -> b = GetBalance ownerType ownerID d.

(** The invariant the [int64] arithmetic keeps: a stored balance is the
    signed sum reduced to 64 bits. *)
Definition balanced64 (d : DB) : Prop :=
  forall ownerType ownerID b,
    balance_of ownerType ownerID d = Some b ->
    b = Int64.wrap (GetBalance ownerType ownerID d).

(** A user whose balance is the largest [int64], from one credit. *)
Definition croesus : User.t :=
  User.mk 1 0 "+250780000009" "croesus@example.org" "Croesus" "C" Int64.max true.

Definition gold : Transaction.t :=
  Transaction.mk 100 0 "USER" 1 "CREDIT" Int64.max Int64.max "income" "tribute" ""
    [] None None None 1.

Definition db_rich : DB := mkDB {[ 1%N := croesus ]} ∅ [] [gold] ∅ [].

(** ** Snapshots *)

(** Transaction [t], new in [d'], carries the balance its owner had in [d]
    moved by its amount, the owner's stored balance in [d'] is that very
    number, and fetching [t] by id from [d'] gives [t] back. *)
Definition snapshot (d d' : DB) (t : Transaction.t) : Prop :=
  exists old,
    balance_of (Transaction.OwnerType t) (Transaction.OwnerID t) d = Some old /\
    Transaction.Balance t = new_balance (Transaction.Type_ t) old (Transaction.Amount t) /\
    (Transaction.Type_ t = "CREDIT" -> Int64.in_range (old + Transaction.Amount t) ->
       Transaction.Balance t = old + Transaction.Amount t) /\
    (Transaction.Type_ t = "DEBIT" -> Int64.in_range (old - Transaction.Amount t) ->
       Transaction.Balance t = old - Transaction.Amount t) /\
    balance_of (Transaction.OwnerType t) (Transaction.OwnerID t) d' =
      Some (Transaction.Balance t) /\
    find_transaction (Transaction.ID t) d' = Some t.

(** ** Debits *)

(** The owner a call debits and the amount, for the calls that debit: a
    personal or group transaction of type DEBIT, a transfer (the user's
    side), the payment of a group expense. *)
Definition debit_of (op : LedgerOp) : option (string * UUID * Z) :=
  match op with
  | OpPersonal u req =>
      if bool_decide (CreateTransactionRequest.Type_ req = "DEBIT")
      then Some ("USER", u, CreateTransactionRequest.Amount req) else None
  | OpGroup u req =>
      if bool_decide (CreateTransactionRequest.Type_ req = "DEBIT")
      then (fun g => ("GROUP", g, CreateTransactionRequest.Amount req))
             <$> CreateTransactionRequest.GroupID req
      else None
  | OpTransfer u req => Some ("USER", u, TransferToGroupRequest.Amount req)
  | OpPay u g req => Some ("GROUP", g, PayGroupExpenseRequest.ActualPrice req)
  | OpIncome _ _ _ _ => None
  end.

(** The checks a method makes before it compares the balance with the
    amount all pass. *)
Definition reaches_balance_check (env : Env) (op : LedgerOp) (d : DB) : Prop :=
  match op with
  | OpPersonal u req => fails env FindUser = false
  | OpGroup u req =>
      exists g, CreateTransactionRequest.GroupID req = Some g /\
                membership_ok env u g d /\ fails env FindGroup = false
  | OpTransfer u req =>
      membership_ok env u (TransferToGroupRequest.GroupID req) d /\
      fails env FindUser = false
  | OpPay u g req =>
      membership_ok env u g d /\ fails env FindPlannedExpense = false /\
      (exists expense,
         planned_expenses d !! PayGroupExpenseRequest.PlannedExpenseID req = Some expense /\
         PlannedExpense.GroupID expense = Some g /\
         PlannedExpense.Status expense = "planned") /\
      fails env FindGroup = false
  | OpIncome _ _ _ _ => True
  end.

(** The other owner a call needs: the group a transfer credits. *)
Definition counterparty_exists (op : LedgerOp) (d : DB) : Prop :=
  match op with
  | OpTransfer u req => is_Some (groups d !! TransferToGroupRequest.GroupID req)
  | _ => True
  end.

(** ** What a call returns *)

(** The transactions a reply carries. *)
Definition returned_records (r : Res Reply) : list UUID :=
  match r with
  | Val (Some resp, _) => [TransactionResponse.ID resp]
  | _ => []
  end.

(** The transfer returns both of the records it created. *)
Definition transfer_returns_pair (env : Env) (u : UUID) (req : TransferToGroupRequest.t)
    (d : DB) : Prop :=
  exists t1 t2,
    transactions (after env (OpTransfer u req) d) = transactions d ++ [t1; t2] /\
    returned_records (result env (OpTransfer u req) d) = [Transaction.ID t1; Transaction.ID t2].

(** ** Amounts *)

(** The [binding] tags of the request types, as the validator applies
    them when a request is bound: [required] rejects the zero value of the
    field, [gt=0] a number that is not positive, [oneof] a string that is
    not in the list. *)
Definition nonzero_string (s : string) : bool := negb (bool_decide (s = "")).

Definition bind_CreateTransactionRequest (r : CreateTransactionRequest.t) : bool :=
  (* Type: required,oneof=CREDIT DEBIT *)
  nonzero_string (CreateTransactionRequest.Type_ r)
  && (bool_decide (CreateTransactionRequest.Type_ r = "CREDIT")
      || bool_decide (CreateTransactionRequest.Type_ r = "DEBIT"))
  (* Amount: required,gt=0 *)
  && negb (bool_decide (CreateTransactionRequest.Amount r = 0))
  && (0 <? CreateTransactionRequest.Amount r)
  (* Category: required *)
  && nonzero_string (CreateTransactionRequest.Category r)
  (* Source: required *)
  && nonzero_string (CreateTransactionRequest.Source r).

Definition bind_TransferToGroupRequest (r : TransferToGroupRequest.t) : bool :=
  (* GroupID: required *)
  negb (bool_decide (TransferToGroupRequest.GroupID r = uuid_Nil))
  (* Amount: required,gt=0 *)
  && negb (bool_decide (TransferToGroupRequest.Amount r = 0))
  && (0 <? TransferToGroupRequest.Amount r).

Definition bind_PayGroupExpenseRequest (r : PayGroupExpenseRequest.t) : bool :=
  (* PlannedExpenseID: required *)
  negb (bool_decide (PayGroupExpenseRequest.PlannedExpenseID r = uuid_Nil))
  (* ActualPrice: required,gt=0 *)
  && negb (bool_decide (PayGroupExpenseRequest.ActualPrice r = 0))
  && (0 <? PayGroupExpenseRequest.ActualPrice r).

(** The amount a call carries. *)
Definition amount_of (op : LedgerOp) : Z :=
  match op with
  | OpPersonal _ req => CreateTransactionRequest.Amount req
  | OpGroup _ req => CreateTransactionRequest.Amount req
  | OpTransfer _ req => TransferToGroupRequest.Amount req
  | OpPay _ _ req => PayGroupExpenseRequest.ActualPrice req
  | OpIncome _ _ amount _ => amount
  end.

(** The request of a call passes binding; [RecordExternalIncome] takes its
    amount as a bare argument, there is no request to bind. *)
Definition bound (op : LedgerOp) : Prop :=
  match op with
  | OpPersonal _ req => bind_CreateTransactionRequest req = true
  | OpGroup _ req => bind_CreateTransactionRequest req = true
  | OpTransfer _ req => bind_TransferToGroupRequest req = true
  | OpPay _ _ req => bind_PayGroupExpenseRequest req = true
  | OpIncome _ _ _ _ => False
  end.

(** The engine turns a call with an amount that is not positive down: an
    error, no new transaction, no balance changed. *)
Definition rejects_non_positive (env : Env) (op : LedgerOp) (d : DB) : Prop :=
  amount_of op <= 0 ->
  (exists e, result env op d = Val (None, Some e)) /\
  transactions (after env op d) = transactions d /\
  (forall ownerType ownerID,
     balance_of ownerType ownerID (after env op d) = balance_of ownerType ownerID d).

(** * The services around the ledger

    The methods below read what the ledger engine wrote, or write the rows
    the engine reads: planned expenses and memberships.  They run their
    statements on [r.db], outside any transaction, and do not recover from
    a panic. *)

(** [dto.MarkAsBoughtRequest] *)
Module MarkAsBoughtRequest.
Record t := mk {
  ActualPrice : Z
}.
End MarkAsBoughtRequest.

(** [dto.UpdateMemberRoleRequest] *)
Module UpdateMemberRoleRequest.
Record t := mk {
  UserID : UUID;
  Role : string
}.
End UpdateMemberRoleRequest.

(** [dto.PlannedExpenseResponse], with the fields [PlannedExpense.t] has. *)
Module PlannedExpenseResponse.
Record t := mk {
  ID : UUID;
  Item : string;
  EstimatedPrice : Z;
  ActualPrice : option Z;
  Category : string;
  Status : string;
  GroupID : option UUID;
  UserID : UUID;
  PaidBy : option UUID;
  PaidAt : option Time;
  User : UserResponse.t;
  Group : option GroupResponse.t;
  Payer : option UserResponse.t
}.
End PlannedExpenseResponse.

Definition ExpenseReply : Type := option PlannedExpenseResponse.t * option AppError.

(** The statements these services run on [r.db], as points of failure. *)
Inductive Stmt :=
| ExpenseMarkAsBought
| ExpenseMarkAsCancelled
| ExpenseDelete
| AuditCreate
| MembersFind
| MemberUpdate
| MemberRemove
| TransactionsFindByDateRange
| BalanceBefore.

(** [Updates] on the rows [WHERE id = ?]: the row under [id], if there is
    one, is changed; no row is no error. *)
Definition update_planned_expense (id : UUID) (f : PlannedExpense.t -> PlannedExpense.t)
    (d : DB) : DB :=
  mkDB (users d) (groups d) (user_groups d) (transactions d)
       (alter f id (planned_expenses d)) (audit_logs d).

(** [Delete] on the rows [WHERE id = ?]: the row is seen by no query
    afterwards. *)
Definition delete_planned_expense (id : UUID) (d : DB) : DB :=
  mkDB (users d) (groups d) (user_groups d) (transactions d)
       (delete id (planned_expenses d)) (audit_logs d).

(** The assignment of [plannedExpenseRepository.MarkAsCancelled]. *)
Definition cancelled (e : PlannedExpense.t) : PlannedExpense.t :=
  PlannedExpense.mk (PlannedExpense.ID e) (PlannedExpense.Item e)
    (PlannedExpense.EstimatedPrice e) (PlannedExpense.ActualPrice e)
    (PlannedExpense.Category e) "cancelled" (PlannedExpense.GroupID e)
    (PlannedExpense.UserID e) (PlannedExpense.PaidBy e) (PlannedExpense.PaidAt e).

#[global] Instance UserGroup_eq_dec : EqDecision UserGroup.t.
Proof. solve_decision. Defined.

(** [Delete] on the memberships [WHERE user_id = ? AND group_id = ?]. *)
Definition remove_member (userID groupID : UUID) (d : DB) : DB :=
  mkDB (users d) (groups d)
       (filter (fun ug => is_membership userID groupID ug = false) (user_groups d))
       (transactions d) (planned_expenses d) (audit_logs d).

(** [Save] of a membership: the rows with its primary key are written, or
    the row is inserted when there is none. *)
Definition save_member (ug : UserGroup.t) (d : DB) : DB :=
  mkDB (users d) (groups d)
       (if bool_decide (UserGroup.ID ug ∈ UserGroup.ID <$> user_groups d)
        then (fun x => if bool_decide (UserGroup.ID x = UserGroup.ID ug) then ug else x)
               <$> user_groups d
        else user_groups d ++ [ug])
       (transactions d) (planned_expenses d) (audit_logs d).

Definition with_Status (ug : UserGroup.t) (status : string) : UserGroup.t :=
  UserGroup.mk (UserGroup.ID ug) (UserGroup.UserID ug) (UserGroup.GroupID ug)
    (UserGroup.Role ug) status.

Definition with_Role (ug : UserGroup.t) (role : string) : UserGroup.t :=
  UserGroup.mk (UserGroup.ID ug) (UserGroup.UserID ug) (UserGroup.GroupID ug)
    role (UserGroup.Status ug).

(** A planned expense with the relations [Preload] fills in: pointers,
    nil when there is no row. *)
Record LoadedExpense := mkLoadedExpense {
  expense : PlannedExpense.t;
  expense_User : option User.t;
  expense_Group : option Group.t;
  expense_Payer : option User.t
}.

Definition preload_expense (d : DB) (e : PlannedExpense.t) : LoadedExpense :=
  mkLoadedExpense e
    (users d !! PlannedExpense.UserID e)
    (PlannedExpense.GroupID e ≫= fun g => groups d !! g)
    (PlannedExpense.PaidBy e ≫= fun u => users d !! u).

Definition user_response (u : User.t) : UserResponse.t :=
  UserResponse.mk (User.ID u) (User.PhoneNumber u) (User.Email u)
    (User.FirstName u) (User.LastName u) (User.Balance u)
    (User.IsActive u) (User.CreatedAt u).

Definition group_response (g : Group.t) : GroupResponse.t :=
  GroupResponse.mk (Group.ID g) (Group.Name g) (Group.Description g)
    (Group.Balance g) (Group.CreatedBy g) (Group.IsActive g) (Group.CreatedAt g).

(** [ORDER BY created_at ASC] *)
Definition not_after (a b : Transaction.t) : Prop :=
  Transaction.CreatedAt a <= Transaction.CreatedAt b.

#[global] Instance not_after_dec : RelDecision not_after.
Proof. intros a b. unfold not_after. apply _. Defined.

(** The manager test of the group service:
    [err != nil || userGroup.Status != "active" || userGroup.Role != "manager"]. *)
Definition not_active_manager (r : UserGroup.t * bool) : bool :=
  snd r
  || negb (bool_decide (UserGroup.Status (fst r) = "active"))
  || negb (bool_decide (UserGroup.Role (fst r) = "manager")).

(** The loop of [LeaveGroup] that counts the managers. *)
Fixpoint managerCount (members : list UserGroup.t) : nat :=
  match members with
  | [] => 0
  | member :: members' =>
      (if bool_decide (UserGroup.Status member = "active")
          && bool_decide (UserGroup.Role member = "manager")
       then 1 else 0)%nat
      + managerCount members'
  end%nat.

Section Services.

Variable env : Env.
Variable down : Stmt -> bool.

(** A statement run on [r.db]: it fails when the environment says so or
    when [check] (a constraint of the table) rejects it; otherwise its
    effect is committed at once. *)
Definition direct (s : Stmt) (check : DB -> bool) (apply : DB -> DB) : Svc bool :=
  fun w =>
    if down s || negb (check (committed w)) then (Val true, w)
    else (Val false, mkWorld (apply (committed w)) (pending w) (drawn w) (trace w)).

(** *** Repositories *)

(** [auditLogRepository.Create]: the hook, then the insert. *)
Definition auditRepo_Create (a : AuditLog.t) : Svc bool :=
  id <- BeforeCreate env (AuditLog.ID a) ;;
  let a := AuditLog.with_ID a id (time_Now env) in
  direct AuditCreate (fresh_audit_log_ID id) (add_audit_log a).

(** [plannedExpenseRepository.FindByID], with the relations it preloads. *)
Definition expenseRepo_FindByID_preloaded_on (id : UUID) (d : DB) : LoadedExpense * bool :=
  let '(e, err) := expenseRepo_FindByID_on env id d in
  if err then (mkLoadedExpense e nil_ nil_ nil_, true)
  else (preload_expense d e, false).
Definition expenseRepo_FindByID_preloaded (id : UUID) :=
  query (expenseRepo_FindByID_preloaded_on id).

(** [plannedExpenseRepository.MarkAsBought] *)
Definition expenseRepo_MarkAsBought (id : UUID) (actualPrice : Z) (paidBy : UUID) : Svc bool :=
  let now := time_Now env in
  direct ExpenseMarkAsBought (fun _ => true)
    (update_planned_expense id (fun e => PlannedExpense.bought e actualPrice paidBy now)).

(** [plannedExpenseRepository.MarkAsCancelled] *)
Definition expenseRepo_MarkAsCancelled (id : UUID) : Svc bool :=
  direct ExpenseMarkAsCancelled (fun _ => true) (update_planned_expense id cancelled).

(** [plannedExpenseRepository.Delete] *)
Definition expenseRepo_Delete (id : UUID) : Svc bool :=
  direct ExpenseDelete (fun _ => true) (delete_planned_expense id).

(** [groupRepository.FindMembers] *)
Definition groupRepo_FindMembers_on (groupID : UUID) (d : DB) : list UserGroup.t * bool :=
  if down MembersFind then ([], true)
  else (filter (fun ug => UserGroup.GroupID ug = groupID) (user_groups d), false).
Definition groupRepo_FindMembers (groupID : UUID) := query (groupRepo_FindMembers_on groupID).

(** [groupRepository.RemoveMember] *)
Definition groupRepo_RemoveMember (userID groupID : UUID) : Svc bool :=
  direct MemberRemove (fun _ => true) (remove_member userID groupID).

(** [groupRepository.UpdateMember] *)
Definition groupRepo_UpdateMember (userGroup : UserGroup.t) : Svc bool :=
  direct MemberUpdate (fun _ => true) (save_member userGroup).

(** [transactionRepository.FindByDateRange]: the owner's rows with
    [created_at BETWEEN ? AND ?], both ends included, ordered by
    [created_at]; where two rows carry the same time the order of the
    table is kept (PostgreSQL leaves that order open). *)
Definition transactionRepo_FindByDateRange_on (ownerType : string) (ownerID : UUID)
    (startDate endDate : Time) (d : DB) : list Loaded * bool :=
  if down TransactionsFindByDateRange then ([], true)
  else (preload d <$>
          merge_sort not_after
            (filter (fun t => owned_by ownerType ownerID t = true /\
                              startDate <= Transaction.CreatedAt t <= endDate)
                    (transactions d)),
        false).

(** [reportService.getBalanceBefore]: the aggregate of [GetBalance], over
    the owner's rows with [created_at < ?], scanned into an [int64]: a sum
    that does not fit is an error of the scan. *)
Definition getBalanceBefore_on (ownerType : string) (ownerID : UUID) (date : Time) (d : DB)
  : Z * bool :=
  let total :=
    signed_sum ownerType ownerID
      (filter (fun t => Transaction.CreatedAt t < date) (transactions d)) in
  if down BalanceBefore || negb (bool_decide (Int64.min <= total <= Int64.max))
  then (0, true)
  else (total, false).

(** *** The transaction service, reading ([transaction_service.go]) *)

Definition GetTransaction (userID transactionID : UUID) : Svc Reply :=
  '(transaction, err) <- transactionRepo_FindByID env transactionID ;;
  if err then ret (nil_, error "TRANSACTION_NOT_FOUND" "Transaction not found")
  else
  let t := row transaction in
  (* Check if user has access to this transaction *)
  if bool_decide (Transaction.OwnerType t = "USER")
     && negb (bool_decide (Transaction.UserID t = userID)) then
    ret (nil_, error "FORBIDDEN" "Access denied")
  else
  match (if bool_decide (Transaction.OwnerType t = "GROUP")
         then Transaction.GroupID t else nil_) with
  | Some groupID =>
      (* Check if user is a member of the group *)
      userGroup <- groupRepo_FindByUserAndGroup env userID groupID ;;
      if not_active_member userGroup then
        ret (nil_, error "FORBIDDEN" "Access denied")
      else ret (Some (mapTransactionToResponse transaction), nil_)
  | None => ret (Some (mapTransactionToResponse transaction), nil_)
  end.

(** *** The planned-expense service *)

(** [expense.User], [expense.Group] and [expense.Payer] are pointers:
    reading a field through one that is nil panics. *)
Definition mapExpenseToResponse (e : LoadedExpense) : Svc PlannedExpenseResponse.t :=
  let x := expense e in
  user <- deref (expense_User e) ;;
  (* Add group info if available *)
  group <- match PlannedExpense.GroupID x with
           | Some _ =>
               g <- deref (expense_Group e) ;;
               if bool_decide (Group.ID g <> uuid_Nil) then ret (Some (group_response g))
               else ret nil_
           | None => ret nil_
           end ;;
  (* Add payer info if available *)
  payer <- match PlannedExpense.PaidBy x with
           | Some _ =>
               p <- deref (expense_Payer e) ;;
               if bool_decide (User.ID p <> uuid_Nil) then ret (Some (user_response p))
               else ret nil_
           | None => ret nil_
           end ;;
  ret (PlannedExpenseResponse.mk
         (PlannedExpense.ID x) (PlannedExpense.Item x) (PlannedExpense.EstimatedPrice x)
         (PlannedExpense.ActualPrice x) (PlannedExpense.Category x)
         (PlannedExpense.Status x) (PlannedExpense.GroupID x) (PlannedExpense.UserID x)
         (PlannedExpense.PaidBy x) (PlannedExpense.PaidAt x)
         (user_response user) group payer).

(** The test [GetExpense] and [MarkAsCancelled] make: the expense is the
    user's, or of a group the user is an active member of. *)
Definition access_denied (userID : UUID) (x : PlannedExpense.t) : Svc bool :=
  if negb (bool_decide (PlannedExpense.UserID x = userID)) then
    match PlannedExpense.GroupID x with
    | Some groupID =>
        userGroup <- groupRepo_FindByUserAndGroup env userID groupID ;;
        ret (not_active_member userGroup)
    | None => ret true
    end
  else ret false.

Definition GetExpense (userID expenseID : UUID) : Svc ExpenseReply :=
  '(e, err) <- expenseRepo_FindByID_preloaded expenseID ;;
  if err then ret (nil_, error "EXPENSE_NOT_FOUND" "Expense not found")
  else
  (* Check if user has access to this expense *)
  denied <- access_denied userID (expense e) ;;
  if denied then ret (nil_, error "FORBIDDEN" "Access denied")
  else
  response <- mapExpenseToResponse e ;;
  ret (Some response, nil_).

Definition DeleteExpense (userID expenseID : UUID) : Svc (option AppError) :=
  '(e, err) <- expenseRepo_FindByID_preloaded expenseID ;;
  if err then ret (error "EXPENSE_NOT_FOUND" "Expense not found")
  else
  let x := expense e in
  (* Check if user has permission to delete *)
  denied <-
    (if negb (bool_decide (PlannedExpense.UserID x = userID)) then
       match PlannedExpense.GroupID x with
       | Some groupID =>
           (* For group expenses, check if user is a manager *)
           userGroup <- groupRepo_FindByUserAndGroup env userID groupID ;;
           if not_active_manager userGroup then
             ret (error "FORBIDDEN" "Only managers can delete group expenses")
           else ret nil_
       | None => ret (error "FORBIDDEN" "Access denied")
       end
     else ret nil_) ;;
  match denied with
  | Some err => ret (Some err)
  | None =>
    err <- expenseRepo_Delete expenseID ;;
    if err then ret (error "SERVER_ERROR" "Failed to delete expense")
    else
    (* Create audit log; its failure is only logged *)
    auditRepo_Create
      (AuditLog.mk uuid_Nil "planned_expense" expenseID "delete" []
         userID 0 (PlannedExpense.GroupID x)) ;;
    ret nil_
  end.

Definition MarkAsBought (userID expenseID : UUID) (req : MarkAsBoughtRequest.t)
  : Svc ExpenseReply :=
  '(e, err) <- expenseRepo_FindByID_preloaded expenseID ;;
  if err then ret (nil_, error "EXPENSE_NOT_FOUND" "Expense not found")
  else
  let x := expense e in
  (* Check if expense is in planned status *)
  if negb (bool_decide (PlannedExpense.Status x = "planned")) then
    ret (nil_, error "INVALID_STATUS" "Expense is not in planned status")
  else
  match PlannedExpense.GroupID x with
  | None =>
    (* For personal expenses, just mark as bought *)
    if negb (bool_decide (PlannedExpense.UserID x = userID)) then
      ret (nil_, error "FORBIDDEN" "Access denied")
    else
    err <- expenseRepo_MarkAsBought expenseID (MarkAsBoughtRequest.ActualPrice req) userID ;;
    if err then ret (nil_, error "SERVER_ERROR" "Failed to mark expense as bought")
    else
    (* Create audit log; its failure is only logged *)
    auditRepo_Create
      (AuditLog.mk uuid_Nil "planned_expense" expenseID "mark_as_bought"
         [("actual_price", JInt (MarkAsBoughtRequest.ActualPrice req))]
         userID 0 nil_) ;;
    (* Get updated expense data *)
    '(updatedExpense, err) <- expenseRepo_FindByID_preloaded expenseID ;;
    if err then ret (nil_, error "SERVER_ERROR" "Failed to get updated expense data")
    else
    response <- mapExpenseToResponse updatedExpense ;;
    ret (Some response, nil_)
  | Some _ =>
    (* For group expenses, use the transaction service to handle payment *)
    ret (nil_, error "USE_TRANSACTION_FLOW"
                 "Use group transaction flow to pay for group expenses")
  end.

Definition MarkAsCancelled (userID expenseID : UUID) : Svc (option AppError) :=
  '(e, err) <- expenseRepo_FindByID_preloaded expenseID ;;
  if err then ret (error "EXPENSE_NOT_FOUND" "Expense not found")
  else
  let x := expense e in
  (* Check if user has permission *)
  denied <- access_denied userID x ;;
  if denied then ret (error "FORBIDDEN" "Access denied")
  else
  err <- expenseRepo_MarkAsCancelled expenseID ;;
  if err then ret (error "SERVER_ERROR" "Failed to mark expense as cancelled")
  else
  (* Create audit log; its failure is only logged *)
  auditRepo_Create
    (AuditLog.mk uuid_Nil "planned_expense" expenseID "mark_as_cancelled" []
       userID 0 (PlannedExpense.GroupID x)) ;;
  ret nil_.

(** *** The group service ([group_service.go]): memberships *)

Definition AcceptInvitation (userID invitationID : UUID) : Svc (option AppError) :=
  (* Get the invitation *)
  '(invitation, err) <- groupRepo_FindByUserAndGroup env userID invitationID ;;
  if err then ret (error "INVITATION_NOT_FOUND" "Invitation not found")
  else
  if negb (bool_decide (UserGroup.Status invitation = "pending")) then
    ret (error "INVALID_INVITATION" "Invitation is not pending")
  else
  (* Update invitation status *)
  let invitation := with_Status invitation "active" in
  err <- groupRepo_UpdateMember invitation ;;
  if err then ret (error "SERVER_ERROR" "Failed to accept invitation")
  else
  (* Create audit log; its failure is only logged *)
  auditRepo_Create
    (AuditLog.mk uuid_Nil "user_group" (UserGroup.ID invitation) "accept_invitation" []
       userID 0 (Some (UserGroup.GroupID invitation))) ;;
  ret nil_.

Definition RejectInvitation (userID invitationID : UUID) : Svc (option AppError) :=
  (* Get the invitation *)
  '(invitation, err) <- groupRepo_FindByUserAndGroup env userID invitationID ;;
  if err then ret (error "INVITATION_NOT_FOUND" "Invitation not found")
  else
  if negb (bool_decide (UserGroup.Status invitation = "pending")) then
    ret (error "INVALID_INVITATION" "Invitation is not pending")
  else
  (* Update invitation status *)
  let invitation := with_Status invitation "rejected" in
  err <- groupRepo_UpdateMember invitation ;;
  if err then ret (error "SERVER_ERROR" "Failed to reject invitation")
  else
  (* Create audit log; its failure is only logged *)
  auditRepo_Create
    (AuditLog.mk uuid_Nil "user_group" (UserGroup.ID invitation) "reject_invitation" []
       userID 0 (Some (UserGroup.GroupID invitation))) ;;
  ret nil_.

Definition UpdateMemberRole (userID groupID : UUID) (req : UpdateMemberRoleRequest.t)
  : Svc (option AppError) :=
  (* Check if user is a manager *)
  userGroup <- groupRepo_FindByUserAndGroup env userID groupID ;;
  if not_active_manager userGroup then
    ret (error "FORBIDDEN" "Only managers can update member roles")
  else
  (* Get target user's membership *)
  targetUserGroup <-
    groupRepo_FindByUserAndGroup env (UpdateMemberRoleRequest.UserID req) groupID ;;
  if not_active_member targetUserGroup then
    ret (error "MEMBER_NOT_FOUND" "Member not found")
  else
  let targetUserGroup := fst targetUserGroup in
  (* Update role *)
  let oldRole := UserGroup.Role targetUserGroup in
  let targetUserGroup := with_Role targetUserGroup (UpdateMemberRoleRequest.Role req) in
  err <- groupRepo_UpdateMember targetUserGroup ;;
  if err then ret (error "SERVER_ERROR" "Failed to update member role")
  else
  (* Create audit log; its failure is only logged *)
  auditRepo_Create
    (AuditLog.mk uuid_Nil "user_group" (UserGroup.ID targetUserGroup) "update_role"
       [("old_role", JString oldRole);
        ("new_role", JString (UpdateMemberRoleRequest.Role req))]
       userID 0 (Some groupID)) ;;
  ret nil_.

Definition RemoveMember (userID groupID targetUserID : UUID) : Svc (option AppError) :=
  (* Check if user is a manager *)
  userGroup <- groupRepo_FindByUserAndGroup env userID groupID ;;
  if not_active_manager userGroup then
    ret (error "FORBIDDEN" "Only managers can remove members")
  else
  (* Cannot remove yourself *)
  if bool_decide (userID = targetUserID) then
    ret (error "FORBIDDEN" "Cannot remove yourself from group")
  else
  (* Remove member *)
  err <- groupRepo_RemoveMember targetUserID groupID ;;
  if err then ret (error "SERVER_ERROR" "Failed to remove member")
  else
  (* Create audit log; its failure is only logged *)
  auditRepo_Create
    (AuditLog.mk uuid_Nil "user_group" targetUserID "remove_member" []
       userID 0 (Some groupID)) ;;
  ret nil_.

Definition LeaveGroup (userID groupID : UUID) : Svc (option AppError) :=
  (* Check if user is a member *)
  userGroup <- groupRepo_FindByUserAndGroup env userID groupID ;;
  if not_active_member userGroup then
    ret (error "NOT_MEMBER" "You are not a member of this group")
  else
  let userGroup := fst userGroup in
  (* Check if user is the last manager *)
  refused <-
    (if bool_decide (UserGroup.Role userGroup = "manager") then
       '(members, err) <- groupRepo_FindMembers groupID ;;
       if err then ret (error "SERVER_ERROR" "Failed to leave group")
       else
       if (managerCount members <=? 1)%nat then
         ret (error "LAST_MANAGER"
                "Cannot leave as the last manager. Promote someone else first or delete the group.")
       else ret nil_
     else ret nil_) ;;
  match refused with
  | Some err => ret (Some err)
  | None =>
    (* Remove user from group *)
    err <- groupRepo_RemoveMember userID groupID ;;
    if err then ret (error "SERVER_ERROR" "Failed to leave group")
    else
    (* Create audit log; its failure is only logged *)
    auditRepo_Create
      (AuditLog.mk uuid_Nil "user_group" (UserGroup.ID userGroup) "leave_group" []
         userID 0 (Some groupID)) ;;
    ret nil_
  end.

End Services.

(** ** Calls to these services *)

(** What a method returns when it is called on the committed database
    [d], and the database it leaves. *)
Definition answer {A} (m : Svc A) (d : DB) : Res A := fst (m (start d)).
Definition leaves {A} (m : Svc A) (d : DB) : DB := committed (snd (m (start d))).

(** The user on whose behalf a ledger call is made. *)
Definition actor (op : LedgerOp) : UUID :=
  match op with
  | OpPersonal u _ => u
  | OpGroup u _ => u
  | OpTransfer u _ => u
  | OpPay u _ _ => u
  | OpIncome u _ _ _ => u
  end.

(** No money moved between two states: the users, the groups and the
    transaction log are the same. *)
Definition same_money (d d' : DB) : Prop :=
  users d' = users d /\ groups d' = groups d /\ transactions d' = transactions d.

(** The user has some membership row for the group, of any status. *)
Definition has_row (u g : UUID) (d : DB) : Prop :=
  exists ug, ug ∈ user_groups d /\ UserGroup.UserID ug = u /\ UserGroup.GroupID ug = g.

(** The group has a manager: an active membership with the role manager. *)
Definition has_manager (g : UUID) (d : DB) : Prop :=
  exists ug, ug ∈ user_groups d /\ UserGroup.GroupID ug = g /\
             UserGroup.Status ug = "active" /\ UserGroup.Role ug = "manager".

(** A user has at most one membership row per group. *)
Definition one_row_per_member (d : DB) : Prop :=
  NoDup ((fun ug => (UserGroup.UserID ug, UserGroup.GroupID ug)) <$> user_groups d).

(** The primary key of the memberships. *)
Definition member_ids_unique (d : DB) : Prop :=
  NoDup (UserGroup.ID <$> user_groups d).

(** ** More of the small world *)

Definition bob : User.t :=
  User.mk 2 0 "+250780000002" "bob@example.org" "Bob" "B" 40 true.

Definition bob_invited : UserGroup.t := UserGroup.mk 21 2 10 "member" "pending".

Definition bob_at_home : UserGroup.t := UserGroup.mk 21 2 10 "manager" "active".

Definition bicycle : PlannedExpense.t :=
  PlannedExpense.mk 31 "Bicycle" 150 None "transport" "planned" None 1 None None.

(** [db0] with Bob, a membership of Bob in the group, and Alice's
    personal plan to buy a bicycle. *)
Definition db_with (bobs : UserGroup.t) : DB :=
  mkDB {[ 1%N := alice; 2%N := bob ]} (groups db0) [alice_at_home; bobs]
       (transactions db0) {[ 30%N := fridge; 31%N := bicycle ]} (audit_logs db0).

(** No statement fails. *)
Definition up : Stmt -> bool := fun _ => false.

(** Only the audit insert fails. *)
Definition audit_down : Stmt -> bool := fun s =>
  match s with AuditCreate => true | _ => false end.

(** [d'] is [d] with at most one audit entry more: what a best-effort
    audit insert leaves. *)
Definition logged (d d' : DB) : Prop :=
  d' = d \/ exists a, d' = add_audit_log a d.

(** The user has a membership row for the group that is active and has
    the role manager. *)
Definition active_manager (u g : UUID) (d : DB) : Prop :=
  exists ug, ug ∈ user_groups d /\ UserGroup.UserID ug = u /\
             UserGroup.GroupID ug = g /\ UserGroup.Status ug = "active" /\
             UserGroup.Role ug = "manager".

(** The manager test of the group service lets the call through. *)
Definition manager_ok (env : Env) (u g : UUID) (d : DB) : Prop :=
  not_active_manager (groupRepo_FindByUserAndGroup_on env u g d) = false.

(** The user may touch the expense: it is the user's own, or it is of a
    group whose membership test the user passes. *)
Definition may_touch (env : Env) (u : UUID) (x : PlannedExpense.t) (d : DB) : Prop :=
  PlannedExpense.UserID x = u \/
  exists g, PlannedExpense.GroupID x = Some g /\ membership_ok env u g d.

(** The user may delete the expense: it is the user's own, or it is of a
    group whose manager test the user passes. *)
Definition may_delete (env : Env) (u : UUID) (x : PlannedExpense.t) (d : DB) : Prop :=
  PlannedExpense.UserID x = u \/
  exists g, PlannedExpense.GroupID x = Some g /\ manager_ok env u g d.

(** The methods above that return only an error, as one type of calls. *)
Inductive Chore :=
| DoDeleteExpense (userID expenseID : UUID)
| DoMarkAsCancelled (userID expenseID : UUID)
| DoAcceptInvitation (userID invitationID : UUID)
| DoRejectInvitation (userID invitationID : UUID)
| DoUpdateMemberRole (userID groupID : UUID) (req : UpdateMemberRoleRequest.t)
| DoRemoveMember (userID groupID targetUserID : UUID)
| DoLeaveGroup (userID groupID : UUID).

Definition chore (env : Env) (down : Stmt -> bool) (c : Chore) : Svc (option AppError) :=
  match c with
  | DoDeleteExpense userID expenseID => DeleteExpense env down userID expenseID
  | DoMarkAsCancelled userID expenseID => MarkAsCancelled env down userID expenseID
  | DoAcceptInvitation userID invitationID => AcceptInvitation env down userID invitationID
  | DoRejectInvitation userID invitationID => RejectInvitation env down userID invitationID
  | DoUpdateMemberRole userID groupID req => UpdateMemberRole env down userID groupID req
  | DoRemoveMember userID groupID targetUserID =>
      RemoveMember env down userID groupID targetUserID
  | DoLeaveGroup userID groupID => LeaveGroup env down userID groupID
  end.

(** Two states that differ at most in the audit log. *)
Definition same_but_audit (d d' : DB) : Prop :=
  users d' = users d /\ groups d' = groups d /\ user_groups d' = user_groups d /\
  transactions d' = transactions d /\ planned_expenses d' = planned_expenses d.

(** ** What a ledger call may change *)

(** The user and the group whose rows a ledger call writes. *)
Definition touched_user (op : LedgerOp) : option UUID :=
  match op with
  | OpPersonal u _ => Some u
  | OpTransfer u _ => Some u
  | _ => None
  end.

Definition touched_group (op : LedgerOp) : option UUID :=
  match op with
  | OpPersonal _ _ => None
  | OpGroup _ req => CreateTransactionRequest.GroupID req
  | OpTransfer _ req => Some (TransferToGroupRequest.GroupID req)
  | OpPay _ g _ => Some g
  | OpIncome _ g _ _ => Some g
  end.

(** The planned expense a ledger call writes. *)
Definition touched_expense (op : LedgerOp) : option UUID :=
  match op with
  | OpPay _ _ req => Some (PayGroupExpenseRequest.PlannedExpenseID req)
  | _ => None
  end.

(** * Proofs *)

Ltac unfold_engine :=
  unfold result, after, events, call, method, start,
    CreatePersonalTransaction, CreateGroupTransaction, TransferToGroup,
    PayGroupExpense, RecordExternalIncome, recovering,
    tx_Create_Transaction, tx_Create_AuditLog, tx_Save_User, tx_Save_Group,
    tx_Save_PlannedExpense, exec, Commit_, Begin, Rollback, BeforeCreate,
    uuid_new, userRepo_FindByID, groupRepo_FindByID, groupRepo_FindByUserAndGroup,
    expenseRepo_FindByID, query, deref, bind, ret,
    panic, log in *.

(** ** 64-bit arithmetic *)

Lemma int64_wrap_in_range z : Int64.in_range z -> Int64.wrap z = z.
Proof.
  unfold Int64.in_range, Int64.wrap, Int64.min, Int64.max. intros H.
  rewrite Z.mod_small; lia.
Qed.

Lemma int64_wrap_add_l a b : Int64.wrap (Int64.wrap a + b) = Int64.wrap (a + b).
Proof.
  unfold Int64.wrap. f_equal.
  transitivity (((a + 2 ^ 63) mod 2 ^ 64 + b) mod 2 ^ 64).
  - f_equal. lia.
  - rewrite Zplus_mod_idemp_l. f_equal. lia.
Qed.

Lemma int64_wrap_sub_l a b : Int64.wrap (Int64.wrap a - b) = Int64.wrap (a - b).
Proof.
  rewrite <- !Z.add_opp_r. apply int64_wrap_add_l.
Qed.

(** ** Calls that do not commit *)

Lemma rejected_no_response env op d resp e :
  rejected env op d -> result env op d <> Val (Some resp, e).
Proof.
  intros (_ & [H | (e' & H & _)] & _); rewrite H; discriminate.
Qed.

(** ** What each method leaves behind *)

Arguments read_back : simpl never.
Arguments respond : simpl never.

Lemma respond_eq env id w :
  respond env id w = (Val (read_back env id (committed w)), w).
Proof.
  unfold respond, read_back, transactionRepo_FindByID, query, bind, ret.
  destruct (transactionRepo_FindByID_on env id (committed w)) as [full []]; reflexivity.
Qed.

Lemma list_find_fresh (l : list Transaction.t) (t : Transaction.t) :
  Transaction.ID t ∉ Transaction.ID <$> l ->
  snd <$> list_find (fun x => Transaction.ID x = Transaction.ID t) (l ++ [t]) = Some t.
Proof.
  induction l as [|x l IH]; intros Hnew; cbn.
  - rewrite decide_True by reflexivity. reflexivity.
  - rewrite fmap_cons, not_elem_of_cons in Hnew. destruct Hnew as [Hne Hl].
    rewrite decide_False by congruence.
    specialize (IH Hl).
    destruct (list_find _ (l ++ [t])) as [[i y]|]; cbn in *; congruence.
Qed.

Lemma list_find_older (l : list Transaction.t) (t t' : Transaction.t) :
  snd <$> list_find (fun x => Transaction.ID x = Transaction.ID t) l = Some t ->
  snd <$> list_find (fun x => Transaction.ID x = Transaction.ID t) (l ++ [t']) = Some t.
Proof.
  induction l as [|x l IH]; cbn; [discriminate|].
  destruct (decide (Transaction.ID x = Transaction.ID t)); cbn; [done|].
  intros H.
  destruct (list_find _ l) as [[i y]|] eqn:E; cbn in *; [|discriminate].
  specialize (IH H).
  destruct (list_find _ (l ++ [t'])) as [[j z]|]; cbn in *; congruence.
Qed.

(** Case analysis along the control flow of an unfolded method. *)
Ltac innermost t :=
  match t with
  | context [match ?x with _ => _ end] => innermost x
  | _ => t
  end.

Ltac crunch :=
  repeat (rewrite ?respond_eq, ?(bool_decide_eq_true_2 (uuid_Nil = uuid_Nil) eq_refl);
          match goal with
          | |- context [match ?x with _ => _ end] =>
              let y := innermost x in destruct y eqn:?
          end; cbn);
  rewrite ?respond_eq; simplify_eq/=.

(** Facts the case analysis leaves as boolean equations. *)
Ltac tidy :=
  repeat match goal with
    | H : _ || _ = false |- _ => apply orb_false_elim in H as [? ?]
    | H : negb _ = false |- _ => apply negb_false_iff in H
    | H : negb _ = true |- _ => apply negb_true_iff in H
    | H : _ && _ = true |- _ => apply andb_true_iff in H as [? ?]
    | H : (_ <? _) = false |- _ => apply Z.ltb_ge in H
    | H : (_ <? _) = true |- _ => apply Z.ltb_lt in H
    end.

Ltac decided :=
  repeat match goal with
    | H : bool_decide _ = true |- _ => apply bool_decide_eq_true in H
    | H : bool_decide _ = false |- _ => apply bool_decide_eq_false in H
    end.

(** Closes the side conditions of the shape lemmas below. *)
Ltac side :=
  solve [ reflexivity | eassumption
        | intros; decided; first [contradiction | congruence | lia] ].

(** Splits the conjunctions of a shape lemma and closes what [side] and
    rewriting with the decided tests close. *)
Ltac settle :=
  unfold new_balance; cbn;
  repeat match goal with |- _ /\ _ => split end;
  try side;
  try (let c := fresh "c" in let H := fresh "H" in
       intros c H; cbn in H; intuition (subst; assumption));
  repeat match goal with H : bool_decide _ = _ |- _ => rewrite H; clear H end;
  try reflexivity.

(** Closes a goal [rejected env op d] once the call is evaluated. *)
Ltac reject :=
  split; [reflexivity|];
  split;
  [ first [ left; reflexivity
          | right; eexists; split; [reflexivity | cbn; repeat (first [left; reflexivity | right])] ]
  | let c := fresh "c" in let H := fresh "H" in
    intros c H; cbn in H;
    repeat match type of H with
      | _ \/ _ => destruct H as [H|H]
      | False => destruct H
      | _ = _ => try discriminate H
      end;
    split; first [reflexivity | eexists; reflexivity] ].

(** A call is rejected, or it committed and the database afterwards is the
    one before with the method's writes applied, the reply being the
    read-back of the new transaction.  One lemma per method, each by case
    analysis along the method's control flow. *)
Lemma personal_shape env u req d :
  let op := OpPersonal u req in
  rejected env op d \/
  exists user a,
    users d !! u = Some user /\
    let nb := new_balance (CreateTransactionRequest.Type_ req) (User.Balance user)
                (CreateTransactionRequest.Amount req) in
    let t := Transaction.mk (uuid_New env 0) (time_Now env) "USER" u
               (CreateTransactionRequest.Type_ req) (CreateTransactionRequest.Amount req) nb
               (CreateTransactionRequest.Category req) (CreateTransactionRequest.Source req)
               (CreateTransactionRequest.Description req) [("personal", JBool true)]
               None None None u in
    (CreateTransactionRequest.Type_ req <> "CREDIT" ->
       CreateTransactionRequest.Amount req <= User.Balance user) /\
    fresh_transaction_ID (uuid_New env 0) d = true /\
    (forall c, In c (writes op) -> fails env c = false) /\
    after env op d = add_audit_log a (put_user (User.with_Balance user nb) (add_transaction t d)) /\
    result env op d = Val (read_back env (uuid_New env 0) (after env op d)) /\
    events env op d = EvBegin :: (EvWrote <$> removelast (writes op)) ++ [EvCommitted].
Proof.
  unfold rejected. unfold_engine. cbn.
  unfold userRepo_FindByID_on.
  crunch.
  all: try (left; reject).
  all: tidy; right; eexists _, _.
  all: settle.
Qed.

Lemma group_shape env u req d :
  let op := OpGroup u req in
  rejected env op d \/
  exists groupID group a,
    CreateTransactionRequest.GroupID req = Some groupID /\
    not_active_member (groupRepo_FindByUserAndGroup_on env u groupID d) = false /\
    groups d !! groupID = Some group /\
    let nb := new_balance (CreateTransactionRequest.Type_ req) (Group.Balance group)
                (CreateTransactionRequest.Amount req) in
    let t := Transaction.mk (uuid_New env 0) (time_Now env) "GROUP" groupID
               (CreateTransactionRequest.Type_ req) (CreateTransactionRequest.Amount req) nb
               (CreateTransactionRequest.Category req) (CreateTransactionRequest.Source req)
               (CreateTransactionRequest.Description req) [("group", JBool true)]
               (Some groupID) (CreateTransactionRequest.PaidBy req)
               (CreateTransactionRequest.PlannedExpenseID req) u in
    (CreateTransactionRequest.Type_ req <> "CREDIT" ->
       CreateTransactionRequest.Amount req <= Group.Balance group) /\
    fresh_transaction_ID (uuid_New env 0) d = true /\
    (forall c, In c (writes op) -> fails env c = false) /\
    after env op d = add_audit_log a (put_group (Group.with_Balance group nb) (add_transaction t d)) /\
    result env op d = Val (read_back env (uuid_New env 0) (after env op d)) /\
    events env op d = EvBegin :: (EvWrote <$> removelast (writes op)) ++ [EvCommitted].
Proof.
  unfold rejected. unfold_engine. cbn.
  destruct (CreateTransactionRequest.GroupID req) as [groupID|] eqn:Hg; cbn;
    [|left; reject].
  destruct (not_active_member (groupRepo_FindByUserAndGroup_on env u groupID d)) eqn:Hm; cbn;
    [left; reject|].
  unfold groupRepo_FindByID_on.
  crunch.
  all: try (left; reject).
  all: tidy; right; eexists _, _, _.
  all: settle.
Qed.

Lemma transfer_shape env u req d :
  let op := OpTransfer u req in
  let groupID := TransferToGroupRequest.GroupID req in
  let amount := TransferToGroupRequest.Amount req in
  rejected env op d \/
  exists user group a1 a2,
    not_active_member (groupRepo_FindByUserAndGroup_on env u groupID d) = false /\
    users d !! u = Some user /\
    groups d !! groupID = Some group /\
    amount <= User.Balance user /\
    let ub := Int64.sub (User.Balance user) amount in
    let gb := Int64.add (Group.Balance group) amount in
    let t1 := Transaction.mk (uuid_New env 0) (time_Now env) "USER" u "DEBIT" amount ub
                "transfer" "group_transfer" (TransferToGroupRequest.Description req)
                [("transfer_to_group", JBool true); ("group_id", JUuid groupID)]
                (Some groupID) None None u in
    let t2 := Transaction.mk (uuid_New env 1) (time_Now env) "GROUP" groupID "CREDIT" amount gb
                "member_contribution" "member" (TransferToGroupRequest.Description req)
                [("from_member", JBool true); ("member_id", JUuid u)]
                (Some groupID) (Some u) None u in
    fresh_transaction_ID (uuid_New env 0) d = true /\
    fresh_transaction_ID (uuid_New env 1) (add_transaction t1 d) = true /\
    (forall c, In c (writes op) -> fails env c = false) /\
    after env op d =
      add_audit_log a2 (add_audit_log a1
        (put_group (Group.with_Balance group gb)
          (put_user (User.with_Balance user ub)
            (add_transaction t2 (add_transaction t1 d))))) /\
    result env op d = Val (read_back env (uuid_New env 1) (after env op d)) /\
    events env op d = EvBegin :: (EvWrote <$> removelast (writes op)) ++ [EvCommitted].
Proof.
  unfold rejected. unfold_engine. cbn.
  destruct (not_active_member _) eqn:Hm; cbn;
    [left; reject|].
  unfold userRepo_FindByID_on, groupRepo_FindByID_on.
  crunch.
  all: try (left; reject).
  all: tidy; right; eexists _, _, _, _.
  all: settle.
Qed.

Lemma pay_shape env u groupID req d :
  let op := OpPay u groupID req in
  let price := PayGroupExpenseRequest.ActualPrice req in
  let expenseID := PayGroupExpenseRequest.PlannedExpenseID req in
  rejected env op d \/
  exists expense group a,
    not_active_member (groupRepo_FindByUserAndGroup_on env u groupID d) = false /\
    planned_expenses d !! expenseID = Some expense /\
    PlannedExpense.GroupID expense = Some groupID /\
    PlannedExpense.Status expense = "planned" /\
    groups d !! groupID = Some group /\
    price <= Group.Balance group /\
    let gb := Int64.sub (Group.Balance group) price in
    let t := Transaction.mk (uuid_New env 0) (time_Now env) "GROUP" groupID "DEBIT" price gb
               (PlannedExpense.Category expense) "expense_payment"
               (PayGroupExpenseRequest.Description req)
               [("expense_payment", JBool true); ("expense_id", JUuid expenseID)]
               (Some groupID) (Some u) (Some expenseID) u in
    fresh_transaction_ID (uuid_New env 0) d = true /\
    (forall c, In c (writes op) -> fails env c = false) /\
    after env op d =
      add_audit_log a
        (put_group (Group.with_Balance group gb)
          (put_planned_expense (PlannedExpense.bought expense price u (time_Now env))
            (add_transaction t d))) /\
    result env op d = Val (read_back env (uuid_New env 0) (after env op d)) /\
    events env op d = EvBegin :: (EvWrote <$> removelast (writes op)) ++ [EvCommitted].
Proof.
  unfold rejected. unfold_engine. cbn.
  destruct (not_active_member _) eqn:Hm; cbn;
    [left; reject|].
  unfold expenseRepo_FindByID_on, groupRepo_FindByID_on.
  crunch.
  all: try (left; reject).
  all: tidy; right; eexists _, _, _.
  all: settle.
Qed.

Lemma income_shape env u groupID amount source d :
  let op := OpIncome u groupID amount source in
  rejected env op d \/
  exists group a,
    not_active_member (groupRepo_FindByUserAndGroup_on env u groupID d) = false /\
    groups d !! groupID = Some group /\
    let gb := Int64.add (Group.Balance group) amount in
    let t := Transaction.mk (uuid_New env 0) (time_Now env) "GROUP" groupID "CREDIT" amount gb
               "external_income" source "External contribution"
               [("external_income", JBool true); ("source", JString source)]
               (Some groupID) None None u in
    fresh_transaction_ID (uuid_New env 0) d = true /\
    (forall c, In c (writes op) -> fails env c = false) /\
    after env op d = add_audit_log a (put_group (Group.with_Balance group gb) (add_transaction t d)) /\
    result env op d = Val (read_back env (uuid_New env 0) (after env op d)) /\
    events env op d = EvBegin :: (EvWrote <$> removelast (writes op)) ++ [EvCommitted].
Proof.
  unfold rejected. unfold_engine. cbn.
  destruct (not_active_member _) eqn:Hm; cbn;
    [left; reject|].
  unfold groupRepo_FindByID_on.
  crunch.
  all: try (left; reject).
  all: tidy; right; eexists _, _.
  all: settle.
Qed.

(** Evaluates a call along the path the hypotheses select. *)
Ltac along :=
  unfold_engine;
  unfold userRepo_FindByID_on, groupRepo_FindByID_on, expenseRepo_FindByID_on,
    fresh_transaction_ID, fresh_audit_log_ID; cbn;
  repeat (first [ rewrite (bool_decide_eq_true_2 (uuid_Nil = uuid_Nil) eq_refl)
                | rewrite respond_eq
                | match goal with
                  | H : ?l = _ |- context [?l] => rewrite H
                  end ]; cbn).

(** ** Membership *)

Lemma first_by_ID_elem (l : list UserGroup.t) (x : UserGroup.t) :
  first_by_ID l = Some x -> x ∈ l.
Proof.
  revert x. induction l as [|y l IH]; intros x; cbn; [discriminate|].
  destruct (first_by_ID l) as [z|].
  - destruct (UserGroup.ID y <=? UserGroup.ID z)%N; intros [= <-].
    + apply elem_of_cons; by left.
    + apply elem_of_cons; right; by apply IH.
  - intros [= <-]. apply elem_of_cons; by left.
Qed.

Lemma membership_ok_active env u g d :
  membership_ok env u g d -> active_member u g d.
Proof.
  unfold membership_ok, not_active_member, groupRepo_FindByUserAndGroup_on.
  destruct (fails env FindUserGroup); [discriminate|].
  destruct (first_by_ID _) as [ug|] eqn:E; cbn; [|discriminate].
  intros H. apply negb_false_iff, bool_decide_eq_true in H.
  apply first_by_ID_elem, list_elem_of_filter in E as [Hm Hin].
  apply andb_true_iff in Hm as [Hu Hg].
  apply bool_decide_eq_true in Hu, Hg.
  exists ug. auto.
Qed.

Lemma not_member_refused env u g d :
  ~ active_member u g d ->
  not_active_member (groupRepo_FindByUserAndGroup_on env u g d) = true.
Proof.
  intros H. destruct (not_active_member _) eqn:E; [done|].
  destruct H. by eapply membership_ok_active.
Qed.

(** ** Calls that commit *)

Lemma grown_log (d d' : DB) (l : list Transaction.t) :
  transactions d' = transactions d ++ l -> l <> [] -> d' <> d.
Proof.
  intros H Hl ->. apply (f_equal length) in H. rewrite length_app in H.
  destruct l; [done|cbn in H; lia].
Qed.

Lemma fresh_snoc (id : UUID) (l : list Transaction.t) (t : Transaction.t) :
  id ∉ Transaction.ID <$> l -> id <> Transaction.ID t ->
  bool_decide (id ∉ Transaction.ID <$> (l ++ [t])) = true.
Proof.
  intros H1 H2. apply bool_decide_eq_true.
  rewrite fmap_app, not_elem_of_app. split; [done|].
  cbn. rewrite not_elem_of_cons. split; [done|apply not_elem_of_nil].
Qed.

Lemma fresh_audit_snoc (id : UUID) (l : list AuditLog.t) (a : AuditLog.t) :
  id ∉ AuditLog.ID <$> l -> id <> AuditLog.ID a ->
  bool_decide (id ∉ AuditLog.ID <$> (l ++ [a])) = true.
Proof.
  intros H1 H2. apply bool_decide_eq_true.
  rewrite fmap_app, not_elem_of_app. split; [done|].
  cbn. rewrite not_elem_of_cons. split; [done|apply not_elem_of_nil].
Qed.

(** The facts a quiet environment with new identifiers provides, in the
    form in which the unfolded methods test them. *)
Ltac healthy Hq Hn :=
  pose proof (Hq FindUser); pose proof (Hq FindGroup); pose proof (Hq FindUserGroup);
  pose proof (Hq FindPlannedExpense); pose proof (Hq FindTransaction);
  pose proof (Hq (CreateTransaction 1)); pose proof (Hq (CreateTransaction 2));
  pose proof (Hq SaveUser); pose proof (Hq SaveGroup); pose proof (Hq SavePlannedExpense);
  pose proof (Hq (CreateAuditLog 1)); pose proof (Hq (CreateAuditLog 2));
  pose proof (Hq Commit);
  let H := fresh in
  destruct Hn as (Hnt & Hna & Hinj);
  pose proof (bool_decide_eq_true_2 _ (Hnt 0%nat));
  pose proof (bool_decide_eq_true_2 _ (Hna 1%nat));
  pose proof (bool_decide_eq_true_2 _ (Hna 2%nat));
  pose proof (bool_decide_eq_true_2 _ (Hna 3%nat)).

Lemma credit_or_covered (type : string) (amount balance : Z) :
  (type <> "CREDIT" -> amount <= balance) ->
  negb (bool_decide (type = "CREDIT")) && (balance <? amount) = false.
Proof.
  intros H. case_bool_decide; cbn; [done|]. apply Z.ltb_ge. auto.
Qed.

Lemma personal_commits env u req d user :
  quiet env -> new_ids env d ->
  users d !! u = Some user ->
  (CreateTransactionRequest.Type_ req <> "CREDIT" ->
     CreateTransactionRequest.Amount req <= User.Balance user) ->
  after env (OpPersonal u req) d <> d.
Proof.
  intros Hq Hn Hu Hb. healthy Hq Hn.
  apply credit_or_covered in Hb.
  along.
  eapply grown_log; [reflexivity|done].
Qed.

Lemma group_commits env u req d g group :
  quiet env -> new_ids env d ->
  CreateTransactionRequest.GroupID req = Some g ->
  membership_ok env u g d ->
  groups d !! g = Some group ->
  (CreateTransactionRequest.Type_ req <> "CREDIT" ->
     CreateTransactionRequest.Amount req <= Group.Balance group) ->
  after env (OpGroup u req) d <> d.
Proof.
  intros Hq Hn Hg Hm Hu Hb. healthy Hq Hn.
  apply credit_or_covered in Hb. unfold membership_ok in Hm.
  destruct (CreateTransactionRequest.PlannedExpenseID req) eqn:Hp.
  all: along.
  all: eapply grown_log; [reflexivity|done].
Qed.

Lemma transfer_commits env u req d user group :
  quiet env -> new_ids env d ->
  membership_ok env u (TransferToGroupRequest.GroupID req) d ->
  users d !! u = Some user ->
  TransferToGroupRequest.Amount req <= User.Balance user ->
  groups d !! TransferToGroupRequest.GroupID req = Some group ->
  after env (OpTransfer u req) d <> d.
Proof.
  intros Hq Hn Hm Hu Hb Hg. healthy Hq Hn.
  apply Z.ltb_ge in Hb. unfold membership_ok in Hm.
  along.
  rewrite fresh_snoc; [|apply Hnt|cbn; intros E; by apply Hinj in E].
  along.
  rewrite fresh_audit_snoc; [|apply Hna|cbn; intros E; by apply Hinj in E].
  along.
  eapply grown_log; [cbn; symmetry; apply app_assoc|done].
Qed.

Lemma pay_commits env u g req d expense group :
  quiet env -> new_ids env d ->
  membership_ok env u g d ->
  planned_expenses d !! PayGroupExpenseRequest.PlannedExpenseID req = Some expense ->
  PlannedExpense.GroupID expense = Some g ->
  PlannedExpense.Status expense = "planned" ->
  groups d !! g = Some group ->
  PayGroupExpenseRequest.ActualPrice req <= Group.Balance group ->
  after env (OpPay u g req) d <> d.
Proof.
  intros Hq Hn Hm He Heg Hes Hg Hb. healthy Hq Hn.
  apply Z.ltb_ge in Hb. unfold membership_ok in Hm.
  apply (bool_decide_eq_true_2 _) in Heg, Hes.
  along.
  eapply grown_log; [reflexivity|done].
Qed.

Lemma income_commits env u g amount source d group :
  quiet env -> new_ids env d ->
  membership_ok env u g d ->
  groups d !! g = Some group ->
  after env (OpIncome u g amount source) d <> d.
Proof.
  intros Hq Hn Hm Hg. healthy Hq Hn. unfold membership_ok in Hm.
  along.
  eapply grown_log; [reflexivity|done].
Qed.
(** ** The balance invariant through a posting *)

Lemma signed_sum_snoc ot oid (l : list Transaction.t) (t : Transaction.t) :
  signed_sum ot oid (l ++ [t]) =
  signed_sum ot oid l + (if owned_by ot oid t then signed_amount t else 0).
Proof.
  induction l as [|x l IH]; cbn; [lia|]. rewrite IH. lia.
Qed.

Lemma keyed_put_user d u : keyed d -> keyed (put_user u d).
Proof.
  intros (Hu & Hg & He). repeat split; cbn; try done.
  intros id u' [[<- <-]|[_ H]]%lookup_insert_Some; [done|by apply Hu].
Qed.

Lemma keyed_put_group d g : keyed d -> keyed (put_group g d).
Proof.
  intros (Hu & Hg & He). repeat split; cbn; try done.
  intros id g' [[<- <-]|[_ H]]%lookup_insert_Some; [done|by apply Hg].
Qed.

Lemma keyed_put_planned_expense d e : keyed d -> keyed (put_planned_expense e d).
Proof.
  intros (Hu & Hg & He). repeat split; cbn; try done.
  intros id e' [[<- <-]|[_ H]]%lookup_insert_Some; [done|by apply He].
Qed.

Lemma new_balance_wrapped type old amount sum :
  old = Int64.wrap sum ->
  new_balance type old amount =
  Int64.wrap (sum + (if bool_decide (type = "CREDIT") then amount else - amount)).
Proof.
  intros ->. unfold new_balance, Int64.add, Int64.sub.
  case_bool_decide.
  - apply int64_wrap_add_l.
  - rewrite int64_wrap_sub_l. reflexivity.
Qed.

Lemma balanced64_post_user d user (t : Transaction.t) :
  keyed d -> balanced64 d ->
  users d !! Transaction.OwnerID t = Some user ->
  Transaction.OwnerType t = "USER" ->
  Transaction.Balance t =
    new_balance (Transaction.Type_ t) (User.Balance user) (Transaction.Amount t) ->
  balanced64 (put_user (User.with_Balance user (Transaction.Balance t)) (add_transaction t d)).
Proof.
  intros (Hk & _) Hb Hu Ho Hnb ot oid b.
  pose proof (Hk _ _ Hu) as Hid.
  unfold balance_of, GetBalance. cbn. rewrite Hid, signed_sum_snoc.
  unfold owned_by, signed_amount. rewrite Ho.
  case_bool_decide as Hot; [subst ot|].
  - rewrite bool_decide_eq_true_2 by done. cbn.
    destruct (decide (Transaction.OwnerID t = oid)) as [<-|Hne].
    + rewrite lookup_insert_eq, bool_decide_eq_true_2 by done. cbn. intros [= <-].
      rewrite Hnb. apply new_balance_wrapped.
      apply (Hb "USER"). unfold balance_of. cbn. by rewrite Hu.
    + rewrite lookup_insert_ne, bool_decide_eq_false_2 by done. cbn.
      rewrite Z.add_0_r. intros H. apply (Hb "USER"). unfold balance_of. by cbn.
  - rewrite (bool_decide_eq_false_2 ("USER" = ot)) by done. cbn.
    rewrite Z.add_0_r. intros H. apply Hb. unfold balance_of.
    by rewrite bool_decide_eq_false_2.
Qed.

Lemma balanced64_post_group d group (t : Transaction.t) :
  keyed d -> balanced64 d ->
  groups d !! Transaction.OwnerID t = Some group ->
  Transaction.OwnerType t = "GROUP" ->
  Transaction.Balance t =
    new_balance (Transaction.Type_ t) (Group.Balance group) (Transaction.Amount t) ->
  balanced64 (put_group (Group.with_Balance group (Transaction.Balance t)) (add_transaction t d)).
Proof.
  intros (_ & Hk & _) Hb Hu Ho Hnb ot oid b.
  pose proof (Hk _ _ Hu) as Hid.
  unfold balance_of, GetBalance. cbn. rewrite Hid, signed_sum_snoc.
  unfold owned_by, signed_amount. rewrite Ho.
  case_bool_decide as Hot; [subst ot|].
  - rewrite (bool_decide_eq_false_2 ("GROUP" = "USER")) by done. cbn.
    rewrite Z.add_0_r. intros H. apply (Hb "USER"). unfold balance_of. by cbn.
  - case_bool_decide as Hog; [subst ot|discriminate].
    rewrite bool_decide_eq_true_2 by done. cbn.
    destruct (decide (Transaction.OwnerID t = oid)) as [<-|Hne].
    + rewrite lookup_insert_eq, bool_decide_eq_true_2 by done. cbn. intros [= <-].
      rewrite Hnb. apply new_balance_wrapped.
      apply (Hb "GROUP"). unfold balance_of. cbn. by rewrite Hu.
    + rewrite lookup_insert_ne, bool_decide_eq_false_2 by done. cbn.
      rewrite Z.add_0_r. intros H. apply (Hb "GROUP"). unfold balance_of. by cbn.
Qed.

(** The invariants read the users, the groups and the transaction log. *)
Lemma balanced64_same d d' :
  users d' = users d -> groups d' = groups d -> transactions d' = transactions d ->
  balanced64 d -> balanced64 d'.
Proof.
  intros Hu Hg Ht Hb ot oid b. unfold balance_of, GetBalance.
  rewrite Hu, Hg, Ht. apply Hb.
Qed.

Lemma balanced64_post_group_after d1 d' group (t : Transaction.t) :
  users d' = users d1 ->
  groups d' = <[Group.ID group := Group.with_Balance group (Transaction.Balance t)]> (groups d1) ->
  transactions d' = transactions d1 ++ [t] ->
  keyed d1 -> balanced64 d1 ->
  groups d1 !! Transaction.OwnerID t = Some group ->
  Transaction.OwnerType t = "GROUP" ->
  Transaction.Balance t =
    new_balance (Transaction.Type_ t) (Group.Balance group) (Transaction.Amount t) ->
  balanced64 d'.
Proof.
  intros Hu Hg Ht Hk Hb Hl Ho Hn.
  apply (balanced64_same
           (put_group (Group.with_Balance group (Transaction.Balance t)) (add_transaction t d1)));
    [done..|].
  by apply balanced64_post_group.
Qed.

(** ** The example world is well formed *)

Lemma quiet_env0 : quiet env0.
Proof. intros c. reflexivity. Qed.

Lemma new_ids_env0_db0 : new_ids env0 db0.
Proof.
  repeat split.
  - intros k. cbn. rewrite !not_elem_of_cons. repeat split; [lia..|apply not_elem_of_nil].
  - intros k. cbn. apply not_elem_of_nil.
  - intros j k. cbn. lia.
Qed.

Lemma keyed_db0 : keyed db0.
Proof.
  repeat split; cbn; intros id x [<- <-]%lookup_singleton_Some; reflexivity.
Qed.

Lemma balanced_db0 : balanced db0.
Proof.
  intros ot oid b. unfold balance_of. cbn.
  case_bool_decide; [subst ot|case_bool_decide; [subst ot|discriminate]].
  - intros [u [[<- <-]%lookup_singleton_Some ->]]%fmap_Some. reflexivity.
  - intros [g [[<- <-]%lookup_singleton_Some ->]]%fmap_Some. reflexivity.
Qed.

Lemma balanced64_db0 : balanced64 db0.
Proof.
  intros ot oid b H. rewrite (balanced_db0 ot oid b H).
  unfold balance_of in H. cbn in H.
  case_bool_decide; [subst ot|case_bool_decide; [subst ot|discriminate]].
  - apply fmap_Some in H as [u [[<- <-]%lookup_singleton_Some _]]. reflexivity.
  - apply fmap_Some in H as [u [[<- <-]%lookup_singleton_Some _]]. reflexivity.
Qed.

(** ** Snapshots and read-back *)

Lemma new_balance_exact type old amount :
  (type = "CREDIT" -> Int64.in_range (old + amount) ->
     new_balance type old amount = old + amount) /\
  (type = "DEBIT" -> Int64.in_range (old - amount) ->
     new_balance type old amount = old - amount).
Proof.
  unfold new_balance, Int64.add, Int64.sub. split; intros -> Hr.
  - rewrite bool_decide_eq_true_2 by done. by apply int64_wrap_in_range.
  - rewrite bool_decide_eq_false_2 by done. by apply int64_wrap_in_range.
Qed.

Lemma snapshot_intro d d' (t : Transaction.t) old :
  balance_of (Transaction.OwnerType t) (Transaction.OwnerID t) d = Some old ->
  Transaction.Balance t = new_balance (Transaction.Type_ t) old (Transaction.Amount t) ->
  balance_of (Transaction.OwnerType t) (Transaction.OwnerID t) d' =
    Some (Transaction.Balance t) ->
  find_transaction (Transaction.ID t) d' = Some t ->
  snapshot d d' t.
Proof.
  intros H1 H2 H3 H4. exists old.
  destruct (new_balance_exact (Transaction.Type_ t) old (Transaction.Amount t)) as [Hc Hd].
  rewrite <- H2 in Hc, Hd. auto 10.
Qed.

Lemma read_back_found env id d resp t :
  read_back env id d = (Some resp, None) ->
  find_transaction id d = Some t ->
  resp = mapTransactionToResponse (preload d t).
Proof.
  unfold read_back, transactionRepo_FindByID_on. intros H Hf.
  destruct (fails env FindTransaction); [discriminate|].
  rewrite Hf in H. by injection H as <-.
Qed.

Lemma find_transaction_new d' (l : list Transaction.t) (t : Transaction.t) :
  transactions d' = l ++ [t] ->
  Transaction.ID t ∉ Transaction.ID <$> l ->
  find_transaction (Transaction.ID t) d' = Some t.
Proof.
  unfold find_transaction. intros -> H. by apply list_find_fresh.
Qed.

Lemma find_transaction_by_id d' (l : list Transaction.t) (t : Transaction.t) id :
  transactions d' = l ++ [t] ->
  id = Transaction.ID t ->
  id ∉ Transaction.ID <$> l ->
  find_transaction id d' = Some t.
Proof. intros H -> Hn. by eapply find_transaction_new. Qed.

Lemma find_transaction_older d' (l : list Transaction.t) (t t' : Transaction.t) :
  transactions d' = l ++ [t'] ->
  snd <$> list_find (fun x => Transaction.ID x = Transaction.ID t) l = Some t ->
  find_transaction (Transaction.ID t) d' = Some t.
Proof.
  unfold find_transaction. intros -> H. by apply list_find_older.
Qed.

Lemma fresh_not_elem id d :
  fresh_transaction_ID id d = true -> id ∉ Transaction.ID <$> transactions d.
Proof. apply bool_decide_eq_true. Qed.

Lemma read_back_ok env id d t :
  fails env FindTransaction = false ->
  find_transaction id d = Some t ->
  read_back env id d = (Some (mapTransactionToResponse (preload d t)), None).
Proof.
  unfold read_back, transactionRepo_FindByID_on. by intros -> ->.
Qed.

(** ** Every call either commits or is rejected *)

Lemma read_back_cases env id d :
  (exists e, read_back env id d = (None, Some e) /\ Code e = "SERVER_ERROR") \/
  (exists l, read_back env id d = (Some (mapTransactionToResponse l), None) /\
             transactionRepo_FindByID_on env id d = (l, false)).
Proof.
  unfold read_back.
  destruct (transactionRepo_FindByID_on env id d) as [l []]; [left|right]; eauto.
Qed.

Lemma outcome env op d : rejected env op d \/ went_through env op d.
Proof.
  unfold went_through. destruct op.
  - pose proof (personal_shape env userID req d) as H. cbv zeta in H.
    destruct H as [?|(?&?&?&?&Hf%fresh_not_elem&?&Ha&?&?)]; [by left|right].
    do 2 (split; [assumption|]). eexists _, _. split; [eassumption|].
    rewrite Ha. eapply find_transaction_by_id; [reflexivity|reflexivity|exact Hf].
  - pose proof (group_shape env userID req d) as H. cbv zeta in H.
    destruct H as [?|(?&?&?&?&?&?&?&Hf%fresh_not_elem&?&Ha&?&?)]; [by left|right].
    do 2 (split; [assumption|]). eexists _, _. split; [eassumption|].
    rewrite Ha. eapply find_transaction_by_id; [reflexivity|reflexivity|exact Hf].
  - pose proof (transfer_shape env userID req d) as H. cbv zeta in H.
    destruct H as [?|(?&?&?&?&?&?&?&?&?&Hf%fresh_not_elem&?&Ha&?&?)]; [by left|right].
    do 2 (split; [assumption|]). eexists _, _. split; [eassumption|].
    rewrite Ha. eapply find_transaction_by_id; [reflexivity|reflexivity|exact Hf].
  - pose proof (pay_shape env userID groupID req d) as H. cbv zeta in H.
    destruct H as [?|(?&?&?&?&?&?&?&?&?&Hf%fresh_not_elem&?&Ha&?&?)]; [by left|right].
    do 2 (split; [assumption|]). eexists _, _. split; [eassumption|].
    rewrite Ha. eapply find_transaction_by_id; [reflexivity|reflexivity|exact Hf].
  - pose proof (income_shape env userID groupID amount source d) as H. cbv zeta in H.
    destruct H as [?|(?&?&?&?&Hf%fresh_not_elem&?&Ha&?&?)]; [by left|right].
    do 2 (split; [assumption|]). eexists _, _. split; [eassumption|].
    rewrite Ha. eapply find_transaction_by_id; [reflexivity|reflexivity|exact Hf].
Qed.

Lemma went_through_no_failure env op d c :
  went_through env op d -> ~ In (EvFailed c) (events env op d).
Proof.
  intros (_ & -> & _). destruct op; cbn; intuition discriminate.
Qed.

(** What a call can return: nothing at all, an error with one of the
    engine's codes, or a response. *)
Lemma replies env op d :
  result env op d = Val (None, None) \/
  (exists e, result env op d = Val (None, Some e) /\ In (Code e) error_codes) \/
  (exists resp, result env op d = Val (Some resp, None)).
Proof.
  destruct (outcome env op d) as [(_ & [H|H] & _)|(_ & _ & id & t & H & _)]; auto.
  destruct (read_back_cases env id (after env op d)) as [(e & He & Hc)|(l & Hl & _)];
    rewrite H.
  - right; left. exists e. split; [by rewrite He|]. rewrite Hc. cbn. tauto.
  - right; right. eexists. by rewrite Hl.
Qed.

Lemma went_through_succeeds env op d :
  quiet env -> went_through env op d -> exists resp, succeeded (result env op d) resp.
Proof.
  intros Hq (_ & _ & id & t & -> & Hf). eexists. unfold succeeded. f_equal.
  apply read_back_ok; [apply Hq|exact Hf].
Qed.

Lemma changed_went_through env op d :
  after env op d <> d -> went_through env op d.
Proof.
  intros H. destruct (outcome env op d) as [(Hr & _)|Hw]; done.
Qed.

(** ** Paying a planned expense *)

Lemma sub_exact balance price :
  0 <= price -> price <= balance -> Int64.in_range balance ->
  Int64.sub balance price = balance - price.
Proof.
  intros H0 H1 Hr. apply int64_wrap_in_range.
  unfold Int64.in_range, Int64.min, Int64.max in *. lia.
Qed.

(** The checks of [PayGroupExpense] that precede its transaction. *)
Lemma pay_refused env u g req d :
  membership_ok env u g d ->
  fails env FindPlannedExpense = false ->
  let op := OpPay u g req in
  let id := PayGroupExpenseRequest.PlannedExpenseID req in
  (planned_expenses d !! id = None ->
     failed_with (result env op d) "EXPENSE_NOT_FOUND" /\ after env op d = d) /\
  (forall expense, planned_expenses d !! id = Some expense ->
     (PlannedExpense.GroupID expense <> Some g ->
        failed_with (result env op d) "FORBIDDEN" /\ after env op d = d) /\
     (PlannedExpense.GroupID expense = Some g ->
      PlannedExpense.Status expense <> "planned" ->
        failed_with (result env op d) "INVALID_STATUS" /\ after env op d = d) /\
     (PlannedExpense.GroupID expense = Some g ->
      PlannedExpense.Status expense = "planned" ->
      fails env FindGroup = false ->
      forall group, groups d !! g = Some group ->
      Group.Balance group < PayGroupExpenseRequest.ActualPrice req ->
        failed_with (result env op d) "INSUFFICIENT_BALANCE" /\ after env op d = d)).
Proof.
  intros Hm Hf. unfold membership_ok in Hm. cbv zeta.
  split; [|intros e He; split; [|split]].
  - intros He. along. split; [eexists|]; reflexivity.
  - intros Hg%(bool_decide_eq_false_2 _). along. split; [eexists|]; reflexivity.
  - intros Hg%(bool_decide_eq_true_2 _) Hs%(bool_decide_eq_false_2 _). along.
    split; [eexists|]; reflexivity.
  - intros Hg%(bool_decide_eq_true_2 _) Hs%(bool_decide_eq_true_2 _) Hfg group Hgr
      Hlt%Z.ltb_lt. along. split; [eexists|]; reflexivity.
Qed.

Lemma add_exact balance amount :
  Int64.in_range (balance + amount) -> Int64.add balance amount = balance + amount.
Proof. apply int64_wrap_in_range. Qed.

(** ** Debits *)

(** Reading the debited owner's row off [balance_of]. *)
Lemma balance_of_user d u b :
  balance_of "USER" u d = Some b -> exists user, users d !! u = Some user /\ User.Balance user = b.
Proof.
  unfold balance_of. cbn. intros (user & H & ->)%fmap_Some. eauto.
Qed.

Lemma balance_of_group d g b :
  balance_of "GROUP" g d = Some b ->
  exists group, groups d !! g = Some group /\ Group.Balance group = b.
Proof.
  unfold balance_of. cbn. intros (group & H & ->)%fmap_Some. eauto.
Qed.

Lemma debit_not_credit (type : string) : type = "DEBIT" -> type <> "CREDIT".
Proof. intros ->. discriminate. Qed.

(** A debit either is rejected or leaves the owner with the balance less
    the amount, which the balance covered. *)
Lemma debit_shape env op d ot oid amount b :
  debit_of op = Some (ot, oid, amount) ->
  balance_of ot oid d = Some b ->
  keyed d ->
  rejected env op d \/
  (amount <= b /\ balance_of ot oid (after env op d) = Some (Int64.sub b amount)).
Proof.
  intros Hd Hb (Hku & Hkg & _).
  destruct op; cbn in Hd.
  - case_bool_decide as Ht; simplify_eq.
    apply balance_of_user in Hb as (user & Hu & <-).
    pose proof (personal_shape env oid req d) as H. cbv zeta in H.
    destruct H as [Hr|(user0 & a & Hu0 & Hle & _ & _ & Ha & _)]; [by left|right].
    rewrite Hu in Hu0. injection Hu0 as <-.
    split; [by apply Hle, debit_not_credit|].
    rewrite Ha. unfold new_balance.
    rewrite (bool_decide_eq_false_2 (_ = "CREDIT")) by by apply debit_not_credit.
    unfold balance_of. cbn. by rewrite (Hku _ _ Hu), lookup_insert_eq.
  - case_bool_decide as Ht; [|done].
    destruct (CreateTransactionRequest.GroupID req) as [g|] eqn:Hg; simplify_eq/=.
    apply balance_of_group in Hb as (group & Hgr & <-).
    pose proof (group_shape env userID req d) as H. cbv zeta in H.
    destruct H as [Hr|(g0 & group0 & a & Hg0 & _ & Hgr0 & Hle & _ & _ & Ha & _)];
      [by left|right].
    rewrite Hg in Hg0. injection Hg0 as <-.
    rewrite Hgr in Hgr0. injection Hgr0 as <-.
    split; [by apply Hle, debit_not_credit|].
    rewrite Ha. unfold new_balance.
    rewrite (bool_decide_eq_false_2 (_ = "CREDIT")) by by apply debit_not_credit.
    unfold balance_of. cbn. by rewrite (Hkg _ _ Hgr), lookup_insert_eq.
  - simplify_eq.
    apply balance_of_user in Hb as (user & Hu & <-).
    pose proof (transfer_shape env oid req d) as H. cbv zeta in H.
    destruct H as [Hr|(user0 & group & a1 & a2 & _ & Hu0 & _ & Hle & _ & _ & _ & Ha & _)];
      [by left|right].
    rewrite Hu in Hu0. injection Hu0 as <-.
    split; [done|].
    rewrite Ha. unfold balance_of. cbn.
    by rewrite (Hku _ _ Hu), lookup_insert_eq.
  - simplify_eq.
    apply balance_of_group in Hb as (group & Hgr & <-).
    pose proof (pay_shape env userID oid req d) as H. cbv zeta in H.
    destruct H as [Hr|(e & group0 & a & _ & _ & _ & _ & Hgr0 & Hle & _ & _ & Ha & _)];
      [by left|right].
    rewrite Hgr in Hgr0. injection Hgr0 as <-.
    split; [done|].
    rewrite Ha. unfold balance_of. cbn.
    by rewrite (Hkg _ _ Hgr), lookup_insert_eq.
  - done.
Qed.

Lemma debit_insufficient env op d ot oid amount b :
  debit_of op = Some (ot, oid, amount) ->
  balance_of ot oid d = Some b ->
  b < amount ->
  reaches_balance_check env op d ->
  failed_with (result env op d) "INSUFFICIENT_BALANCE" /\
  events env op d = [EvBegin; EvRollback].
Proof.
  intros Hd Hb Hlt Hr.
  destruct op; cbn in Hd, Hr.
  - case_bool_decide as Ht; simplify_eq.
    apply balance_of_user in Hb as (user & Hu & <-).
    apply Z.ltb_lt in Hlt.
    pose proof (bool_decide_eq_false_2 _ (debit_not_credit _ Ht)) as Hc.
    along. split; [eexists|]; reflexivity.
  - case_bool_decide as Ht; [|done].
    destruct Hr as (g & Hg & Hm & Hf). rewrite Hg in Hd. simplify_eq/=.
    apply balance_of_group in Hb as (group & Hgr & <-).
    apply Z.ltb_lt in Hlt. unfold membership_ok in Hm.
    pose proof (bool_decide_eq_false_2 _ (debit_not_credit _ Ht)) as Hc.
    along. split; [eexists|]; reflexivity.
  - simplify_eq. destruct Hr as (Hm & Hf).
    apply balance_of_user in Hb as (user & Hu & <-).
    apply Z.ltb_lt in Hlt. unfold membership_ok in Hm.
    along. split; [eexists|]; reflexivity.
  - simplify_eq. destruct Hr as (Hm & Hfe & (e & He & Heg & Hes) & Hfg).
    apply balance_of_group in Hb as (group & Hgr & <-).
    apply Z.ltb_lt in Hlt. unfold membership_ok in Hm.
    apply (bool_decide_eq_true_2 _) in Heg, Hes.
    along. split; [eexists|]; reflexivity.
  - done.
Qed.

Lemma debit_commits env op d ot oid amount b :
  debit_of op = Some (ot, oid, amount) ->
  balance_of ot oid d = Some b ->
  amount <= b ->
  reaches_balance_check env op d ->
  counterparty_exists op d ->
  quiet env -> new_ids env d ->
  after env op d <> d.
Proof.
  intros Hd Hb Hle Hr Hcp Hq Hn.
  destruct op; cbn in Hd, Hr, Hcp.
  - case_bool_decide as Ht; simplify_eq.
    apply balance_of_user in Hb as (user & Hu & <-).
    by eapply personal_commits.
  - case_bool_decide as Ht; [|done].
    destruct Hr as (g & Hg & Hm & Hf). rewrite Hg in Hd. simplify_eq/=.
    apply balance_of_group in Hb as (group & Hgr & <-).
    by eapply group_commits.
  - simplify_eq. destruct Hr as (Hm & Hf). destruct Hcp as [group Hg].
    apply balance_of_user in Hb as (user & Hu & <-).
    by eapply transfer_commits.
  - simplify_eq. destruct Hr as (Hm & Hfe & (e & He & Heg & Hes) & Hfg).
    apply balance_of_group in Hb as (group & Hgr & <-).
    by eapply pay_commits.
  - done.
Qed.

(** * The claims *)

(** C1 (as amended).  For every owner, after every call of the five
    methods, the stored balance is the signed sum (CREDIT positive, anything
    else negative) of the owner's transactions reduced to the [int64] range;
    it is that sum itself whenever the sum lies in the [int64] range.  The
    five methods preserve this, whatever fails. *)
Theorem balance_is_wrapped_sum env op d :
  keyed d -> balanced64 d ->
  keyed (after env op d) /\
  balanced64 (after env op d) /\
  (forall ownerType ownerID b,
     balance_of ownerType ownerID (after env op d) = Some b ->
     Int64.in_range (GetBalance ownerType ownerID (after env op d)) ->
     b = GetBalance ownerType ownerID (after env op d)).
Proof.
  intros Hk Hb.
  cut (keyed (after env op d) /\ balanced64 (after env op d)).
  { intros [Hk' Hb']. split; [done|]. split; [done|].
    intros ot oid b H Hr. rewrite <- (int64_wrap_in_range _ Hr). by apply Hb'. }
  destruct op.
  - pose proof (personal_shape env userID req d) as H. cbv zeta in H.
    destruct H as [(-> & _)|(user & a & Hu & _ & _ & _ & -> & _)]; [done|].
    split.
    + by apply keyed_put_user.
    + eapply balanced64_same; [reflexivity..|].
      apply (balanced64_post_user d user (Transaction.mk _ _ _ _ _ _ _ _ _ _ _ _ _ _ _));
        done.
  - pose proof (group_shape env userID req d) as H. cbv zeta in H.
    destruct H as [(-> & _)|(g & group & a & _ & _ & Hg & _ & _ & _ & -> & _)]; [done|].
    split.
    + by apply keyed_put_group.
    + eapply balanced64_same; [reflexivity..|].
      apply (balanced64_post_group d group (Transaction.mk _ _ _ _ _ _ _ _ _ _ _ _ _ _ _));
        done.
  - pose proof (transfer_shape env userID req d) as H. cbv zeta in H.
    destruct H as [(-> & _)|(user & group & a1 & a2 & _ & Hu & Hg & _ & _ & _ & _ & -> & _)];
      [done|].
    split.
    + by apply keyed_put_group, keyed_put_user.
    + eapply (balanced64_post_group_after (put_user _ (add_transaction _ d)) _ group
                (Transaction.mk _ _ _ _ _ _ _ _ _ _ _ _ _ _ _));
        [reflexivity|reflexivity|reflexivity|by apply keyed_put_user| |done..].
      apply (balanced64_post_user d user (Transaction.mk _ _ _ _ _ _ _ _ _ _ _ _ _ _ _));
        done.
  - pose proof (pay_shape env userID groupID req d) as H. cbv zeta in H.
    destruct H as [(-> & _)|(e & group & a & _ & _ & _ & _ & Hg & _ & _ & _ & -> & _)];
      [done|].
    split.
    + by apply keyed_put_group, keyed_put_planned_expense.
    + eapply balanced64_same; [reflexivity..|].
      apply (balanced64_post_group d group (Transaction.mk _ _ _ _ _ _ _ _ _ _ _ _ _ _ _));
        done.
  - pose proof (income_shape env userID groupID amount source d) as H. cbv zeta in H.
    destruct H as [(-> & _)|(group & a & _ & Hg & _ & _ & -> & _)]; [done|].
    split.
    + by apply keyed_put_group.
    + eapply balanced64_same; [reflexivity..|].
      apply (balanced64_post_group d group (Transaction.mk _ _ _ _ _ _ _ _ _ _ _ _ _ _ _));
        done.
Qed.

Lemma balance_is_wrapped_sum_witness :
  balanced64 (after env0 (OpTransfer 1 rent) db0) /\
  balance_of "USER" 1 (after env0 (OpTransfer 1 rent) db0) = Some 500 /\
  GetBalance "USER" 1 (after env0 (OpTransfer 1 rent) db0) = 500.
Proof.
  split; [|split; reflexivity].
  exact (proj1 (proj2 (balance_is_wrapped_sum env0 (OpTransfer 1 rent) db0
                         keyed_db0 balanced64_db0))).
Defined.

(** C1, as stated, fails when a balance overflows [int64]: Croesus holds
    the largest [int64] and is credited 1; the call succeeds, his stored
    balance wraps around to the least [int64], and the signed sum of his
    transactions is 2^63. *)
Lemma balance_sum_counterexample :
  balanced db_rich /\
  (exists resp, result env0 (OpPersonal 1 (credit 1)) db_rich = Val (Some resp, None)) /\
  ~ balanced (after env0 (OpPersonal 1 (credit 1)) db_rich).
Proof.
  split; [|split].
  - intros ot oid b. unfold balance_of. cbn.
    case_bool_decide; [subst ot|case_bool_decide; [subst ot|discriminate]].
    + intros [u [[<- <-]%lookup_singleton_Some ->]]%fmap_Some. reflexivity.
    + rewrite lookup_empty. discriminate.
  - eexists. vm_compute. reflexivity.
  - intros H. specialize (H "USER" 1%N Int64.min). 
    assert (E : balance_of "USER" 1 (after env0 (OpPersonal 1 (credit 1)) db_rich)
                = Some Int64.min) by (vm_compute; reflexivity).
    specialize (H E). vm_compute in H. discriminate H.
Qed.

(** C2.  For a call that debits an owner (a personal or group transaction
    of type DEBIT, the user's side of a transfer, the payment of a group
    expense), [b] being the owner's balance:
    - if the amount exceeds [b], the call changes nothing (balances,
      transaction log and audit log are as before) and returns no response;
      when the checks that precede the balance test pass, the error is
      [INSUFFICIENT_BALANCE] and the transaction was opened and rolled back
      with no write;
    - if the amount equals [b], those checks passing and nothing failing,
      the call succeeds and the owner's balance becomes zero;
    - whatever happens, for an amount that is not negative a balance that
      was not negative is not negative afterwards. *)
Theorem debit_never_overdraws env op d ownerType ownerID amount b :
  debit_of op = Some (ownerType, ownerID, amount) ->
  balance_of ownerType ownerID d = Some b ->
  keyed d ->
  (b < amount ->
     after env op d = d /\
     (forall resp e, result env op d <> Val (Some resp, e)) /\
     (reaches_balance_check env op d ->
        failed_with (result env op d) "INSUFFICIENT_BALANCE" /\
        events env op d = [EvBegin; EvRollback])) /\
  (b = amount ->
     reaches_balance_check env op d -> counterparty_exists op d ->
     quiet env -> new_ids env d ->
     (exists resp, succeeded (result env op d) resp) /\
     balance_of ownerType ownerID (after env op d) = Some 0) /\
  (0 <= amount -> 0 <= b -> Int64.in_range b ->
     exists b', balance_of ownerType ownerID (after env op d) = Some b' /\ 0 <= b').
Proof.
  intros Hd Hb Hk.
  pose proof (debit_shape env op d ownerType ownerID amount b Hd Hb Hk) as Hshape.
  split; [|split].
  - intros Hlt. destruct Hshape as [Hr|[Hle _]]; [|lia].
    split; [apply Hr|]. split; [intros; by apply rejected_no_response|].
    intros Hreach. by apply (debit_insufficient env op d ownerType ownerID amount b).
  - intros -> Hr Hcp Hq Hn.
    pose proof (debit_commits env op d _ _ _ _ Hd Hb ltac:(lia) Hr Hcp Hq Hn) as Hc.
    split.
    + by apply went_through_succeeds, changed_went_through.
    + destruct Hshape as [(Hrej & _)|[_ Hbal]]; [done|].
      rewrite Hbal. unfold Int64.sub. by rewrite Z.sub_diag.
  - intros H0 Hb0 Hrange.
    destruct Hshape as [(-> & _)|[Hle Hbal]]; [eauto|].
    exists (Int64.sub b amount). split; [done|].
    rewrite sub_exact by done. lia.
Qed.

Lemma debit_never_overdraws_witness :
  (exists resp, succeeded (result env0 (OpPersonal 1 (debit 1000)) db0) resp) /\
  balance_of "USER" 1 (after env0 (OpPersonal 1 (debit 1000)) db0) = Some 0 /\
  after env0 (OpPersonal 1 (debit 1001)) db0 = db0.
Proof.
  destruct (debit_never_overdraws env0 (OpPersonal 1 (debit 1000)) db0 "USER" 1 1000 1000
              eq_refl eq_refl keyed_db0) as (_ & H & _).
  destruct (debit_never_overdraws env0 (OpPersonal 1 (debit 1001)) db0 "USER" 1 1001 1000
              eq_refl eq_refl keyed_db0) as (H' & _).
  destruct (H eq_refl eq_refl I quiet_env0 new_ids_env0_db0) as [Hs Hz].
  destruct (H' ltac:(lia)) as (Hsame & _).
  split; [exact Hs|]. split; [exact Hz|exact Hsame].
Defined.

(** C3.  Every method is all-or-nothing.  If a write of its atomic unit
    fails -- the environment makes one of its writes fail, or the trace
    shows a failed write, the last audit-log insert included -- then the
    database afterwards is the database before (no balance change, no
    transaction record, no change to the planned expense), the caller gets
    no response, and when the failed write was reached the transaction was
    rolled back and the error is [SERVER_ERROR]. *)
Theorem atomic_unit_all_or_nothing env op d c :
  (In c (writes op) /\ fails env c = true) \/ In (EvFailed c) (events env op d) ->
  after env op d = d /\
  (forall resp e, result env op d <> Val (Some resp, e)) /\
  (In (EvFailed c) (events env op d) ->
     failed_with (result env op d) "SERVER_ERROR" /\
     last (events env op d) = Some EvRollback).
Proof.
  intros H.
  destruct (outcome env op d) as [Hr|Hw].
  - split; [apply Hr|]. split.
    + intros resp e. by apply rejected_no_response.
    + apply Hr.
  - exfalso. destruct H as [[Hin Hf]|Hin].
    + destruct Hw as (Hok & _). rewrite (Hok c Hin) in Hf. discriminate.
    + by eapply went_through_no_failure.
Qed.

Lemma atomic_unit_witness :
  In (EvFailed (CreateAuditLog 1)) (events env_audit_down (OpPay 1 10 pay_fridge) db0) /\
  after env_audit_down (OpPay 1 10 pay_fridge) db0 = db0.
Proof.
  assert (H : In (EvFailed (CreateAuditLog 1))
                (events env_audit_down (OpPay 1 10 pay_fridge) db0)).
  { vm_compute. tauto. }
  split; [exact H|].
  exact (proj1 (atomic_unit_all_or_nothing env_audit_down (OpPay 1 10 pay_fridge) db0
                  (CreateAuditLog 1) (or_intror H))).
Defined.

(** C4.  After a successful call, every transaction it created carries as
    its [Balance] the owner's balance before the call plus the amount for
    CREDIT, minus the amount otherwise (in [int64] arithmetic, hence exactly
    [old + amount] or [old - amount] when that lies in the [int64] range);
    the owner's stored balance afterwards is that number; the transaction
    fetched by id is that transaction; and the response returned reports
    the balance its owner has afterwards. *)
Theorem snapshot_is_new_balance env op d resp :
  keyed d ->
  succeeded (result env op d) resp ->
  exists news t,
    transactions (after env op d) = transactions d ++ news /\
    Forall (snapshot d (after env op d)) news /\
    t ∈ news /\
    resp = mapTransactionToResponse (preload (after env op d) t) /\
    balance_of (TransactionResponse.OwnerType resp) (TransactionResponse.OwnerID resp)
      (after env op d) = Some (TransactionResponse.Balance resp).
Proof.
  intros (Hku & Hkg & _) Hs. unfold succeeded in Hs.
  destruct op.
  - pose proof (personal_shape env userID req d) as H. cbv zeta in H.
    destruct H as [Hr|(user & a & Hu & _ & Hf%fresh_not_elem & _ & Ha & Hres & _)].
    { by apply rejected_no_response with (resp := resp) (e := None) in Hr. }
    pose proof (Hku _ _ Hu) as Hid.
    rewrite Hres in Hs. injection Hs as Hs. rewrite Ha in *. clear Ha Hres.
    set (t := Transaction.mk (uuid_New env 0) _ _ _ _ _ _ _ _ _ _ _ _ _ _) in *.
    set (d' := add_audit_log _ _) in *.
    assert (Hfind : find_transaction (Transaction.ID t) d' = Some t)
      by (by apply (find_transaction_new d' (transactions d) t)).
    assert (Hbal : balance_of "USER" userID d' = Some (Transaction.Balance t))
      by (unfold balance_of; cbn; by rewrite Hid, lookup_insert_eq).
    exists [t], t.
    split; [reflexivity|]. split; [|split; [apply list_elem_of_singleton; reflexivity|]].
    + constructor; [|constructor].
      apply snapshot_intro with (old := User.Balance user); [|reflexivity|exact Hbal|exact Hfind].
      unfold balance_of; cbn. by rewrite Hu.
    + rewrite (read_back_found _ _ _ _ _ Hs Hfind). split; [reflexivity|exact Hbal].
  - pose proof (group_shape env userID req d) as H. cbv zeta in H.
    destruct H as [Hr|(g & group & a & _ & _ & Hg & _ & Hf%fresh_not_elem & _ & Ha & Hres & _)].
    { by apply rejected_no_response with (resp := resp) (e := None) in Hr. }
    pose proof (Hkg _ _ Hg) as Hid.
    rewrite Hres in Hs. injection Hs as Hs. rewrite Ha in *. clear Ha Hres.
    set (t := Transaction.mk (uuid_New env 0) _ _ _ _ _ _ _ _ _ _ _ _ _ _) in *.
    set (d' := add_audit_log _ _) in *.
    assert (Hfind : find_transaction (Transaction.ID t) d' = Some t)
      by (by apply (find_transaction_new d' (transactions d) t)).
    assert (Hbal : balance_of "GROUP" (Transaction.OwnerID t) d' = Some (Transaction.Balance t))
      by (unfold balance_of; cbn; by rewrite Hid, lookup_insert_eq).
    exists [t], t.
    split; [reflexivity|]. split; [|split; [apply list_elem_of_singleton; reflexivity|]].
    + constructor; [|constructor].
      apply snapshot_intro with (old := Group.Balance group); [|reflexivity|exact Hbal|exact Hfind].
      unfold balance_of; cbn. by rewrite Hg.
    + rewrite (read_back_found _ _ _ _ _ Hs Hfind). split; [reflexivity|exact Hbal].
  - pose proof (transfer_shape env userID req d) as H. cbv zeta in H.
    destruct H as [Hr|(user & group & a1 & a2 & _ & Hu & Hg & _ &
                       Hf1%fresh_not_elem & Hf2%fresh_not_elem & _ & Ha & Hres & _)].
    { by apply rejected_no_response with (resp := resp) (e := None) in Hr. }
    pose proof (Hku _ _ Hu) as Hidu. pose proof (Hkg _ _ Hg) as Hidg.
    rewrite Hres in Hs. injection Hs as Hs. rewrite Ha in *. clear Ha Hres.
    set (t1 := Transaction.mk (uuid_New env 0) _ _ _ _ _ _ _ _ _ _ _ _ _ _) in *.
    set (t2 := Transaction.mk (uuid_New env 1) _ _ _ _ _ _ _ _ _ _ _ _ _ _) in *.
    set (d' := add_audit_log _ _) in *.
    assert (Hfind2 : find_transaction (Transaction.ID t2) d' = Some t2)
      by (by apply (find_transaction_new d' (transactions d ++ [t1]) t2)).
    assert (Hfind1 : find_transaction (Transaction.ID t1) d' = Some t1).
    { apply (find_transaction_older d' (transactions d ++ [t1]) t1 t2); [reflexivity|].
      by apply list_find_fresh. }
    assert (Hbal1 : balance_of "USER" userID d' = Some (Transaction.Balance t1))
      by (unfold balance_of; cbn; by rewrite Hidu, lookup_insert_eq).
    assert (Hbal2 : balance_of "GROUP" (Transaction.OwnerID t2) d' = Some (Transaction.Balance t2))
      by (unfold balance_of; cbn; by rewrite Hidg, lookup_insert_eq).
    exists [t1; t2], t2.
    split; [cbn; by rewrite <- app_assoc|].
    split; [|split; [apply elem_of_cons; right; apply list_elem_of_singleton; reflexivity|]].
    + constructor; [|constructor; [|constructor]].
      * apply snapshot_intro with (old := User.Balance user);
          [|reflexivity|exact Hbal1|exact Hfind1].
        unfold balance_of; cbn. by rewrite Hu.
      * apply snapshot_intro with (old := Group.Balance group);
          [|reflexivity|exact Hbal2|exact Hfind2].
        unfold balance_of; cbn. by rewrite Hg.
    + rewrite (read_back_found _ _ _ _ _ Hs Hfind2). split; [reflexivity|exact Hbal2].
  - pose proof (pay_shape env userID groupID req d) as H. cbv zeta in H.
    destruct H as [Hr|(e & group & a & _ & _ & _ & _ & Hg & _ & Hf%fresh_not_elem & _ & Ha & Hres & _)].
    { by apply rejected_no_response with (resp := resp) (e := None) in Hr. }
    pose proof (Hkg _ _ Hg) as Hid.
    rewrite Hres in Hs. injection Hs as Hs. rewrite Ha in *. clear Ha Hres.
    set (t := Transaction.mk (uuid_New env 0) _ _ _ _ _ _ _ _ _ _ _ _ _ _) in *.
    set (d' := add_audit_log _ _) in *.
    assert (Hfind : find_transaction (Transaction.ID t) d' = Some t)
      by (by apply (find_transaction_new d' (transactions d) t)).
    assert (Hbal : balance_of "GROUP" (Transaction.OwnerID t) d' = Some (Transaction.Balance t))
      by (unfold balance_of; cbn; by rewrite Hid, lookup_insert_eq).
    exists [t], t.
    split; [reflexivity|]. split; [|split; [apply list_elem_of_singleton; reflexivity|]].
    + constructor; [|constructor].
      apply snapshot_intro with (old := Group.Balance group); [|reflexivity|exact Hbal|exact Hfind].
      unfold balance_of; cbn. by rewrite Hg.
    + rewrite (read_back_found _ _ _ _ _ Hs Hfind). split; [reflexivity|exact Hbal].
  - pose proof (income_shape env userID groupID amount source d) as H. cbv zeta in H.
    destruct H as [Hr|(group & a & _ & Hg & Hf%fresh_not_elem & _ & Ha & Hres & _)].
    { by apply rejected_no_response with (resp := resp) (e := None) in Hr. }
    pose proof (Hkg _ _ Hg) as Hid.
    rewrite Hres in Hs. injection Hs as Hs. rewrite Ha in *. clear Ha Hres.
    set (t := Transaction.mk (uuid_New env 0) _ _ _ _ _ _ _ _ _ _ _ _ _ _) in *.
    set (d' := add_audit_log _ _) in *.
    assert (Hfind : find_transaction (Transaction.ID t) d' = Some t)
      by (by apply (find_transaction_new d' (transactions d) t)).
    assert (Hbal : balance_of "GROUP" (Transaction.OwnerID t) d' = Some (Transaction.Balance t))
      by (unfold balance_of; cbn; by rewrite Hid, lookup_insert_eq).
    exists [t], t.
    split; [reflexivity|]. split; [|split; [apply list_elem_of_singleton; reflexivity|]].
    + constructor; [|constructor].
      apply snapshot_intro with (old := Group.Balance group); [|reflexivity|exact Hbal|exact Hfind].
      unfold balance_of; cbn. by rewrite Hg.
    + rewrite (read_back_found _ _ _ _ _ Hs Hfind). split; [reflexivity|exact Hbal].
Qed.

Lemma snapshot_is_new_balance_witness :
  exists resp,
    succeeded (result env0 (OpPay 1 10 pay_fridge) db0) resp /\
    TransactionResponse.Balance resp = 50 /\
    balance_of (TransactionResponse.OwnerType resp) (TransactionResponse.OwnerID resp)
      (after env0 (OpPay 1 10 pay_fridge) db0) = Some (TransactionResponse.Balance resp).
Proof.
  assert (H : exists resp, succeeded (result env0 (OpPay 1 10 pay_fridge) db0) resp /\
                           TransactionResponse.Balance resp = 50)
    by (eexists; split; vm_compute; reflexivity).
  destruct H as (resp & H & H50). exists resp. split; [exact H|]. split; [exact H50|].
  destruct (snapshot_is_new_balance env0 (OpPay 1 10 pay_fridge) db0 resp keyed_db0 H)
    as (news & t & _ & _ & _ & _ & Hb).
  exact Hb.
Defined.

(** C5.  [PayGroupExpense], called by an active member (the membership
    test passed, the expense lookup not failing):
    - fails with [EXPENSE_NOT_FOUND] when the planned expense does not exist;
    - fails with [FORBIDDEN] when the expense is not of the given group;
    - fails with [INVALID_STATUS] when its status is not [planned];
    - fails with [INSUFFICIENT_BALANCE] when the group's balance is below the
      actual price;
    each time changing nothing.  Otherwise (nothing failing) it succeeds: the
    group is debited by the actual price, one DEBIT transaction of the group
    is added whose [PlannedExpenseID] is the expense and whose [PaidBy] is
    the acting user, one audit entry is added, and the expense becomes
    [bought] with its actual price, payer and payment time.  The same call
    on the database so obtained fails with [INVALID_STATUS] and changes
    nothing. *)
Theorem pay_group_expense env u g req d :
  membership_ok env u g d ->
  fails env FindPlannedExpense = false ->
  let op := OpPay u g req in
  let id := PayGroupExpenseRequest.PlannedExpenseID req in
  let price := PayGroupExpenseRequest.ActualPrice req in
  (planned_expenses d !! id = None ->
     failed_with (result env op d) "EXPENSE_NOT_FOUND" /\ after env op d = d) /\
  (forall expense, planned_expenses d !! id = Some expense ->
     (PlannedExpense.GroupID expense <> Some g ->
        failed_with (result env op d) "FORBIDDEN" /\ after env op d = d) /\
     (PlannedExpense.GroupID expense = Some g ->
      PlannedExpense.Status expense <> "planned" ->
        failed_with (result env op d) "INVALID_STATUS" /\ after env op d = d) /\
     (PlannedExpense.GroupID expense = Some g ->
      PlannedExpense.Status expense = "planned" ->
      fails env FindGroup = false ->
      forall group, groups d !! g = Some group ->
        (Group.Balance group < price ->
           failed_with (result env op d) "INSUFFICIENT_BALANCE" /\ after env op d = d) /\
        (price <= Group.Balance group -> quiet env -> new_ids env d -> keyed d ->
           exists resp t expense',
             succeeded (result env op d) resp /\
             resp = mapTransactionToResponse (preload (after env op d) t) /\
             transactions (after env op d) = transactions d ++ [t] /\
             Transaction.OwnerType t = "GROUP" /\ Transaction.OwnerID t = g /\
             Transaction.Type_ t = "DEBIT" /\ Transaction.Amount t = price /\
             Transaction.PlannedExpenseID t = Some id /\
             Transaction.PaidBy t = Some u /\
             Transaction.Balance t = Int64.sub (Group.Balance group) price /\
             (0 <= price -> Int64.in_range (Group.Balance group) ->
                Transaction.Balance t = Group.Balance group - price) /\
             balance_of "GROUP" g (after env op d) = Some (Transaction.Balance t) /\
             planned_expenses (after env op d) !! id = Some expense' /\
             PlannedExpense.Status expense' = "bought" /\
             PlannedExpense.ActualPrice expense' = Some price /\
             PlannedExpense.PaidBy expense' = Some u /\
             PlannedExpense.PaidAt expense' = Some (time_Now env) /\
             length (audit_logs (after env op d)) = S (length (audit_logs d)) /\
             (forall env',
                membership_ok env' u g (after env op d) ->
                fails env' FindPlannedExpense = false ->
                failed_with (result env' op (after env op d)) "INVALID_STATUS" /\
                after env' op (after env op d) = after env op d)))).
Proof.
  intros Hm Hf. cbv zeta.
  pose proof (pay_refused env u g req d Hm Hf) as [Hnone Hsome]. cbv zeta in Hsome.
  split; [exact Hnone|]. intros expense He.
  destruct (Hsome expense He) as (H1 & H2 & H3).
  split; [exact H1|]. split; [exact H2|].
  intros Heg Hes Hfg group Hg. split; [by apply H3|].
  intros Hle Hq Hn (_ & Hkg & Hke).
  pose proof (pay_commits env u g req d expense group Hq Hn Hm He Heg Hes Hg Hle) as Hc.
  pose proof (pay_shape env u g req d) as H. cbv zeta in H.
  destruct H as [(Hr & _)|(e0 & group0 & a & _ & He0 & _ & _ & Hg0 & _ &
                           Hfr%fresh_not_elem & _ & Ha & Hres & _)]; [done|].
  rewrite He in He0. injection He0 as <-. rewrite Hg in Hg0. injection Hg0 as <-.
  pose proof (Hkg _ _ Hg) as Hidg. pose proof (Hke _ _ He) as Hide.
  rewrite Hres. rewrite Ha in *. clear Ha Hres Hc.
  set (t := Transaction.mk (uuid_New env 0) _ _ _ _ _ _ _ _ _ _ _ _ _ _) in *.
  set (d' := add_audit_log _ _) in *.
  assert (Hfind : find_transaction (Transaction.ID t) d' = Some t)
    by (by apply (find_transaction_new d' (transactions d) t)).
  assert (He' : planned_expenses d' !! PayGroupExpenseRequest.PlannedExpenseID req
                = Some (PlannedExpense.bought expense
                          (PayGroupExpenseRequest.ActualPrice req) u (time_Now env)))
    by (cbn; by rewrite Hide, lookup_insert_eq).
  eexists _, t, _.
  split; [unfold succeeded; f_equal; apply read_back_ok; [apply Hq|exact Hfind]|].
  split; [reflexivity|]. split; [reflexivity|].
  do 7 (split; [reflexivity|]).
  split; [intros; by apply sub_exact|].
  split; [unfold balance_of; cbn; by rewrite Hidg, lookup_insert_eq|].
  split; [exact He'|]. do 4 (split; [reflexivity|]).
  split; [cbn; rewrite length_app; cbn; lia|].
  intros env' Hm' Hf'.
  pose proof (pay_refused env' u g req d' Hm' Hf') as [_ Hsome']. cbv zeta in Hsome'.
  destruct (Hsome' _ He') as (_ & H2' & _).
  apply H2'; [exact Heg|discriminate].
Qed.

Lemma pay_group_expense_witness :
  exists resp,
    succeeded (result env0 (OpPay 1 10 pay_fridge) db0) resp /\
    balance_of "GROUP" 10 (after env0 (OpPay 1 10 pay_fridge) db0) = Some 50 /\
    failed_with (result env0 (OpPay 1 10 pay_fridge) (after env0 (OpPay 1 10 pay_fridge) db0))
      "INVALID_STATUS".
Proof.
  assert (Hm : membership_ok env0 1 10 db0) by reflexivity.
  assert (Hf : fails env0 FindPlannedExpense = false) by reflexivity.
  destruct (pay_group_expense env0 1 10 pay_fridge db0 Hm Hf) as [_ H].
  destruct (H fridge eq_refl) as (_ & _ & H3).
  destruct (H3 eq_refl eq_refl eq_refl home eq_refl) as [_ H4].
  destruct (H4 ltac:(cbn; lia) quiet_env0 new_ids_env0_db0 keyed_db0)
    as (resp & t & e' & Hs & _ & _ & _ & _ & _ & _ & _ & _ & Hb & _ & Hbal & _ & _ & _ & _ & _ & _ & Hrep).
  exists resp. split; [exact Hs|]. split.
  - rewrite Hbal, Hb. reflexivity.
  - apply (Hrep env0); reflexivity.
Defined.

(** C6 (as amended).  [TransferToGroup], called by an active member whose
    balance covers the amount, the group existing and nothing failing,
    debits the user by the amount and credits the group by the amount in
    one transaction, creates exactly two transaction records -- a DEBIT of
    the user and a CREDIT of the group, both of the given amount, both
    carrying the group in [GroupID], the group's carrying the user in
    [PaidBy] -- and two audit entries, and returns the response of one
    record: the group's CREDIT. *)
Theorem transfer_to_group env u req d user group :
  let op := OpTransfer u req in
  let g := TransferToGroupRequest.GroupID req in
  let amount := TransferToGroupRequest.Amount req in
  membership_ok env u g d ->
  users d !! u = Some user ->
  amount <= User.Balance user ->
  groups d !! g = Some group ->
  quiet env -> new_ids env d -> keyed d ->
  exists resp t1 t2,
    succeeded (result env op d) resp /\
    transactions (after env op d) = transactions d ++ [t1; t2] /\
    (Transaction.OwnerType t1 = "USER" /\ Transaction.OwnerID t1 = u /\
     Transaction.Type_ t1 = "DEBIT" /\ Transaction.Amount t1 = amount /\
     Transaction.GroupID t1 = Some g /\
     Transaction.Balance t1 = Int64.sub (User.Balance user) amount) /\
    (Transaction.OwnerType t2 = "GROUP" /\ Transaction.OwnerID t2 = g /\
     Transaction.Type_ t2 = "CREDIT" /\ Transaction.Amount t2 = amount /\
     Transaction.GroupID t2 = Some g /\ Transaction.PaidBy t2 = Some u /\
     Transaction.Balance t2 = Int64.add (Group.Balance group) amount) /\
    balance_of "USER" u (after env op d) = Some (Transaction.Balance t1) /\
    balance_of "GROUP" g (after env op d) = Some (Transaction.Balance t2) /\
    (0 <= amount -> Int64.in_range (User.Balance user) ->
       Transaction.Balance t1 = User.Balance user - amount) /\
    (Int64.in_range (Group.Balance group + amount) ->
       Transaction.Balance t2 = Group.Balance group + amount) /\
    length (audit_logs (after env op d)) = S (S (length (audit_logs d))) /\
    resp = mapTransactionToResponse (preload (after env op d) t2) /\
    returned_records (result env op d) = [Transaction.ID t2].
Proof.
  cbv zeta. intros Hm Hu Hle Hg Hq Hn (Hku & Hkg & _).
  pose proof (transfer_commits env u req d user group Hq Hn Hm Hu Hle Hg) as Hc.
  pose proof (transfer_shape env u req d) as H. cbv zeta in H.
  destruct H as [(Hr & _)|(user0 & group0 & a1 & a2 & _ & Hu0 & Hg0 & _ &
                           Hf1%fresh_not_elem & Hf2%fresh_not_elem & _ & Ha & Hres & _)];
    [done|].
  rewrite Hu in Hu0. injection Hu0 as <-. rewrite Hg in Hg0. injection Hg0 as <-.
  pose proof (Hku _ _ Hu) as Hidu. pose proof (Hkg _ _ Hg) as Hidg.
  rewrite Hres. rewrite Ha in *. clear Ha Hres Hc.
  set (t1 := Transaction.mk (uuid_New env 0) _ _ _ _ _ _ _ _ _ _ _ _ _ _) in *.
  set (t2 := Transaction.mk (uuid_New env 1) _ _ _ _ _ _ _ _ _ _ _ _ _ _) in *.
  set (d' := add_audit_log _ _) in *.
  assert (Hfind2 : find_transaction (Transaction.ID t2) d' = Some t2)
    by (by apply (find_transaction_new d' (transactions d ++ [t1]) t2)).
  assert (Hrb : read_back env (uuid_New env 1) d'
                = (Some (mapTransactionToResponse (preload d' t2)), None))
    by (apply read_back_ok; [apply Hq|exact Hfind2]).
  exists (mapTransactionToResponse (preload d' t2)), t1, t2.
  split; [unfold succeeded; by rewrite Hrb|].
  split; [cbn; by rewrite <- app_assoc|].
  split; [repeat split|]. split; [repeat split|].
  split; [unfold balance_of; cbn; by rewrite Hidu, lookup_insert_eq|].
  split; [unfold balance_of; cbn; by rewrite Hidg, lookup_insert_eq|].
  split; [intros; by apply sub_exact|].
  split; [intros; by apply add_exact|].
  split; [cbn; rewrite !length_app; cbn; lia|].
  split; [reflexivity|]. by rewrite Hrb.
Qed.

Lemma transfer_to_group_witness :
  exists resp,
    succeeded (result env0 (OpTransfer 1 rent) db0) resp /\
    TransactionResponse.OwnerType resp = "GROUP" /\
    balance_of "USER" 1 (after env0 (OpTransfer 1 rent) db0) = Some 500 /\
    balance_of "GROUP" 10 (after env0 (OpTransfer 1 rent) db0) = Some 800.
Proof.
  destruct (transfer_to_group env0 1 rent db0 alice home
              eq_refl eq_refl ltac:(cbn; lia) eq_refl quiet_env0 new_ids_env0_db0 keyed_db0)
    as (resp & t1 & t2 & Hs & _ & (_ & _ & _ & _ & _ & Hb1) & (Ho2 & _ & _ & _ & _ & _ & Hb2) &
        Hu & Hg & _ & _ & _ & Hresp & _).
  exists resp. split; [exact Hs|]. split; [rewrite Hresp; exact Ho2|].
  split.
  - transitivity (Some (Transaction.Balance t1)); [exact Hu|by rewrite Hb1].
  - transitivity (Some (Transaction.Balance t2)); [exact Hg|by rewrite Hb2].
Defined.

(** C6, as stated, fails on what is returned: the transfer of 500 by Alice
    creates the records 1000 (her DEBIT) and 1001 (the group's CREDIT) and
    returns 1001 alone. *)
Lemma transfer_returns_pair_counterexample :
  returned_records (result env0 (OpTransfer 1 rent) db0) = [1001%N] /\
  Transaction.ID <$> transactions (after env0 (OpTransfer 1 rent) db0)
    = [100; 101; 1000; 1001]%N /\
  ~ transfer_returns_pair env0 1 rent db0.
Proof.
  split; [vm_compute; reflexivity|]. split; [vm_compute; reflexivity|].
  intros (t1 & t2 & _ & H). vm_compute in H. discriminate H.
Qed.

(** C7.  A group-scoped method ([CreateGroupTransaction], [TransferToGroup],
    [PayGroupExpense], [RecordExternalIncome]) called by a user who has no
    active membership in the target group fails with [FORBIDDEN] and
    changes nothing; the test runs before the transaction begins: the trace
    is empty. *)
Theorem forbidden_without_membership env op d u g :
  scope op = Some (u, g) ->
  ~ active_member u g d ->
  result env op d = Val (None, error "FORBIDDEN" "You are not a member of this group") /\
  after env op d = d /\
  events env op d = [].
Proof.
  intros Hs Hm. apply (not_member_refused env) in Hm.
  destruct op; cbn in Hs; simplify_eq.
  - destruct (CreateTransactionRequest.GroupID req) as [g'|] eqn:Hg; simplify_eq/=.
    along. done.
  - along. done.
  - along. done.
  - along. done.
Qed.

Lemma forbidden_without_membership_witness :
  result env0 (OpTransfer 2 rent) db0
  = Val (None, error "FORBIDDEN" "You are not a member of this group") /\
  after env0 (OpTransfer 2 rent) db0 = db0 /\
  events env0 (OpTransfer 2 rent) db0 = [].
Proof.
  apply (forbidden_without_membership env0 (OpTransfer 2 rent) db0 2 10).
  - reflexivity.
  - intros (ug & Hin & Hu & _). cbn in Hin.
    apply list_elem_of_singleton in Hin. subst ug. discriminate Hu.
Defined.

(** C8 (as amended).  An amount that is not positive is turned down when
    the request is bound, not by the engine: [CreateTransactionRequest],
    [TransferToGroupRequest] and [PayGroupExpenseRequest] bind their amount
    with [required,gt=0], so a call whose request passed binding carries a
    positive amount; the engine's methods do not test the sign of the
    amount, and the errors they return carry no code but [INVALID_REQUEST],
    [FORBIDDEN], [USER_NOT_FOUND], [GROUP_NOT_FOUND], [EXPENSE_NOT_FOUND],
    [INVALID_STATUS], [INSUFFICIENT_BALANCE] and [SERVER_ERROR], always
    without a response. *)
Theorem amounts_are_checked_at_binding :
  (forall op, bound op -> 0 < amount_of op) /\
  (forall env op d r e,
     result env op d = Val (r, Some e) -> r = None /\ In (Code e) error_codes).
Proof.
  split.
  - intros [] H; cbn in H |- *; [| | | |done].
    all: unfold bind_CreateTransactionRequest, bind_TransferToGroupRequest,
           bind_PayGroupExpenseRequest in H.
    all: repeat (apply andb_true_iff in H as [H ?]).
    all: by apply Z.ltb_lt.
  - intros env op d r e H.
    destruct (replies env op d) as [H'|[(e' & H' & Hc)|(resp & H')]];
      rewrite H' in H; simplify_eq; done.
Qed.

Lemma amounts_are_checked_at_binding_witness :
  0 < amount_of (OpTransfer 1 rent) /\
  In "INSUFFICIENT_BALANCE" error_codes.
Proof.
  destruct amounts_are_checked_at_binding as [Hb Hc]. split.
  - apply (Hb (OpTransfer 1 rent)). reflexivity.
  - apply (Hc env0 (OpPersonal 1 (debit 1001)) db0 None
             (mkAppError "INSUFFICIENT_BALANCE" "Insufficient balance")).
    reflexivity.
Defined.

(** C8, as stated, fails: the engine accepts an amount that is not
    positive.  [RecordExternalIncome] with amount -500 by Alice succeeds,
    records a third transaction and takes the group from 300 to -200; a
    personal CREDIT of 0 is recorded as well. *)
Lemma rejects_non_positive_counterexample :
  amount_of (OpIncome 1 10 (-500) "gift") <= 0 /\
  (exists resp, succeeded (result env0 (OpIncome 1 10 (-500) "gift") db0) resp) /\
  balance_of "GROUP" 10 (after env0 (OpIncome 1 10 (-500) "gift") db0) = Some (-200) /\
  length (transactions (after env0 (OpIncome 1 10 (-500) "gift") db0)) = 3%nat /\
  ~ rejects_non_positive env0 (OpIncome 1 10 (-500) "gift") db0 /\
  ~ rejects_non_positive env0 (OpPersonal 1 (credit 0)) db0.
Proof.
  split; [cbn; lia|]. split; [eexists; vm_compute; reflexivity|].
  split; [vm_compute; reflexivity|]. split; [vm_compute; reflexivity|].
  split.
  - intros H. destruct (H ltac:(cbn; lia)) as (_ & Ht & _).
    vm_compute in Ht. discriminate Ht.
  - intros H. destruct (H ltac:(cbn; lia)) as (_ & Ht & _).
    vm_compute in Ht. discriminate Ht.
Qed.

(** C9.  [CreatePersonalTransaction] is to fail with a not-found error for
    a user id that is not in the user store, and the method has the branch
    for it ([USER_NOT_FOUND]).  The branch is not taken: for user 7, who is
    not in [db0], the call returns neither a response nor an error, and
    changes nothing. *)
Theorem personal_transaction_of_absent_user :
  users db0 !! 7%N = None /\
  result env0 (OpPersonal 7 (debit 5)) db0 = Val (None, None) /\
  after env0 (OpPersonal 7 (debit 5)) db0 = db0.
Proof. vm_compute. auto. Qed.

(** C10.  For a user id that is not in the user store (the lookup itself
    succeeding), [CreatePersonalTransaction], and [TransferToGroup] once its
    membership test is passed, return neither a response nor an error:
    [FindByID] hands back a nil user with a nil error, the dereference
    panics, and the deferred [recover] rolls back and swallows the panic.
    Nothing is changed. *)
Theorem absent_user_returns_nothing env d u :
  users d !! u = None ->
  fails env FindUser = false ->
  (forall req,
     let op := OpPersonal u req in
     result env op d = Val (None, None) /\ after env op d = d /\
     events env op d = [EvBegin; EvRollback]) /\
  (forall req,
     membership_ok env u (TransferToGroupRequest.GroupID req) d ->
     let op := OpTransfer u req in
     result env op d = Val (None, None) /\ after env op d = d /\
     events env op d = [EvBegin; EvRollback]).
Proof.
  intros Hu Hf. split.
  - intros req. along. done.
  - intros req Hm. unfold membership_ok in Hm. along. done.
Qed.

Lemma absent_user_returns_nothing_witness :
  result env0 (OpPersonal 7 (debit 5)) db0 = Val (None, None) /\
  result env0 (OpTransfer 7 rent) db_ghost = Val (None, None).
Proof.
  split.
  - apply (absent_user_returns_nothing env0 db0 7); reflexivity.
  - apply (absent_user_returns_nothing env0 db_ghost 7); reflexivity.
Defined.

(** * The services around the ledger: proofs *)

Ltac unfold_services :=
  unfold answer, leaves, start,
    GetTransaction, GetExpense, DeleteExpense, MarkAsBought, MarkAsCancelled,
    AcceptInvitation, RejectInvitation, UpdateMemberRole, RemoveMember, LeaveGroup,
    access_denied, mapExpenseToResponse, auditRepo_Create,
    expenseRepo_FindByID_preloaded, expenseRepo_MarkAsBought,
    expenseRepo_MarkAsCancelled, expenseRepo_Delete, groupRepo_FindMembers,
    groupRepo_RemoveMember, groupRepo_UpdateMember, direct,
    transactionRepo_FindByID, groupRepo_FindByUserAndGroup, query,
    BeforeCreate, uuid_new, deref, bind, ret, panic in *.

(** ** Reading a transaction *)

Lemma find_transaction_ID id d t :
  find_transaction id d = Some t -> Transaction.ID t = id /\ t ∈ transactions d.
Proof.
  unfold find_transaction. intros H.
  apply fmap_Some in H as ([i x] & H & ->).
  apply list_find_Some in H as (Hl & Hid & _). cbn.
  split; [exact Hid|]. by eapply list_elem_of_lookup_2.
Qed.

Ltac refuse :=
  solve [split; [done|left; eexists; split; [reflexivity|cbn; auto]]].

Lemma GetTransaction_cases env u id d :
  leaves (GetTransaction env u id) d = d /\
  ((exists e, answer (GetTransaction env u id) d = Val (None, Some e) /\
              (Code e = "TRANSACTION_NOT_FOUND" \/ Code e = "FORBIDDEN")) \/
   exists t,
     fails env FindTransaction = false /\
     find_transaction id d = Some t /\
     answer (GetTransaction env u id) d
       = Val (Some (mapTransactionToResponse (preload d t)), None) /\
     (Transaction.OwnerType t = "USER" -> Transaction.UserID t = u) /\
     (forall g, Transaction.OwnerType t = "GROUP" -> Transaction.GroupID t = Some g ->
                membership_ok env u g d)).
Proof.
  unfold membership_ok. unfold_services. cbn.
  unfold transactionRepo_FindByID_on.
  destruct (fails env FindTransaction); cbn; [refuse|].
  destruct (find_transaction id d) as [t|] eqn:Hf; cbn; [|refuse].
  destruct (bool_decide (Transaction.OwnerType t = "USER")) eqn:Hu;
    destruct (bool_decide (Transaction.UserID t = u)) eqn:Hx; cbn;
    try refuse.
  all: destruct (bool_decide (Transaction.OwnerType t = "GROUP")) eqn:Hg; cbn.
  all: decided.
  all: try (destruct (Transaction.GroupID t) as [g|] eqn:Hgi; cbn).
  all: try (destruct (not_active_member _) eqn:Hm; cbn).
  all: try refuse.
  all: split; [done|right; exists t].
  all: split; [done|split; [done|split; [done|split]]].
  all: try (intros; congruence).
  all: try (intros g' ? ?; congruence).
Qed.

Lemma GetTransaction_ok env u id d t :
  fails env FindTransaction = false ->
  find_transaction id d = Some t ->
  (Transaction.OwnerType t = "USER" -> Transaction.UserID t = u) ->
  (forall g, Transaction.OwnerType t = "GROUP" -> Transaction.GroupID t = Some g ->
             membership_ok env u g d) ->
  answer (GetTransaction env u id) d
    = Val (Some (mapTransactionToResponse (preload d t)), None).
Proof.
  intros Hfail Hf Hu Hg. unfold membership_ok in Hg.
  unfold_services. cbn. unfold transactionRepo_FindByID_on. rewrite Hfail, Hf. cbn.
  case_bool_decide as Hot; cbn.
  - rewrite (bool_decide_eq_true_2 _ (Hu Hot)). cbn.
    rewrite bool_decide_eq_false_2 by (rewrite Hot; discriminate). done.
  - case_bool_decide as Hgt; cbn; [|done].
    destruct (Transaction.GroupID t) as [g|] eqn:Hgi; cbn; [|done].
    by rewrite (Hg g Hgt eq_refl).
Qed.

Lemma read_back_found_ok env id d resp e :
  read_back env id d = (Some resp, e) -> fails env FindTransaction = false.
Proof.
  unfold read_back, transactionRepo_FindByID_on.
  by destruct (fails env FindTransaction).
Qed.

(** The record a committed call answers with: it is in the log under the
    identifier returned, it carries the acting user, and it is the user's
    own or that of a group whose membership test the user passed. *)
Lemma committed_record env op d :
  rejected env op d \/
  exists t,
    find_transaction (Transaction.ID t) (after env op d) = Some t /\
    result env op d = Val (read_back env (Transaction.ID t) (after env op d)) /\
    user_groups (after env op d) = user_groups d /\
    Transaction.UserID t = actor op /\
    (Transaction.OwnerType t = "USER" \/
     Transaction.OwnerType t = "GROUP" /\
     exists g, Transaction.GroupID t = Some g /\ membership_ok env (actor op) g d).
Proof.
  unfold membership_ok. destruct op.
  - pose proof (personal_shape env userID req d) as H. cbv zeta in H.
    destruct H as [?|(?&?&?&?&Hf%fresh_not_elem&?&Ha&Hr&?)]; [by left|right].
    eexists (Transaction.mk (uuid_New env 0) _ _ _ _ _ _ _ _ _ _ _ _ _ _).
    split; [rewrite Ha; eapply find_transaction_by_id; [reflexivity|reflexivity|exact Hf]|].
    split; [exact Hr|split; [by rewrite Ha|split; [reflexivity|by left]]].
  - pose proof (group_shape env userID req d) as H. cbv zeta in H.
    destruct H as [?|(?&?&?&?&?&?&?&Hf%fresh_not_elem&?&Ha&Hr&?)]; [by left|right].
    eexists (Transaction.mk (uuid_New env 0) _ _ _ _ _ _ _ _ _ _ _ _ _ _).
    split; [rewrite Ha; eapply find_transaction_by_id; [reflexivity|reflexivity|exact Hf]|].
    split; [exact Hr|split; [by rewrite Ha|split; [reflexivity|right; eauto]]].
  - pose proof (transfer_shape env userID req d) as H. cbv zeta in H.
    destruct H as [?|(?&?&?&?&?&?&?&?&?&Hf%fresh_not_elem&?&Ha&Hr&?)]; [by left|right].
    eexists (Transaction.mk (uuid_New env 1) _ _ _ _ _ _ _ _ _ _ _ _ _ _).
    split; [rewrite Ha; eapply find_transaction_by_id; [reflexivity|reflexivity|exact Hf]|].
    split; [exact Hr|split; [by rewrite Ha|split; [reflexivity|right; eauto]]].
  - pose proof (pay_shape env userID groupID req d) as H. cbv zeta in H.
    destruct H as [?|(?&?&?&?&?&?&?&?&?&Hf%fresh_not_elem&?&Ha&Hr&?)]; [by left|right].
    eexists (Transaction.mk (uuid_New env 0) _ _ _ _ _ _ _ _ _ _ _ _ _ _).
    split; [rewrite Ha; eapply find_transaction_by_id; [reflexivity|reflexivity|exact Hf]|].
    split; [exact Hr|split; [by rewrite Ha|split; [reflexivity|right; eauto]]].
  - pose proof (income_shape env userID groupID amount source d) as H. cbv zeta in H.
    destruct H as [?|(?&?&?&?&Hf%fresh_not_elem&?&Ha&Hr&?)]; [by left|right].
    eexists (Transaction.mk (uuid_New env 0) _ _ _ _ _ _ _ _ _ _ _ _ _ _).
    split; [rewrite Ha; eapply find_transaction_by_id; [reflexivity|reflexivity|exact Hf]|].
    split; [exact Hr|split; [by rewrite Ha|split; [reflexivity|right; eauto]]].
Qed.

Lemma membership_same env u g d d' :
  user_groups d' = user_groups d ->
  groupRepo_FindByUserAndGroup_on env u g d' = groupRepo_FindByUserAndGroup_on env u g d.
Proof. unfold groupRepo_FindByUserAndGroup_on. by intros ->. Qed.

(** X1.  [GetTransaction] hands out a transaction only to a reader who is
    entitled to it: when it returns a response, that response is the
    mapping of the transaction stored under the identifier asked for, there
    is no error beside it, a transaction owned by a USER is the reader's
    own, a transaction owned by a GROUP and carrying a group is of a group
    the reader is an active member of, and the database is as it was. *)
Theorem GetTransaction_entitled env u id d resp e :
  answer (GetTransaction env u id) d = Val (Some resp, e) ->
  exists t,
    t ∈ transactions d /\ Transaction.ID t = id /\
    resp = mapTransactionToResponse (preload d t) /\ e = None /\
    (Transaction.OwnerType t = "USER" -> Transaction.UserID t = u) /\
    (forall g, Transaction.OwnerType t = "GROUP" -> Transaction.GroupID t = Some g ->
               active_member u g d) /\
    leaves (GetTransaction env u id) d = d.
Proof.
  intros H.
  destruct (GetTransaction_cases env u id d) as [Hd [(e' & He & _)|(t & _ & Hf & Ht & Hu & Hg)]].
  - rewrite He in H. discriminate.
  - rewrite Ht in H. injection H as <- <-.
    apply find_transaction_ID in Hf as [Hid Hin].
    exists t. repeat split; try done.
    intros g H1 H2. eapply membership_ok_active. by apply Hg.
Qed.

Lemma GetTransaction_entitled_witness :
  exists resp t,
    answer (GetTransaction env0 1 101) db0 = Val (Some resp, None) /\
    t ∈ transactions db0 /\ Transaction.ID t = 101%N /\
    resp = mapTransactionToResponse (preload db0 t) /\
    (forall g, Transaction.OwnerType t = "GROUP" -> Transaction.GroupID t = Some g ->
               active_member 1 g db0).
Proof.
  assert (H : exists resp, answer (GetTransaction env0 1 101) db0 = Val (Some resp, None))
    by (eexists; vm_compute; reflexivity).
  destruct H as (resp & H).
  destruct (GetTransaction_entitled env0 1 101 db0 resp None H)
    as (t & Hin & Hid & Hr & _ & _ & Hg & _).
  exists resp, t. auto.
Defined.

(** X2.  What a ledger method answered can be fetched again: after a
    successful call of any of the five methods, [GetTransaction], called by
    the same user with the identifier of the response on the database the
    call left, returns that very response. *)
Theorem ledger_reply_can_be_fetched env op d resp :
  succeeded (result env op d) resp ->
  answer (GetTransaction env (actor op) (TransactionResponse.ID resp)) (after env op d)
    = Val (Some resp, None).
Proof.
  intros Hs.
  destruct (committed_record env op d) as [Hr|(t & Hf & Hr & Hug & Hu & Ho)].
  - by apply rejected_no_response with (resp := resp) (e := None) in Hr.
  - unfold succeeded in Hs. rewrite Hr in Hs. injection Hs as Hs.
    pose proof (read_back_found _ _ _ _ _ Hs Hf) as ->.
    apply read_back_found_ok in Hs. cbn.
    apply GetTransaction_ok; [exact Hs|exact Hf|by intros _|].
    intros g Hg Hgi. destruct Ho as [Ho|(_ & g' & Hg' & Hm)]; [congruence|].
    unfold membership_ok in *. rewrite (membership_same _ _ _ _ _ Hug). congruence.
Qed.

Lemma ledger_reply_can_be_fetched_witness :
  exists resp,
    succeeded (result env0 (OpTransfer 1 rent) db0) resp /\
    answer (GetTransaction env0 1 (TransactionResponse.ID resp)) (after env0 (OpTransfer 1 rent) db0)
      = Val (Some resp, None).
Proof.
  assert (H : exists resp, succeeded (result env0 (OpTransfer 1 rent) db0) resp)
    by (eexists; vm_compute; reflexivity).
  destruct H as (resp & H). exists resp. split; [exact H|].
  exact (ledger_reply_can_be_fetched env0 (OpTransfer 1 rent) db0 resp H).
Defined.

(** ** Planned expenses *)

(** Names the answer and the final state of the one run a statement
    speaks of, and keeps the run as the hypothesis [E]. *)
Ltac run_once E :=
  unfold answer, leaves;
  match goal with
  | |- context [fst (?m (start ?d))] =>
      let r := fresh "r" in
      let w := fresh "w" in
      destruct (m (start d)) as [r w] eqn:E; cbn [fst snd]
  end.

(** Case analysis along the control flow of the run [E], using what is
    known of the lookups it repeats. *)
Ltac known E :=
  repeat (first [ rewrite lookup_alter_eq in E
                | rewrite lookup_delete_eq in E
                | match goal with
                  | H : ?l = _ |- _ =>
                      lazymatch type of E with
                      | l = _ => fail
                      | context [l] => rewrite H in E
                      end
                  end ]; cbn in E).

Ltac steps E :=
  cbn in E; known E;
  repeat (match type of E with
          | context [match ?x with _ => _ end] =>
              let y := innermost x in destruct y eqn:?
          end; cbn in E; known E).

Ltac walk E := steps E; simplify_eq/=.

(** Closes a goal made of equations at hand, under conjunctions,
    disjunctions and existentials. *)
Ltac fin :=
  solve [ reflexivity | eassumption | congruence | intros; lia
        | split; fin | left; fin | right; fin | eexists; fin ].

Lemma MarkAsBought_shape env down u id req d :
  let m := MarkAsBought env down u id req in
  (leaves m d = d /\ exists e, answer m d = Val (None, Some e)) \/
  exists x,
    fails env FindPlannedExpense = false /\
    planned_expenses d !! id = Some x /\
    PlannedExpense.Status x = "planned" /\
    PlannedExpense.GroupID x = None /\
    PlannedExpense.UserID x = u /\
    down ExpenseMarkAsBought = false /\
    logged (update_planned_expense id
              (fun e => PlannedExpense.bought e (MarkAsBoughtRequest.ActualPrice req) u
                          (time_Now env)) d)
           (leaves m d) /\
    (answer m d = Panicked \/
     exists resp, answer m d = Val (Some resp, None) /\
       PlannedExpenseResponse.Status resp = "bought" /\
       PlannedExpenseResponse.ActualPrice resp = Some (MarkAsBoughtRequest.ActualPrice req)).
Proof.
  cbv zeta. run_once E. unfold logged. unfold_services.
  unfold expenseRepo_FindByID_preloaded_on, expenseRepo_FindByID_on in E.
  walk E.
  all: tidy; decided; fin.
Qed.

Lemma MarkAsCancelled_shape env down u id d :
  let m := MarkAsCancelled env down u id in
  (leaves m d = d /\ exists e, answer m d = Val (Some e)) \/
  exists x,
    fails env FindPlannedExpense = false /\
    planned_expenses d !! id = Some x /\
    may_touch env u x d /\
    down ExpenseMarkAsCancelled = false /\
    answer m d = Val None /\
    logged (update_planned_expense id cancelled d) (leaves m d).
Proof.
  cbv zeta. run_once E. unfold may_touch, membership_ok, logged. unfold_services.
  unfold expenseRepo_FindByID_preloaded_on, expenseRepo_FindByID_on in E.
  walk E.
  all: tidy; decided; fin.
Qed.

Lemma DeleteExpense_shape env down u id d :
  let m := DeleteExpense env down u id in
  (leaves m d = d /\ exists e, answer m d = Val (Some e)) \/
  exists x,
    fails env FindPlannedExpense = false /\
    planned_expenses d !! id = Some x /\
    may_delete env u x d /\
    down ExpenseDelete = false /\
    answer m d = Val None /\
    logged (delete_planned_expense id d) (leaves m d).
Proof.
  cbv zeta. run_once E. unfold may_delete, manager_ok, logged. unfold_services.
  unfold expenseRepo_FindByID_preloaded_on, expenseRepo_FindByID_on in E.
  walk E.
  all: tidy; decided; fin.
Qed.

Lemma logged_tables d1 d' :
  logged d1 d' ->
  users d' = users d1 /\ groups d' = groups d1 /\ user_groups d' = user_groups d1 /\
  transactions d' = transactions d1 /\ planned_expenses d' = planned_expenses d1.
Proof. by intros [->|[a ->]]. Qed.

Lemma manager_ok_active env u g d :
  manager_ok env u g d -> active_manager u g d.
Proof.
  unfold manager_ok, not_active_manager, groupRepo_FindByUserAndGroup_on.
  destruct (fails env FindUserGroup); [discriminate|].
  destruct (first_by_ID _) as [ug|] eqn:E; cbn; [|discriminate].
  intros H. tidy. decided.
  apply first_by_ID_elem, list_elem_of_filter in E as [Hm Hin].
  apply andb_true_iff in Hm as [Hu Hg]. decided.
  exists ug. auto.
Qed.

Lemma manager_ok_membership_ok env u g d :
  manager_ok env u g d -> membership_ok env u g d.
Proof.
  unfold manager_ok, membership_ok, not_active_manager, not_active_member.
  intros H. by apply orb_false_elim in H as [H _].
Qed.

Lemma may_touch_entitled env u x d :
  may_touch env u x d ->
  PlannedExpense.UserID x = u \/
  exists g, PlannedExpense.GroupID x = Some g /\ active_member u g d.
Proof.
  intros [H|(g & Hg & Hm)]; [by left|right].
  exists g. split; [done|]. by eapply membership_ok_active.
Qed.

Lemma may_delete_entitled env u x d :
  may_delete env u x d ->
  PlannedExpense.UserID x = u \/
  exists g, PlannedExpense.GroupID x = Some g /\ active_manager u g d.
Proof.
  intros [H|(g & Hg & Hm)]; [by left|right].
  exists g. split; [done|]. by eapply manager_ok_active.
Qed.

Lemma lookup_update_planned_expense id f d d' :
  logged (update_planned_expense id f d) d' ->
  planned_expenses d' !! id = f <$> planned_expenses d !! id /\
  (forall j, j <> id -> planned_expenses d' !! j = planned_expenses d !! j) /\
  same_money d d' /\ user_groups d' = user_groups d.
Proof.
  intros H. apply logged_tables in H as (Hu & Hg & Hug & Ht & Hp).
  rewrite Hp. cbn. split; [apply lookup_alter_eq|].
  split; [intros j Hj; by apply lookup_alter_ne|].
  by split.
Qed.

Lemma lookup_delete_planned_expense id d d' :
  logged (delete_planned_expense id d) d' ->
  planned_expenses d' !! id = None /\
  (forall j, j <> id -> planned_expenses d' !! j = planned_expenses d !! j) /\
  same_money d d' /\ user_groups d' = user_groups d.
Proof.
  intros H. apply logged_tables in H as (Hu & Hg & Hug & Ht & Hp).
  rewrite Hp. cbn. split; [apply lookup_delete_eq|].
  split; [intros j Hj; by apply lookup_delete_ne|].
  by split.
Qed.

(** X3.  [MarkAsBought] of the planned-expense service moves no money.
    When it returns a response, the expense was a planned personal expense
    of the caller; afterwards it is [bought], with the actual price of the
    request, the caller as payer and the time of the call; every other
    planned expense is as it was; and no user, no group and no transaction
    has changed: the purchase is not debited from any balance.  The
    response reports the status [bought] and the actual price. *)
Theorem MarkAsBought_moves_no_money env down u id req d resp e :
  answer (MarkAsBought env down u id req) d = Val (Some resp, e) ->
  exists x,
    planned_expenses d !! id = Some x /\
    PlannedExpense.Status x = "planned" /\
    PlannedExpense.GroupID x = None /\
    PlannedExpense.UserID x = u /\
    let d' := leaves (MarkAsBought env down u id req) d in
    planned_expenses d' !! id
      = Some (PlannedExpense.bought x (MarkAsBoughtRequest.ActualPrice req) u (time_Now env)) /\
    (forall j, j <> id -> planned_expenses d' !! j = planned_expenses d !! j) /\
    same_money d d' /\
    PlannedExpenseResponse.Status resp = "bought" /\
    PlannedExpenseResponse.ActualPrice resp = Some (MarkAsBoughtRequest.ActualPrice req) /\
    e = None.
Proof.
  intros H.
  pose proof (MarkAsBought_shape env down u id req d) as S. cbv zeta in S.
  destruct S as [(_ & e' & He)|(x & _ & Hx & Hs & Hg & Hu & _ & Hl & Hr)].
  - rewrite He in H. discriminate.
  - apply lookup_update_planned_expense in Hl as (Hid & Hj & Hm & _).
    rewrite Hx in Hid.
    destruct Hr as [Hr|(resp' & Hr & Hrs & Hra)]; rewrite Hr in H; [discriminate|].
    injection H as <- <-. exists x. cbv zeta. auto 12.
Qed.

Lemma MarkAsBought_moves_no_money_witness :
  exists resp,
    answer (MarkAsBought env0 up 1 31 (MarkAsBoughtRequest.mk 140)) (db_with bob_at_home)
      = Val (Some resp, None) /\
    same_money (db_with bob_at_home)
      (leaves (MarkAsBought env0 up 1 31 (MarkAsBoughtRequest.mk 140)) (db_with bob_at_home)).
Proof.
  assert (H : exists resp,
             answer (MarkAsBought env0 up 1 31 (MarkAsBoughtRequest.mk 140))
               (db_with bob_at_home) = Val (Some resp, None))
    by (eexists; vm_compute; reflexivity).
  destruct H as (resp & H). exists resp. split; [exact H|].
  destruct (MarkAsBought_moves_no_money _ _ _ _ _ _ _ _ H)
    as (x & _ & _ & _ & _ & _ & _ & Hm & _).
  exact Hm.
Defined.

(** X4.  The planned-expense service never marks a group expense as
    bought: called on an expense that carries a group, [MarkAsBought]
    returns an error and no response and leaves the database as it was,
    whoever calls it; when the expense is found and planned the error is
    [USE_TRANSACTION_FLOW].  A group expense becomes [bought] through
    [PayGroupExpense] only. *)
Theorem MarkAsBought_refuses_group_expenses env down u id req d x g :
  planned_expenses d !! id = Some x ->
  PlannedExpense.GroupID x = Some g ->
  let m := MarkAsBought env down u id req in
  leaves m d = d /\
  (exists e, answer m d = Val (None, Some e)) /\
  (fails env FindPlannedExpense = false -> PlannedExpense.Status x = "planned" ->
   answer m d = Val (None, error "USE_TRANSACTION_FLOW"
                              "Use group transaction flow to pay for group expenses")).
Proof.
  intros Hx Hg m.
  pose proof (MarkAsBought_shape env down u id req d) as S. cbv zeta in S.
  destruct S as [(Hd & He)|(x' & _ & Hx' & _ & Hg' & _)]; [|congruence].
  split; [exact Hd|]. split; [exact He|].
  intros Hf Hs. subst m. run_once E. unfold_services.
  unfold expenseRepo_FindByID_preloaded_on, expenseRepo_FindByID_on in E.
  apply (bool_decide_eq_true_2 _) in Hs.
  walk E. done.
Qed.

Lemma MarkAsBought_refuses_group_expenses_witness :
  leaves (MarkAsBought env0 up 1 30 (MarkAsBoughtRequest.mk 250)) db0 = db0 /\
  (exists e, answer (MarkAsBought env0 up 1 30 (MarkAsBoughtRequest.mk 250)) db0
             = Val (None, Some e)) /\
  (fails env0 FindPlannedExpense = false -> PlannedExpense.Status fridge = "planned" ->
   answer (MarkAsBought env0 up 1 30 (MarkAsBoughtRequest.mk 250)) db0
     = Val (None, error "USE_TRANSACTION_FLOW"
                    "Use group transaction flow to pay for group expenses")).
Proof.
  apply (MarkAsBought_refuses_group_expenses env0 up 1 30 (MarkAsBoughtRequest.mk 250)
           db0 fridge 10); reflexivity.
Defined.

(** X5.  [MarkAsCancelled] returns no error only to the owner of the
    expense or to an active member of the group the expense carries.  The
    expense is then [cancelled], its other fields as they were (a price
    paid and a payer stay on it); every other planned expense, every user,
    every group and every transaction is as it was: cancelling refunds
    nothing. *)
Theorem MarkAsCancelled_effect env down u id d :
  answer (MarkAsCancelled env down u id) d = Val None ->
  exists x,
    planned_expenses d !! id = Some x /\
    (PlannedExpense.UserID x = u \/
     exists g, PlannedExpense.GroupID x = Some g /\ active_member u g d) /\
    let d' := leaves (MarkAsCancelled env down u id) d in
    planned_expenses d' !! id = Some (cancelled x) /\
    (forall j, j <> id -> planned_expenses d' !! j = planned_expenses d !! j) /\
    same_money d d'.
Proof.
  intros H.
  pose proof (MarkAsCancelled_shape env down u id d) as S. cbv zeta in S.
  destruct S as [(_ & e' & He)|(x & _ & Hx & Ht & _ & _ & Hl)].
  - rewrite He in H. discriminate.
  - apply lookup_update_planned_expense in Hl as (Hid & Hj & Hm & _).
    rewrite Hx in Hid. apply may_touch_entitled in Ht.
    exists x. cbv zeta. auto 10.
Qed.

Lemma MarkAsCancelled_effect_witness :
  exists x,
    planned_expenses (db_with bob_at_home) !! 30%N = Some x /\
    (PlannedExpense.UserID x = 2%N \/
     exists g, PlannedExpense.GroupID x = Some g /\ active_member 2 g (db_with bob_at_home)) /\
    let d' := leaves (MarkAsCancelled env0 up 2 30) (db_with bob_at_home) in
    planned_expenses d' !! 30%N = Some (cancelled x) /\
    (forall j, j <> 30%N ->
       planned_expenses d' !! j = planned_expenses (db_with bob_at_home) !! j) /\
    same_money (db_with bob_at_home) d'.
Proof.
  apply (MarkAsCancelled_effect env0 up 2 30 (db_with bob_at_home)). reflexivity.
Defined.

(** X6.  [MarkAsCancelled] does not look at the status of the expense: for
    its owner, when the lookup and the update do not fail, it returns no
    error and the expense ends [cancelled], whether it was planned, bought
    or cancelled before, and whether or not the audit entry could be
    written. *)
Theorem MarkAsCancelled_asks_no_status env down u id d x :
  fails env FindPlannedExpense = false ->
  down ExpenseMarkAsCancelled = false ->
  planned_expenses d !! id = Some x ->
  PlannedExpense.UserID x = u ->
  answer (MarkAsCancelled env down u id) d = Val None /\
  planned_expenses (leaves (MarkAsCancelled env down u id) d) !! id = Some (cancelled x).
Proof.
  intros Hf Hd Hx Hu.
  pose proof (MarkAsCancelled_shape env down u id d) as S. cbv zeta in S.
  destruct S as [(_ & e' & He)|(x' & _ & Hx' & _ & _ & Ha & Hl)].
  - exfalso. revert He. run_once E. unfold_services.
    unfold expenseRepo_FindByID_preloaded_on, expenseRepo_FindByID_on in E.
    apply (bool_decide_eq_true_2 _) in Hu.
    walk E. all: discriminate.
  - split; [exact Ha|].
    apply lookup_update_planned_expense in Hl as (Hid & _).
    rewrite Hid, Hx. reflexivity.
Qed.

Lemma MarkAsCancelled_asks_no_status_witness :
  answer (MarkAsCancelled env0 audit_down 1 30) (after env0 (OpPay 1 10 pay_fridge) db0)
    = Val None /\
  planned_expenses
    (leaves (MarkAsCancelled env0 audit_down 1 30) (after env0 (OpPay 1 10 pay_fridge) db0))
    !! 30%N
    = Some (cancelled (PlannedExpense.bought fridge 250 1 7)).
Proof.
  apply (MarkAsCancelled_asks_no_status env0 audit_down 1 30
           (after env0 (OpPay 1 10 pay_fridge) db0) (PlannedExpense.bought fridge 250 1 7));
    reflexivity.
Defined.

(** X7.  A cancelled expense cannot be paid: after [MarkAsCancelled]
    returned no error, [PayGroupExpense] for that expense is rejected,
    whoever calls it, for whatever group and price: it returns no response
    and changes nothing. *)
Theorem cancelled_expense_cannot_be_paid env down u id d env' u' g req :
  answer (MarkAsCancelled env down u id) d = Val None ->
  PayGroupExpenseRequest.PlannedExpenseID req = id ->
  rejected env' (OpPay u' g req) (leaves (MarkAsCancelled env down u id) d).
Proof.
  intros H Hid.
  pose proof (MarkAsCancelled_shape env down u id d) as S. cbv zeta in S.
  destruct S as [(_ & e' & He)|(x & _ & Hx & _ & _ & _ & Hl)].
  - rewrite He in H. discriminate.
  - apply lookup_update_planned_expense in Hl as (Hl & _). rewrite Hx in Hl.
    pose proof (pay_shape env' u' g req (leaves (MarkAsCancelled env down u id) d)) as P.
    cbv zeta in P.
    destruct P as [P|(x' & ? & ? & _ & Hx' & _ & Hs & _)]; [exact P|].
    rewrite Hid, Hl in Hx'. injection Hx' as <-. discriminate Hs.
Qed.

Lemma cancelled_expense_cannot_be_paid_witness :
  rejected env0 (OpPay 1 10 pay_fridge) (leaves (MarkAsCancelled env0 up 2 30) (db_with bob_at_home)).
Proof.
  apply (cancelled_expense_cannot_be_paid env0 up 2 30 (db_with bob_at_home) env0 1 10 pay_fridge);
    reflexivity.
Defined.

(** X8.  [DeleteExpense] returns no error only to the owner of the expense
    or to an active manager of the group the expense carries (where
    cancelling asks for an active member).  The expense is then gone:
    no lookup finds it; every other planned expense, every user, every
    group and every transaction is as it was. *)
Theorem DeleteExpense_effect env down u id d :
  answer (DeleteExpense env down u id) d = Val None ->
  exists x,
    planned_expenses d !! id = Some x /\
    (PlannedExpense.UserID x = u \/
     exists g, PlannedExpense.GroupID x = Some g /\ active_manager u g d) /\
    let d' := leaves (DeleteExpense env down u id) d in
    planned_expenses d' !! id = None /\
    (forall j, j <> id -> planned_expenses d' !! j = planned_expenses d !! j) /\
    same_money d d'.
Proof.
  intros H.
  pose proof (DeleteExpense_shape env down u id d) as S. cbv zeta in S.
  destruct S as [(_ & e' & He)|(x & _ & Hx & Ht & _ & _ & Hl)].
  - rewrite He in H. discriminate.
  - apply lookup_delete_planned_expense in Hl as (Hid & Hj & Hm & _).
    apply may_delete_entitled in Ht.
    exists x. cbv zeta. auto 10.
Qed.

Lemma DeleteExpense_effect_witness :
  exists x,
    planned_expenses (db_with bob_at_home) !! 30%N = Some x /\
    (PlannedExpense.UserID x = 2%N \/
     exists g, PlannedExpense.GroupID x = Some g /\ active_manager 2 g (db_with bob_at_home)) /\
    let d' := leaves (DeleteExpense env0 up 2 30) (db_with bob_at_home) in
    planned_expenses d' !! 30%N = None /\
    (forall j, j <> 30%N ->
       planned_expenses d' !! j = planned_expenses (db_with bob_at_home) !! j) /\
    same_money (db_with bob_at_home) d'.
Proof.
  apply (DeleteExpense_effect env0 up 2 30 (db_with bob_at_home)). reflexivity.
Defined.

(** ** The audit entry of the services outside the ledger *)

(** X9.  Outside the ledger the audit entry is best effort: for
    [DeleteExpense], [MarkAsCancelled], [AcceptInvitation],
    [RejectInvitation], [UpdateMemberRole], [RemoveMember] and
    [LeaveGroup], whether the audit insert fails changes neither what the
    method returns nor any table but the audit log.  (A ledger method,
    whose audit insert fails, is rolled back.) *)
Theorem audit_failure_is_only_logged env down down' c d :
  (forall s, s <> AuditCreate -> down' s = down s) ->
  answer (chore env down' c) d = answer (chore env down c) d /\
  same_but_audit (leaves (chore env down c) d) (leaves (chore env down' c) d).
Proof.
  intros H.
  pose proof (H ExpenseMarkAsCancelled ltac:(done)) as H2.
  pose proof (H ExpenseDelete ltac:(done)) as H3.
  pose proof (H MembersFind ltac:(done)) as H4.
  pose proof (H MemberUpdate ltac:(done)) as H5.
  pose proof (H MemberRemove ltac:(done)) as H6.
  clear H. unfold same_but_audit, answer, leaves.
  destruct (chore env down' c (start d)) as [r' w'] eqn:E'.
  destruct (chore env down c (start d)) as [r w] eqn:E.
  cbn [fst snd].
  destruct c; unfold chore in E, E'; unfold_services;
    unfold expenseRepo_FindByID_preloaded_on, expenseRepo_FindByID_on,
      groupRepo_FindMembers_on in E, E';
    rewrite ?H2, ?H3, ?H4, ?H5, ?H6 in E'.
  all: steps E; steps E'; simplify_eq/=.
  all: done.
Qed.

Lemma audit_failure_is_only_logged_witness :
  answer (chore env0 audit_down (DoLeaveGroup 2 10)) (db_with bob_at_home)
    = answer (chore env0 up (DoLeaveGroup 2 10)) (db_with bob_at_home) /\
  same_but_audit (leaves (chore env0 up (DoLeaveGroup 2 10)) (db_with bob_at_home))
    (leaves (chore env0 audit_down (DoLeaveGroup 2 10)) (db_with bob_at_home)).
Proof.
  apply (audit_failure_is_only_logged env0 up audit_down (DoLeaveGroup 2 10)
           (db_with bob_at_home)).
  intros s Hs. destruct s; done.
Defined.

(** ** Memberships *)

Arguments groupRepo_FindByUserAndGroup_on : simpl never.
Arguments managerCount : simpl never.

Lemma AcceptInvitation_shape env down u g d :
  let m := AcceptInvitation env down u g in
  (leaves m d = d /\ exists e, answer m d = Val (Some e)) \/
  exists ug,
    groupRepo_FindByUserAndGroup_on env u g d = (ug, false) /\
    UserGroup.Status ug = "pending" /\
    down MemberUpdate = false /\
    answer m d = Val None /\
    logged (save_member (with_Status ug "active") d) (leaves m d).
Proof.
  cbv zeta. run_once E. unfold logged. unfold_services.
  cbn in E. destruct (groupRepo_FindByUserAndGroup_on env u g d) as [ug err] eqn:Hfind.
  walk E.
  all: tidy; decided; fin.
Qed.

Lemma RejectInvitation_shape env down u g d :
  let m := RejectInvitation env down u g in
  (leaves m d = d /\ exists e, answer m d = Val (Some e)) \/
  exists ug,
    groupRepo_FindByUserAndGroup_on env u g d = (ug, false) /\
    UserGroup.Status ug = "pending" /\
    down MemberUpdate = false /\
    answer m d = Val None /\
    logged (save_member (with_Status ug "rejected") d) (leaves m d).
Proof.
  cbv zeta. run_once E. unfold logged. unfold_services.
  cbn in E. destruct (groupRepo_FindByUserAndGroup_on env u g d) as [ug err] eqn:Hfind.
  walk E.
  all: tidy; decided; fin.
Qed.

Lemma UpdateMemberRole_shape env down u g req d :
  let m := UpdateMemberRole env down u g req in
  (leaves m d = d /\ exists e, answer m d = Val (Some e)) \/
  exists ug,
    manager_ok env u g d /\
    groupRepo_FindByUserAndGroup_on env (UpdateMemberRoleRequest.UserID req) g d = (ug, false) /\
    UserGroup.Status ug = "active" /\
    down MemberUpdate = false /\
    answer m d = Val None /\
    logged (save_member (with_Role ug (UpdateMemberRoleRequest.Role req)) d) (leaves m d).
Proof.
  cbv zeta. run_once E. unfold logged, manager_ok. unfold_services.
  cbn in E.
  destruct (not_active_manager (groupRepo_FindByUserAndGroup_on env u g d)) eqn:Hman;
    cbn in E.
  { simplify_eq. fin. }
  unfold not_active_member in E.
  destruct (groupRepo_FindByUserAndGroup_on env (UpdateMemberRoleRequest.UserID req) g d)
    as [ug err] eqn:Hfind.
  walk E.
  all: tidy; decided; subst; fin.
Qed.

Lemma RemoveMember_shape env down u g target d :
  let m := RemoveMember env down u g target in
  (leaves m d = d /\ exists e, answer m d = Val (Some e)) \/
  manager_ok env u g d /\
  u <> target /\
  down MemberRemove = false /\
  answer m d = Val None /\
  logged (remove_member target g d) (leaves m d).
Proof.
  cbv zeta. run_once E. unfold logged, manager_ok. unfold_services.
  cbn in E.
  destruct (not_active_manager (groupRepo_FindByUserAndGroup_on env u g d)) eqn:Hman;
    cbn in E.
  { simplify_eq. fin. }
  walk E.
  all: tidy; decided; fin.
Qed.

Lemma LeaveGroup_shape env down u g d :
  let m := LeaveGroup env down u g in
  (leaves m d = d /\ exists e, answer m d = Val (Some e)) \/
  exists ug,
    groupRepo_FindByUserAndGroup_on env u g d = (ug, false) /\
    UserGroup.Status ug = "active" /\
    (UserGroup.Role ug = "manager" ->
       (2 <= managerCount (filter (fun x => UserGroup.GroupID x = g) (user_groups d)))%nat) /\
    down MemberRemove = false /\
    answer m d = Val None /\
    logged (remove_member u g d) (leaves m d).
Proof.
  cbv zeta. run_once E. unfold logged. unfold_services.
  unfold not_active_member, groupRepo_FindMembers_on in E. cbn in E.
  destruct (groupRepo_FindByUserAndGroup_on env u g d) as [ug err] eqn:Hfind.
  walk E.
  all: tidy; decided; subst.
  all: try match goal with H : (_ <=? _)%nat = false |- _ => apply Nat.leb_gt in H end.
  all: fin.
Qed.

Lemma is_membership_true u g x :
  is_membership u g x = true <-> UserGroup.UserID x = u /\ UserGroup.GroupID x = g.
Proof.
  unfold is_membership. rewrite andb_true_iff, !bool_decide_eq_true. done.
Qed.

Lemma find_by_user_and_group env u g d ug :
  groupRepo_FindByUserAndGroup_on env u g d = (ug, false) ->
  fails env FindUserGroup = false /\
  first_by_ID (filter (fun x => is_membership u g x = true) (user_groups d)) = Some ug.
Proof.
  unfold groupRepo_FindByUserAndGroup_on.
  destruct (fails env FindUserGroup); [discriminate|].
  destruct (first_by_ID _); [|discriminate].
  by intros [= ->].
Qed.

Lemma found_row env u g d ug :
  groupRepo_FindByUserAndGroup_on env u g d = (ug, false) ->
  ug ∈ user_groups d /\ UserGroup.UserID ug = u /\ UserGroup.GroupID ug = g.
Proof.
  intros [_ H]%find_by_user_and_group.
  apply first_by_ID_elem, list_elem_of_filter in H as [Hm Hin].
  apply is_membership_true in Hm. tauto.
Qed.

Lemma first_by_ID_least (l : list UserGroup.t) (y : UserGroup.t) :
  first_by_ID l = Some y -> forall x, x ∈ l -> (UserGroup.ID y <= UserGroup.ID x)%N.
Proof.
  revert y. induction l as [|a l IH]; intros y; cbn; [discriminate|].
  destruct (first_by_ID l) as [z|] eqn:Hz.
  - destruct (UserGroup.ID a <=? UserGroup.ID z)%N eqn:Hle; intros [= <-] x Hx;
      apply elem_of_cons in Hx as [->|Hx]; try lia.
    + apply N.leb_le in Hle. specialize (IH z eq_refl x Hx). lia.
    + apply N.leb_gt in Hle. lia.
    + by apply IH.
  - intros [= <-] x Hx. apply elem_of_cons in Hx as [->|Hx]; [lia|].
    destruct l; [by apply elem_of_nil in Hx|].
    cbn in Hz. destruct (first_by_ID l); [destruct (_ <=? _)%N|]; discriminate.
Qed.

Lemma first_by_ID_some (l : list UserGroup.t) (x : UserGroup.t) :
  x ∈ l -> is_Some (first_by_ID l).
Proof.
  destruct l as [|a l]; [by intros ?%elem_of_nil|]. intros _. cbn.
  destruct (first_by_ID l); [destruct (_ <=? _)%N|]; eauto.
Qed.

(** After [Save] of the row a lookup found, changed in neither key nor
    user nor group, the same lookup finds the row saved. *)
Lemma find_after_save env env' u g d d' ug ug' :
  groupRepo_FindByUserAndGroup_on env u g d = (ug, false) ->
  UserGroup.ID ug' = UserGroup.ID ug ->
  UserGroup.UserID ug' = UserGroup.UserID ug ->
  UserGroup.GroupID ug' = UserGroup.GroupID ug ->
  user_groups d' = user_groups (save_member ug' d) ->
  fails env' FindUserGroup = false ->
  groupRepo_FindByUserAndGroup_on env' u g d' = (ug', false).
Proof.
  intros Hfind Hid Hu Hg Hd' Hf'.
  pose proof (found_row _ _ _ _ _ Hfind) as (Hin & Hu0 & Hg0).
  apply find_by_user_and_group in Hfind as [_ Hfirst].
  unfold groupRepo_FindByUserAndGroup_on. rewrite Hf', Hd'. cbn.
  rewrite bool_decide_eq_true_2
    by (rewrite Hid; by apply list_elem_of_fmap_2).
  set (f := fun x => if bool_decide (UserGroup.ID x = UserGroup.ID ug') then ug' else x).
  set (P := fun x => is_membership u g x = true).
  assert (Hnew : ug' ∈ filter P (f <$> user_groups d)).
  { apply list_elem_of_filter. split.
    - apply is_membership_true. split; congruence.
    - apply list_elem_of_fmap. exists ug. split; [|done].
      unfold f. by rewrite bool_decide_eq_true_2. }
  destruct (first_by_ID (filter P (f <$> user_groups d))) as [y|] eqn:Hy.
  2: { apply first_by_ID_some in Hnew. rewrite Hy in Hnew. by destruct Hnew. }
  f_equal.
  pose proof (first_by_ID_least _ _ Hy _ Hnew) as Hle.
  apply first_by_ID_elem, list_elem_of_filter in Hy as [HP Hyin].
  apply list_elem_of_fmap in Hyin as (x0 & -> & Hx0).
  unfold f in *. case_bool_decide as Hx; [done|].
  assert (Hx0P : x0 ∈ filter P (user_groups d)) by (by apply list_elem_of_filter).
  pose proof (first_by_ID_least _ _ Hfirst _ Hx0P) as Hle'.
  exfalso. apply Hx. lia.
Qed.

Lemma logged_user_groups d1 d' : logged d1 d' -> user_groups d' = user_groups d1.
Proof. by intros [->|[a ->]]. Qed.

Lemma removed_rows u g d d' ug :
  logged (remove_member u g d) d' ->
  ug ∈ user_groups d' <->
  ug ∈ user_groups d /\ ~ (UserGroup.UserID ug = u /\ UserGroup.GroupID ug = g).
Proof.
  intros ->%logged_user_groups. cbn. rewrite list_elem_of_filter.
  rewrite <- is_membership_true. destruct (is_membership u g ug); intuition congruence.
Qed.

Lemma no_row_after_remove u g d d' :
  logged (remove_member u g d) d' -> ~ has_row u g d'.
Proof.
  intros H (ug & Hin & Hu & Hg). apply (removed_rows _ _ _ _ _ H) in Hin as [_ Hn]. auto.
Qed.

Lemma has_row_active u g d : active_member u g d -> has_row u g d.
Proof. intros (ug & ? & ? & ? & _). exists ug. auto. Qed.

(** A call in the scope of a group by a user with no active membership. *)
Lemma refused_without_membership env op d u g :
  scope op = Some (u, g) ->
  ~ active_member u g d ->
  result env op d = Val (None, error "FORBIDDEN" "You are not a member of this group") /\
  after env op d = d.
Proof.
  intros Hs Hm. apply (not_member_refused env) in Hm.
  destruct op; cbn in Hs; simplify_eq.
  - destruct (CreateTransactionRequest.GroupID req) as [g'|] eqn:Hg; simplify_eq/=.
    along. done.
  - along. done.
  - along. done.
  - along. done.
Qed.

Lemma managerCount_cons (x : UserGroup.t) (l : list UserGroup.t) :
  managerCount (x :: l)
  = ((if bool_decide (UserGroup.Status x = "active")
         && bool_decide (UserGroup.Role x = "manager") then 1 else 0)
     + managerCount l)%nat.
Proof. reflexivity. Qed.

Lemma managerCount_positive (l : list UserGroup.t) :
  (1 <= managerCount l)%nat ->
  exists x, x ∈ l /\ UserGroup.Status x = "active" /\ UserGroup.Role x = "manager".
Proof.
  induction l as [|a l IH]; [cbv; lia|]. rewrite managerCount_cons.
  destruct (bool_decide (UserGroup.Status a = "active")
            && bool_decide (UserGroup.Role a = "manager")) eqn:Ha.
  - intros _. tidy. decided. exists a. split; [apply elem_of_cons; by left|done].
  - intros H. destruct IH as (x & Hx & Hs); [lia|].
    exists x. split; [apply elem_of_cons; by right|done].
Qed.

(** Two managers counted in a list without repetition: one of them is
    not [m]. *)
Lemma managerCount_another (l : list UserGroup.t) (m : UserGroup.t) :
  NoDup l ->
  (2 <= managerCount l)%nat ->
  exists x, x ∈ l /\ x <> m /\
            UserGroup.Status x = "active" /\ UserGroup.Role x = "manager".
Proof.
  induction l as [|a l IH]; [cbv; lia|]. rewrite managerCount_cons.
  intros [Ha Hl]%NoDup_cons.
  destruct (bool_decide (UserGroup.Status a = "active")
            && bool_decide (UserGroup.Role a = "manager")) eqn:Hm.
  - intros H. tidy. decided.
    destruct (decide (a = m)) as [->|Hne].
    + destruct (managerCount_positive l) as (x & Hx & Hs); [lia|].
      exists x. split; [apply elem_of_cons; by right|].
      split; [|done]. by intros ->.
    + exists a. split; [apply elem_of_cons; by left|done].
  - intros H. destruct (IH Hl) as (x & Hx & Hs); [lia|].
    exists x. split; [apply elem_of_cons; by right|done].
Qed.

Lemma one_row (d : DB) (x y : UserGroup.t) :
  one_row_per_member d ->
  x ∈ user_groups d -> y ∈ user_groups d ->
  UserGroup.UserID x = UserGroup.UserID y ->
  UserGroup.GroupID x = UserGroup.GroupID y ->
  x = y.
Proof.
  unfold one_row_per_member. generalize (user_groups d) as l.
  induction l as [|a l IH]; [by intros _ ?%elem_of_nil|].
  rewrite fmap_cons. intros [Ha Hl]%NoDup_cons Hx Hy Hu Hg.
  apply elem_of_cons in Hx as [->|Hx]; apply elem_of_cons in Hy as [->|Hy]; auto.
  - destruct Ha. apply list_elem_of_fmap. exists y. split; [congruence|done].
  - destruct Ha. apply list_elem_of_fmap. exists x. split; [congruence|done].
Qed.

(** X10.  Leaving a group revokes the access to it.  When [LeaveGroup]
    returns no error, the user was an active member; afterwards the user
    has no membership row for the group, the rows of every other user and
    group are as they were, and every ledger call of the user in the scope
    of the group fails with [FORBIDDEN] and changes nothing. *)
Theorem LeaveGroup_revokes_access env down u g d :
  answer (LeaveGroup env down u g) d = Val None ->
  let d' := leaves (LeaveGroup env down u g) d in
  active_member u g d /\
  ~ has_row u g d' /\
  (forall ug, ug ∈ user_groups d' <->
     ug ∈ user_groups d /\ ~ (UserGroup.UserID ug = u /\ UserGroup.GroupID ug = g)) /\
  (forall env' op, scope op = Some (u, g) ->
     result env' op d' = Val (None, error "FORBIDDEN" "You are not a member of this group") /\
     after env' op d' = d').
Proof.
  intros H d'. subst d'.
  pose proof (LeaveGroup_shape env down u g d) as S. cbv zeta in S.
  destruct S as [(_ & e' & He)|(ug & Hfind & Hs & _ & _ & _ & Hl)].
  - rewrite He in H. discriminate.
  - apply found_row in Hfind as (Hin & Hu & Hg).
    split; [exists ug; auto|].
    pose proof (no_row_after_remove _ _ _ _ Hl) as Hno.
    split; [exact Hno|]. split; [intros x; by apply removed_rows|].
    intros env' op Hop. apply refused_without_membership with (u := u) (g := g); [done|].
    intros Ha. by apply Hno, has_row_active.
Qed.

Lemma LeaveGroup_revokes_access_witness :
  active_member 2 10 (db_with bob_at_home) /\
  ~ has_row 2 10 (leaves (LeaveGroup env0 up 2 10) (db_with bob_at_home)) /\
  (forall ug, ug ∈ user_groups (leaves (LeaveGroup env0 up 2 10) (db_with bob_at_home)) <->
     ug ∈ user_groups (db_with bob_at_home) /\
     ~ (UserGroup.UserID ug = 2%N /\ UserGroup.GroupID ug = 10%N)) /\
  (forall env' op, scope op = Some (2%N, 10%N) ->
     result env' op (leaves (LeaveGroup env0 up 2 10) (db_with bob_at_home))
       = Val (None, error "FORBIDDEN" "You are not a member of this group") /\
     after env' op (leaves (LeaveGroup env0 up 2 10) (db_with bob_at_home))
       = leaves (LeaveGroup env0 up 2 10) (db_with bob_at_home)).
Proof.
  apply (LeaveGroup_revokes_access env0 up 2 10 (db_with bob_at_home)). reflexivity.
Defined.

(** X11.  [LeaveGroup] never takes the last manager from a group: where
    a user has at most one membership row per group, a group that has an
    active manager before a call of [LeaveGroup] (by anyone, for any
    group, whatever fails) has one after it. *)
Theorem LeaveGroup_keeps_a_manager env down u g d g' :
  one_row_per_member d ->
  has_manager g' d ->
  has_manager g' (leaves (LeaveGroup env down u g) d).
Proof.
  intros Huniq (m & Hm & Hmg & Hms & Hmr).
  pose proof (LeaveGroup_shape env down u g d) as S. cbv zeta in S.
  destruct S as [(-> & _)|(ug & Hfind & Hs & Hcount & _ & _ & Hl)].
  { exists m. auto. }
  destruct (decide (UserGroup.UserID m = u /\ UserGroup.GroupID m = g)) as [[Hu Hg]|Hn].
  - apply found_row in Hfind as (Hin & Hu' & Hg').
    assert (m = ug) as <- by (apply (one_row d); congruence).
    destruct (managerCount_another
                (filter (fun x => UserGroup.GroupID x = g) (user_groups d)) m)
      as (x & Hx & Hne & Hxs & Hxr).
    + apply NoDup_filter. eapply NoDup_fmap_1. exact Huniq.
    + by apply Hcount.
    + apply list_elem_of_filter in Hx as [Hxg Hx].
      exists x. split; [|split; [congruence|done]].
      apply (removed_rows _ _ _ _ _ Hl). split; [done|].
      intros [Hxu _]. apply Hne. apply (one_row d); congruence.
  - exists m. split; [|done]. by apply (removed_rows _ _ _ _ _ Hl).
Qed.

Lemma one_row_per_member_db_with (bobs : UserGroup.t) :
  UserGroup.UserID bobs = 2%N -> one_row_per_member (db_with bobs).
Proof.
  intros H. unfold one_row_per_member. cbn. rewrite H.
  apply NoDup_cons. split.
  - intros Hin. apply list_elem_of_singleton in Hin. discriminate.
  - apply NoDup_singleton.
Qed.

Lemma LeaveGroup_keeps_a_manager_witness :
  has_manager 10 (leaves (LeaveGroup env0 up 1 10) (db_with bob_at_home)).
Proof.
  apply (LeaveGroup_keeps_a_manager env0 up 1 10 (db_with bob_at_home) 10).
  - by apply one_row_per_member_db_with.
  - exists alice_at_home. split; [apply elem_of_cons; by left|done].
Defined.

(** X12.  [RemoveMember] returns no error only to an active manager of
    the group who removes someone else.  Afterwards the target has no
    membership row for the group, the rows of every other user and group
    are as they were (the manager's own among them), and every ledger call
    of the target in the scope of the group fails with [FORBIDDEN] and
    changes nothing. *)
Theorem RemoveMember_effect env down u g target d :
  answer (RemoveMember env down u g target) d = Val None ->
  let d' := leaves (RemoveMember env down u g target) d in
  active_manager u g d /\
  u <> target /\
  active_manager u g d' /\
  ~ has_row target g d' /\
  (forall ug, ug ∈ user_groups d' <->
     ug ∈ user_groups d /\ ~ (UserGroup.UserID ug = target /\ UserGroup.GroupID ug = g)) /\
  (forall env' op, scope op = Some (target, g) ->
     result env' op d' = Val (None, error "FORBIDDEN" "You are not a member of this group") /\
     after env' op d' = d').
Proof.
  intros H d'. subst d'.
  pose proof (RemoveMember_shape env down u g target d) as S. cbv zeta in S.
  destruct S as [(_ & e' & He)|(Hman & Hne & _ & _ & Hl)].
  - rewrite He in H. discriminate.
  - apply manager_ok_active in Hman.
    split; [exact Hman|]. split; [exact Hne|].
    pose proof (no_row_after_remove _ _ _ _ Hl) as Hno.
    split; [|split; [exact Hno|split; [intros x; by apply removed_rows|]]].
    + destruct Hman as (ug & Hin & Hu & Hg & Hs).
      exists ug. split; [|done].
      apply (removed_rows _ _ _ _ _ Hl). split; [done|]. intros [Hu' _]. congruence.
    + intros env' op Hop.
      apply refused_without_membership with (u := target) (g := g); [done|].
      intros Ha. by apply Hno, has_row_active.
Qed.

Lemma RemoveMember_effect_witness :
  active_manager 1 10 (db_with bob_at_home) /\
  1%N <> 2%N /\
  active_manager 1 10 (leaves (RemoveMember env0 up 1 10 2) (db_with bob_at_home)) /\
  ~ has_row 2 10 (leaves (RemoveMember env0 up 1 10 2) (db_with bob_at_home)) /\
  (forall ug, ug ∈ user_groups (leaves (RemoveMember env0 up 1 10 2) (db_with bob_at_home)) <->
     ug ∈ user_groups (db_with bob_at_home) /\
     ~ (UserGroup.UserID ug = 2%N /\ UserGroup.GroupID ug = 10%N)) /\
  (forall env' op, scope op = Some (2%N, 10%N) ->
     result env' op (leaves (RemoveMember env0 up 1 10 2) (db_with bob_at_home))
       = Val (None, error "FORBIDDEN" "You are not a member of this group") /\
     after env' op (leaves (RemoveMember env0 up 1 10 2) (db_with bob_at_home))
       = leaves (RemoveMember env0 up 1 10 2) (db_with bob_at_home)).
Proof.
  apply (RemoveMember_effect env0 up 1 10 2 (db_with bob_at_home)). reflexivity.
Defined.

(** X13.  Accepting an invitation opens the group.  When
    [AcceptInvitation] returns no error, the membership found for the user
    and the group was pending; afterwards the membership test of the
    ledger methods and of the other services passes for the user and the
    group, in every environment whose lookup does not fail, and the user is
    an active member with the role of the invitation. *)
Theorem AcceptInvitation_grants_access env down u g d :
  answer (AcceptInvitation env down u g) d = Val None ->
  let d' := leaves (AcceptInvitation env down u g) d in
  exists ug,
    ug ∈ user_groups d /\ UserGroup.UserID ug = u /\ UserGroup.GroupID ug = g /\
    UserGroup.Status ug = "pending" /\
    with_Status ug "active" ∈ user_groups d' /\
    active_member u g d' /\
    (forall env', fails env' FindUserGroup = false -> membership_ok env' u g d').
Proof.
  intros H d'. subst d'.
  pose proof (AcceptInvitation_shape env down u g d) as S. cbv zeta in S.
  destruct S as [(_ & e' & He)|(ug & Hfind & Hs & _ & _ & Hl)].
  - rewrite He in H. discriminate.
  - pose proof (found_row _ _ _ _ _ Hfind) as (Hin & Hu & Hg).
    apply logged_user_groups in Hl.
    assert (Hafter : forall env', fails env' FindUserGroup = false ->
              groupRepo_FindByUserAndGroup_on env' u g
                (leaves (AcceptInvitation env down u g) d)
              = (with_Status ug "active", false)).
    { intros env' Hf'. by eapply find_after_save. }
    pose proof (find_by_user_and_group _ _ _ _ _ Hfind) as [Hf _].
    pose proof (found_row _ _ _ _ _ (Hafter env Hf)) as (Hin' & _ & _).
    exists ug. repeat split; try done.
    + exists (with_Status ug "active"). auto.
    + intros env' Hf'. unfold membership_ok. by rewrite (Hafter env' Hf').
Qed.

Lemma AcceptInvitation_grants_access_witness :
  exists ug,
    ug ∈ user_groups (db_with bob_invited) /\
    UserGroup.UserID ug = 2%N /\ UserGroup.GroupID ug = 10%N /\
    UserGroup.Status ug = "pending" /\
    with_Status ug "active"
      ∈ user_groups (leaves (AcceptInvitation env0 up 2 10) (db_with bob_invited)) /\
    active_member 2 10 (leaves (AcceptInvitation env0 up 2 10) (db_with bob_invited)) /\
    (forall env', fails env' FindUserGroup = false ->
       membership_ok env' 2 10 (leaves (AcceptInvitation env0 up 2 10) (db_with bob_invited))).
Proof.
  apply (AcceptInvitation_grants_access env0 up 2 10 (db_with bob_invited)). reflexivity.
Defined.

(** X14.  An invitation is answered once.  After [AcceptInvitation] or
    [RejectInvitation] returned no error for a user and a group, either of
    them, called again for that user and group, returns an error and
    changes nothing; the error is [INVALID_INVITATION] when the lookup does
    not fail.  In particular a rejected invitation cannot be accepted
    afterwards. *)
Theorem invitation_is_answered_once env down env' down' c c' u g d :
  c = DoAcceptInvitation u g \/ c = DoRejectInvitation u g ->
  c' = DoAcceptInvitation u g \/ c' = DoRejectInvitation u g ->
  answer (chore env down c) d = Val None ->
  let d' := leaves (chore env down c) d in
  leaves (chore env' down' c') d' = d' /\
  (exists e, answer (chore env' down' c') d' = Val (Some e)) /\
  (fails env' FindUserGroup = false ->
   answer (chore env' down' c') d'
     = Val (error "INVALID_INVITATION" "Invitation is not pending")).
Proof.
  intros Hc Hc' H d'. subst d'.
  assert (exists ug, UserGroup.Status ug <> "pending" /\
            forall env', fails env' FindUserGroup = false ->
              groupRepo_FindByUserAndGroup_on env' u g (leaves (chore env down c) d)
              = (ug, false)) as (ug & Hs & Hafter).
  { destruct Hc as [-> | ->]; cbn [chore] in *.
    - pose proof (AcceptInvitation_shape env down u g d) as S. cbv zeta in S.
      destruct S as [(_ & e' & He)|(ug & Hfind & _ & _ & _ & Hl)];
        [rewrite He in H; discriminate|].
      apply logged_user_groups in Hl.
      exists (with_Status ug "active"). split; [discriminate|].
      intros env'' Hf'. by eapply find_after_save.
    - pose proof (RejectInvitation_shape env down u g d) as S. cbv zeta in S.
      destruct S as [(_ & e' & He)|(ug & Hfind & _ & _ & _ & Hl)];
        [rewrite He in H; discriminate|].
      apply logged_user_groups in Hl.
      exists (with_Status ug "rejected"). split; [discriminate|].
      intros env'' Hf'. by eapply find_after_save. }
  apply (bool_decide_eq_false_2 _) in Hs.
  set (d' := leaves (chore env down c) d) in *. clearbody d'.
  destruct Hc' as [-> | ->]; cbn [chore].
  all: run_once E; unfold_services; cbn in E.
  all: destruct (fails env' FindUserGroup) eqn:Hf';
    [unfold groupRepo_FindByUserAndGroup_on in E; rewrite Hf' in E
    |rewrite (Hafter env' Hf') in E].
  all: walk E.
  all: fin.
Qed.

Lemma invitation_is_answered_once_witness :
  leaves (chore env0 up (DoAcceptInvitation 2 10))
    (leaves (chore env0 up (DoRejectInvitation 2 10)) (db_with bob_invited))
  = leaves (chore env0 up (DoRejectInvitation 2 10)) (db_with bob_invited) /\
  (exists e, answer (chore env0 up (DoAcceptInvitation 2 10))
               (leaves (chore env0 up (DoRejectInvitation 2 10)) (db_with bob_invited))
             = Val (Some e)) /\
  (fails env0 FindUserGroup = false ->
   answer (chore env0 up (DoAcceptInvitation 2 10))
     (leaves (chore env0 up (DoRejectInvitation 2 10)) (db_with bob_invited))
   = Val (error "INVALID_INVITATION" "Invitation is not pending")).
Proof.
  apply (invitation_is_answered_once env0 up env0 up
           (DoRejectInvitation 2 10) (DoAcceptInvitation 2 10) 2 10 (db_with bob_invited)).
  - by right.
  - by left.
  - reflexivity.
Defined.

(** X15.  A change of role takes effect on the tests the services make.
    When [UpdateMemberRole] returns no error, the caller was an active
    manager of the group and the target an active member; afterwards, in
    every environment whose lookup does not fail, the target still passes
    the membership test, and passes the manager test exactly when the new
    role is [manager]. *)
Theorem UpdateMemberRole_takes_effect env down u g req d :
  answer (UpdateMemberRole env down u g req) d = Val None ->
  let d' := leaves (UpdateMemberRole env down u g req) d in
  let target := UpdateMemberRoleRequest.UserID req in
  active_manager u g d /\
  active_member target g d /\
  (forall env', fails env' FindUserGroup = false ->
     membership_ok env' target g d' /\
     (manager_ok env' target g d' <-> UpdateMemberRoleRequest.Role req = "manager")).
Proof.
  intros H d' target. subst d' target.
  pose proof (UpdateMemberRole_shape env down u g req d) as S. cbv zeta in S.
  destruct S as [(_ & e' & He)|(ug & Hman & Hfind & Hs & _ & _ & Hl)].
  - rewrite He in H. discriminate.
  - split; [by eapply manager_ok_active|].
    pose proof (found_row _ _ _ _ _ Hfind) as (Hin & Hu & Hg).
    split; [exists ug; auto|].
    apply logged_user_groups in Hl.
    intros env' Hf'.
    assert (Hafter : groupRepo_FindByUserAndGroup_on env' (UpdateMemberRoleRequest.UserID req) g
                       (leaves (UpdateMemberRole env down u g req) d)
                     = (with_Role ug (UpdateMemberRoleRequest.Role req), false))
      by (by eapply find_after_save).
    unfold membership_ok, manager_ok, not_active_member, not_active_manager.
    rewrite Hafter. cbn. rewrite (bool_decide_eq_true_2 _ Hs). cbn.
    split; [done|]. by rewrite negb_false_iff, bool_decide_eq_true.
Qed.

Lemma UpdateMemberRole_takes_effect_witness :
  active_manager 1 10 (db_with bob_at_home) /\
  active_member 2 10 (db_with bob_at_home) /\
  (forall env', fails env' FindUserGroup = false ->
     membership_ok env' 2 10
       (leaves (UpdateMemberRole env0 up 1 10 (UpdateMemberRoleRequest.mk 2 "member"))
          (db_with bob_at_home)) /\
     (manager_ok env' 2 10
        (leaves (UpdateMemberRole env0 up 1 10 (UpdateMemberRoleRequest.mk 2 "member"))
           (db_with bob_at_home))
      <-> "member" = "manager")).
Proof.
  apply (UpdateMemberRole_takes_effect env0 up 1 10 (UpdateMemberRoleRequest.mk 2 "member")
           (db_with bob_at_home)).
  reflexivity.
Defined.

(** ** Reading a planned expense *)

Lemma GetExpense_shape env u id d :
  let m := GetExpense env u id in
  leaves m d = d /\
  ((exists e, answer m d = Val (None, Some e)) \/
   exists x,
     planned_expenses d !! id = Some x /\
     may_touch env u x d /\
     (answer m d = Panicked \/
      exists resp, answer m d = Val (Some resp, None) /\
        PlannedExpenseResponse.ID resp = PlannedExpense.ID x /\
        PlannedExpenseResponse.Status resp = PlannedExpense.Status x /\
        PlannedExpenseResponse.EstimatedPrice resp = PlannedExpense.EstimatedPrice x /\
        PlannedExpenseResponse.ActualPrice resp = PlannedExpense.ActualPrice x /\
        PlannedExpenseResponse.UserID resp = PlannedExpense.UserID x /\
        PlannedExpenseResponse.GroupID resp = PlannedExpense.GroupID x)).
Proof.
  cbv zeta. run_once E. unfold may_touch, membership_ok. unfold_services.
  unfold expenseRepo_FindByID_preloaded_on, expenseRepo_FindByID_on in E.
  walk E.
  all: tidy; decided; subst.
  all: split; [reflexivity|].
  all: try (left; fin).
  all: right; eexists; split; [reflexivity|]; split; [try fin|].
  all: first [ left; reflexivity
             | right; eexists; split; [reflexivity|]; cbn;
               repeat match goal with |- _ /\ _ => split end; congruence ].
Qed.

(** X16.  [GetExpense] hands out a planned expense only to a reader who
    is entitled to it: when it returns a response, the expense is stored
    under the identifier asked for, the reader is its owner or an active
    member of the group it carries, the response reports the stored
    status, prices, owner and group, there is no error beside it, and the
    database is as it was. *)
Theorem GetExpense_entitled env u id d resp e :
  answer (GetExpense env u id) d = Val (Some resp, e) ->
  exists x,
    planned_expenses d !! id = Some x /\
    (PlannedExpense.UserID x = u \/
     exists g, PlannedExpense.GroupID x = Some g /\ active_member u g d) /\
    PlannedExpenseResponse.Status resp = PlannedExpense.Status x /\
    PlannedExpenseResponse.EstimatedPrice resp = PlannedExpense.EstimatedPrice x /\
    PlannedExpenseResponse.ActualPrice resp = PlannedExpense.ActualPrice x /\
    PlannedExpenseResponse.UserID resp = PlannedExpense.UserID x /\
    PlannedExpenseResponse.GroupID resp = PlannedExpense.GroupID x /\
    e = None /\
    leaves (GetExpense env u id) d = d.
Proof.
  intros H.
  pose proof (GetExpense_shape env u id d) as S. cbv zeta in S.
  destruct S as [Hd [(e' & He)|(x & Hx & Ht & [Hp|(resp' & Hr & F)])]].
  - rewrite He in H. discriminate.
  - rewrite Hp in H. discriminate.
  - rewrite Hr in H. injection H as <- <-.
    apply may_touch_entitled in Ht.
    destruct F as (_ & ? & ? & ? & ? & ?).
    exists x. auto 12.
Qed.

Lemma GetExpense_entitled_witness :
  exists resp x,
    answer (GetExpense env0 2 30) (db_with bob_at_home) = Val (Some resp, None) /\
    planned_expenses (db_with bob_at_home) !! 30%N = Some x /\
    (PlannedExpense.UserID x = 2%N \/
     exists g, PlannedExpense.GroupID x = Some g /\ active_member 2 g (db_with bob_at_home)).
Proof.
  assert (H : exists resp,
             answer (GetExpense env0 2 30) (db_with bob_at_home) = Val (Some resp, None))
    by (eexists; vm_compute; reflexivity).
  destruct H as (resp & H).
  destruct (GetExpense_entitled env0 2 30 (db_with bob_at_home) resp None H)
    as (x & Hx & Ht & _).
  exists resp, x. auto.
Defined.

(** ** The balance at a date *)

Lemma signed_sum_app ot oid (l1 l2 : list Transaction.t) :
  signed_sum ot oid (l1 ++ l2) = signed_sum ot oid l1 + signed_sum ot oid l2.
Proof. induction l1 as [|x l1 IH]; cbn; [done|]. rewrite IH. lia. Qed.

Lemma signed_sum_Permutation ot oid (l1 l2 : list Transaction.t) :
  l1 ≡ₚ l2 -> signed_sum ot oid l1 = signed_sum ot oid l2.
Proof.
  induction 1 as [|x l1 l2 _ IH|x y l|l1 l2 l3 _ IH1 _ IH2]; cbn; lia.
Qed.

Lemma row_preload d (l : list Transaction.t) : row <$> (preload d <$> l) = l.
Proof. induction l as [|x l IH]; cbn; [done|]. by rewrite IH. Qed.

(** The rows before [startDate] and the rows of the period are, together,
    the rows up to [endDate]. *)
Lemma signed_sum_split ot oid (startDate endDate : Time) (l : list Transaction.t) :
  startDate <= endDate + 1 ->
  signed_sum ot oid (filter (fun t => Transaction.CreatedAt t < startDate) l)
  + signed_sum ot oid
      (filter (fun t => owned_by ot oid t = true /\
                        startDate <= Transaction.CreatedAt t <= endDate) l)
  = signed_sum ot oid (filter (fun t => Transaction.CreatedAt t <= endDate) l).
Proof.
  intros Hse. induction l as [|x l IH]; [done|].
  rewrite !filter_cons.
  destruct (decide (Transaction.CreatedAt x < startDate));
    destruct (decide (owned_by ot oid x = true /\
                      startDate <= Transaction.CreatedAt x <= endDate)) as [Hy|Hn];
    destruct (decide (Transaction.CreatedAt x <= endDate)); cbn; try lia.
  destruct (owned_by ot oid x) eqn:Ho; [|lia].
  exfalso. apply Hn. split; [done|lia].
Qed.

Lemma filter_all (l : list Transaction.t) (endDate : Time) :
  (forall t, t ∈ l -> Transaction.CreatedAt t <= endDate) ->
  filter (fun t => Transaction.CreatedAt t <= endDate) l = l.
Proof.
  induction l as [|x l IH]; intros H; [done|].
  rewrite filter_cons, decide_True by (apply H, elem_of_cons; by left).
  rewrite IH; [done|]. intros t Ht. apply H, elem_of_cons. by right.
Qed.

(** X17.  The opening balance of a period and the movements of the period
    add up to the balance at its end.  When [getBalanceBefore] and
    [FindByDateRange] succeed for an owner and a period (that does not end
    before it starts), the balance before the start plus the signed amounts
    of the transactions found equals the signed sum of the owner's
    transactions created up to the end: a transaction created exactly at
    the start or at the end is counted once.  When every transaction was
    created by the end, that sum is [GetBalance]. *)
Theorem period_adds_up down ot oid startDate endDate d b l :
  startDate <= endDate ->
  getBalanceBefore_on down ot oid startDate d = (b, false) ->
  transactionRepo_FindByDateRange_on down ot oid startDate endDate d = (l, false) ->
  b + signed_sum ot oid (row <$> l)
    = signed_sum ot oid (filter (fun t => Transaction.CreatedAt t <= endDate) (transactions d)) /\
  ((forall t, t ∈ transactions d -> Transaction.CreatedAt t <= endDate) ->
   b + signed_sum ot oid (row <$> l) = GetBalance ot oid d).
Proof.
  intros Hse Hb Hl.
  assert (H : b + signed_sum ot oid (row <$> l)
              = signed_sum ot oid
                  (filter (fun t => Transaction.CreatedAt t <= endDate) (transactions d))).
  { unfold getBalanceBefore_on in Hb. unfold transactionRepo_FindByDateRange_on in Hl.
    destruct (down BalanceBefore || _); [discriminate|].
    destruct (down TransactionsFindByDateRange); [discriminate|].
    injection Hb as <-. injection Hl as <-.
    rewrite row_preload.
    rewrite (signed_sum_Permutation _ _ _ _ (merge_sort_Permutation _ _)).
    apply signed_sum_split. lia. }
  split; [exact H|].
  intros Hall. rewrite H. unfold GetBalance. by rewrite filter_all.
Qed.

Lemma period_adds_up_witness :
  0 + signed_sum "USER" 1 (row <$> [preload db0 salary]) = GetBalance "USER" 1 db0.
Proof.
  refine (proj2 (period_adds_up up "USER" 1 0 9 db0 0 [preload db0 salary] _ _ _) _).
  - lia.
  - reflexivity.
  - vm_compute. reflexivity.
  - intros t Ht. cbn in Ht.
    apply elem_of_cons in Ht as [->|Ht]; [cbn; lia|].
    apply list_elem_of_singleton in Ht as ->. cbn. lia.
Defined.

(** ** What a ledger call leaves alone, and what it leaves in the audit log *)

Lemma personal_audit env u req d :
  let op := OpPersonal u req in
  rejected env op d \/
  audit_logs (after env op d) = audit_logs d ++
    [AuditLog.mk (uuid_New env 1) "transaction" (uuid_New env 0) "create"
       [("type", JString (CreateTransactionRequest.Type_ req));
        ("amount", JInt (CreateTransactionRequest.Amount req))]
       u (time_Now env) None].
Proof.
  unfold rejected. unfold_engine. cbn.
  unfold userRepo_FindByID_on.
  crunch.
  all: try (left; reject).
  all: right; reflexivity.
Qed.

Lemma group_audit env u req d :
  let op := OpGroup u req in
  rejected env op d \/
  audit_logs (after env op d) = audit_logs d ++
    [AuditLog.mk (uuid_New env 1) "transaction" (uuid_New env 0) "create"
       [("type", JString (CreateTransactionRequest.Type_ req));
        ("amount", JInt (CreateTransactionRequest.Amount req))]
       u (time_Now env) (CreateTransactionRequest.GroupID req)].
Proof.
  unfold rejected. unfold_engine. cbn.
  destruct (CreateTransactionRequest.GroupID req) as [groupID|] eqn:Hg; cbn;
    [|left; reject].
  destruct (not_active_member (groupRepo_FindByUserAndGroup_on env u groupID d)) eqn:Hm; cbn;
    [left; reject|].
  unfold groupRepo_FindByID_on.
  crunch.
  all: try (left; reject).
  all: right; reflexivity.
Qed.

Lemma transfer_audit env u req d :
  let op := OpTransfer u req in
  let groupID := TransferToGroupRequest.GroupID req in
  let amount := TransferToGroupRequest.Amount req in
  rejected env op d \/
  audit_logs (after env op d) = audit_logs d ++
    [AuditLog.mk (uuid_New env 2) "transaction" (uuid_New env 0) "transfer_to_group"
       [("amount", JInt amount); ("group_id", JUuid groupID)]
       u (time_Now env) None;
     AuditLog.mk (uuid_New env 3) "transaction" (uuid_New env 1) "receive_from_member"
       [("amount", JInt amount); ("member_id", JUuid u)]
       u (time_Now env) (Some groupID)].
Proof.
  unfold rejected. unfold_engine. cbn.
  destruct (not_active_member _) eqn:Hm; cbn;
    [left; reject|].
  unfold userRepo_FindByID_on, groupRepo_FindByID_on.
  crunch.
  all: try (left; reject).
  all: right; cbn; rewrite <- app_assoc; reflexivity.
Qed.

Lemma pay_audit env u groupID req d :
  let op := OpPay u groupID req in
  rejected env op d \/
  exists expense,
    planned_expenses d !! PayGroupExpenseRequest.PlannedExpenseID req = Some expense /\
    audit_logs (after env op d) = audit_logs d ++
      [AuditLog.mk (uuid_New env 1) "planned_expense" (PlannedExpense.ID expense) "mark_as_paid"
         [("actual_price", JInt (PayGroupExpenseRequest.ActualPrice req));
          ("paid_by", JUuid u)]
         u (time_Now env) (Some groupID)].
Proof.
  unfold rejected. unfold_engine. cbn.
  destruct (not_active_member _) eqn:Hm; cbn;
    [left; reject|].
  unfold expenseRepo_FindByID_on, groupRepo_FindByID_on.
  crunch.
  all: try (left; reject).
  all: right; eexists; split; reflexivity.
Qed.

Lemma income_audit env u groupID amount source d :
  let op := OpIncome u groupID amount source in
  rejected env op d \/
  audit_logs (after env op d) = audit_logs d ++
    [AuditLog.mk (uuid_New env 1) "transaction" (uuid_New env 0) "record_external_income"
       [("amount", JInt amount); ("source", JString source)]
       u (time_Now env) (Some groupID)].
Proof.
  unfold rejected. unfold_engine. cbn.
  destruct (not_active_member _) eqn:Hm; cbn;
    [left; reject|].
  unfold groupRepo_FindByID_on.
  crunch.
  all: try (left; reject).
  all: right; reflexivity.
Qed.

(** X18.  A ledger call writes the rows of the owners it names and no
    others.  Where rows sit under their own keys, after any call of the
    five methods, committed or not: every user but the one debited or
    credited is as before, every group but the one of the call is as
    before, every planned expense but the one paid is as before, and no
    membership has changed. *)
Theorem ledger_touches_only_its_owners env op d :
  keyed d ->
  let d' := after env op d in
  (forall id, touched_user op <> Some id -> users d' !! id = users d !! id) /\
  (forall id, touched_group op <> Some id -> groups d' !! id = groups d !! id) /\
  (forall id, touched_expense op <> Some id ->
     planned_expenses d' !! id = planned_expenses d !! id) /\
  user_groups d' = user_groups d.
Proof.
  intros (Hku & Hkg & Hke) d'. subst d'. destruct op.
  - pose proof (personal_shape env userID req d) as H. cbv zeta in H.
    destruct H as [(-> & _)|(user & a & Hu & _ & _ & _ & -> & _)]; [done|].
    cbn. rewrite (Hku _ _ Hu). repeat split; try done.
    intros id Hid. apply lookup_insert_ne. congruence.
  - pose proof (group_shape env userID req d) as H. cbv zeta in H.
    destruct H as [(-> & _)|(g & group & a & Hg & _ & Hgr & _ & _ & _ & -> & _)]; [done|].
    cbn. rewrite (Hkg _ _ Hgr), Hg. repeat split; try done.
    intros id Hid. apply lookup_insert_ne. congruence.
  - pose proof (transfer_shape env userID req d) as H. cbv zeta in H.
    destruct H as [(-> & _)|(user & group & a1 & a2 & _ & Hu & Hgr & _ & _ & _ & _ & -> & _)];
      [done|].
    cbn. rewrite (Hku _ _ Hu), (Hkg _ _ Hgr). repeat split; try done.
    all: intros id Hid; apply lookup_insert_ne; congruence.
  - pose proof (pay_shape env userID groupID req d) as H. cbv zeta in H.
    destruct H as [(-> & _)|(x & group & a & _ & Hx & _ & _ & Hgr & _ & _ & _ & -> & _)];
      [done|].
    cbn. rewrite (Hke _ _ Hx), (Hkg _ _ Hgr). repeat split; try done.
    all: intros id Hid; apply lookup_insert_ne; congruence.
  - pose proof (income_shape env userID groupID amount source d) as H. cbv zeta in H.
    destruct H as [(-> & _)|(group & a & _ & Hgr & _ & _ & -> & _)]; [done|].
    cbn. rewrite (Hkg _ _ Hgr). repeat split; try done.
    intros id Hid. apply lookup_insert_ne. congruence.
Qed.

Lemma ledger_touches_only_its_owners_witness :
  (forall id, touched_user (OpTransfer 1 rent) <> Some id ->
     users (after env0 (OpTransfer 1 rent) db0) !! id = users db0 !! id) /\
  (forall id, touched_group (OpTransfer 1 rent) <> Some id ->
     groups (after env0 (OpTransfer 1 rent) db0) !! id = groups db0 !! id) /\
  (forall id, touched_expense (OpTransfer 1 rent) <> Some id ->
     planned_expenses (after env0 (OpTransfer 1 rent) db0) !! id = planned_expenses db0 !! id) /\
  user_groups (after env0 (OpTransfer 1 rent) db0) = user_groups db0.
Proof.
  exact (ledger_touches_only_its_owners env0 (OpTransfer 1 rent) db0 keyed_db0).
Defined.

(** X19.  Every committed ledger call is audited.  A call that changed
    the database appended to the audit log, and only appended: one entry
    for each transaction it recorded, each performed by the acting user at
    the time of the call; an entry about a transaction names one of the
    transactions the call recorded. *)
Theorem committed_calls_are_audited env op d :
  after env op d <> d ->
  exists ts news,
    transactions (after env op d) = transactions d ++ ts /\
    audit_logs (after env op d) = audit_logs d ++ news /\
    news <> [] /\
    length news = length ts /\
    Forall (fun a => AuditLog.PerformedBy a = actor op /\
                     AuditLog.PerformedAt a = time_Now env /\
                     (AuditLog.Entity a = "transaction" ->
                      AuditLog.EntityID a ∈ Transaction.ID <$> ts)) news.
Proof.
  intros Hne. destruct op.
  - pose proof (personal_shape env userID req d) as H. cbv zeta in H.
    pose proof (personal_audit env userID req d) as A. cbv zeta in A.
    destruct H as [(Hd & _)|(? & ? & _ & _ & _ & _ & Ha & _)]; [done|].
    destruct A as [(Hd & _)|A]; [done|].
    eexists [_], [_]. split; [by rewrite Ha|]. split; [exact A|].
    split; [done|]. split; [done|].
    repeat constructor.
  - pose proof (group_shape env userID req d) as H. cbv zeta in H.
    pose proof (group_audit env userID req d) as A. cbv zeta in A.
    destruct H as [(Hd & _)|(? & ? & ? & _ & _ & _ & _ & _ & _ & Ha & _)]; [done|].
    destruct A as [(Hd & _)|A]; [done|].
    eexists [_], [_]. split; [by rewrite Ha|]. split; [exact A|].
    split; [done|]. split; [done|].
    repeat constructor.
  - pose proof (transfer_shape env userID req d) as H. cbv zeta in H.
    pose proof (transfer_audit env userID req d) as A. cbv zeta in A.
    destruct H as [(Hd & _)|(? & ? & ? & ? & _ & _ & _ & _ & _ & _ & _ & Ha & _)]; [done|].
    destruct A as [(Hd & _)|A]; [done|].
    eexists [_; _], [_; _]. split; [rewrite Ha; cbn; by rewrite <- app_assoc|].
    split; [exact A|]. split; [done|]. split; [done|].
    repeat constructor.
  - pose proof (pay_shape env userID groupID req d) as H. cbv zeta in H.
    pose proof (pay_audit env userID groupID req d) as A. cbv zeta in A.
    destruct H as [(Hd & _)|(? & ? & ? & _ & _ & _ & _ & _ & _ & _ & _ & Ha & _)]; [done|].
    destruct A as [(Hd & _)|(paid & _ & A)]; [done|].
    eexists [_], [_]. split; [by rewrite Ha|]. split; [exact A|].
    split; [done|]. split; [done|].
    repeat constructor. all: discriminate.
  - pose proof (income_shape env userID groupID amount source d) as H. cbv zeta in H.
    pose proof (income_audit env userID groupID amount source d) as A. cbv zeta in A.
    destruct H as [(Hd & _)|(? & ? & _ & _ & _ & _ & Ha & _)]; [done|].
    destruct A as [(Hd & _)|A]; [done|].
    eexists [_], [_]. split; [by rewrite Ha|]. split; [exact A|].
    split; [done|]. split; [done|].
    repeat constructor.
Qed.

Lemma committed_calls_are_audited_witness :
  exists ts news,
    transactions (after env0 (OpTransfer 1 rent) db0) = transactions db0 ++ ts /\
    audit_logs (after env0 (OpTransfer 1 rent) db0) = audit_logs db0 ++ news /\
    news <> [] /\
    length news = length ts /\
    Forall (fun a => AuditLog.PerformedBy a = actor (OpTransfer 1 rent) /\
                     AuditLog.PerformedAt a = time_Now env0 /\
                     (AuditLog.Entity a = "transaction" ->
                      AuditLog.EntityID a ∈ Transaction.ID <$> ts)) news.
Proof.
  apply (committed_calls_are_audited env0 (OpTransfer 1 rent) db0).
  vm_compute. discriminate.
Defined.
